(* ===== verification/_CoqProject ===== *)
-Q . S2P
Prelude.v
Types.v
Constants.v
Shipments.v
Analytics.v
App.v
Machine.v
Lifecycle.v
FileUploadModal.v
Page.v
Views.v
Overview.v
Screen.v
Parsed.v
Service.v
System.v
