(* ===== verification/Prelude.v ===== *)
(** * SCM_DOCBOARD: a verification development

    The program is a React dashboard that tracks, per shipment, the six trade
    documents a shipment needs.  A user picks a file, a shipment and a
    document type in a dialog; the application marks the slot as being
    processed, sends a textual surrogate of the file to an analysis service
    and, when the service answers, records the slot as uploaded together with
    an activity-log entry and the extracted data, or records the slot as
    failed.  Four summary figures are computed from the state.

    ** Parts of the program and the files that model them

    - [Prelude] (this file): what the other files share.  JavaScript values
      that the code relies on (truthiness, [a || b], number addition as a
      type class [JsNum] so that the same definitions run on exact integers
      and on IEEE doubles), the interfaces [NumberFormat] and [DateFormat]
      for the two texts that the locale of the browser prints, the
      combinators with which a handler is written
      as a sequence of state updates ([f >>> g]), the [map_if] traversal that
      every [prev.map(x => c x ? f x : x)] of the source is, and the lemmas
      and tactics on lists and maps that the components use.
    - [Types]: [src/types.ts].  The two enums, the [Document], [Shipment],
      [AnalyzedData], [UploadLogEntry] and [ModalState] records.  An object
      with optional fields is a record of [option]s; the [documents] object is
      a [gmap DocumentType Document.t], so that a missing key can be
      expressed and "exactly six slots" is a theorem and not a typing fact.
    - [Constants]: [src/constants.ts].  [DOCUMENT_TYPES] and the five
      [INITIAL_SHIPMENTS], with the facts the rest relies on (every type is
      listed once, every initial shipment has its six slots, ids are
      distinct, nothing is being processed initially).
    - [Shipments]: the three [setShipments(prev => prev.map(...))] updaters
      of [handleFileUpload] in [src/App.tsx] (mark processing, store the
      uploaded document, mark error), with their frame and preservation
      lemmas.
    - [Analytics]: [analyticsSummary] of [src/App.tsx].
    - [App]: the state of the [App] component (one field per [useState]),
      its handlers, and [handleFileUpload] split at its single [await] into
      the part before the suspension and the two continuations.  Its
      theorems are about one upload: its slot, the other slots, the log and
      the summary, on success, on failure and for an unknown shipment; and
      about two uploads in flight at once, which leave the state that they
      leave one after the other in the order in which they settle.
    - [Machine]: the component as a transition system, [step]: a run of a
      handler that the rendered page allows, or the settlement of an upload
      in flight, which is the relation [settlement].  The analysis service
      is the interface [Analyzer].  The invariants (no slot is left
      processing, one upload at a time, six slots per shipment, an uploaded
      slot holds its document, the log matches the analysed data and
      accounts for the uploaded slots, a failure is shown while its message
      is set) are proved by induction on the steps; the settlements
      terminate, by the number of uploads in flight; and a step only adds
      to the log and to the analysed data ([history_kept], a preorder).
    - [Lifecycle]: the abstract state machine of a document slot
      (any status -> Processing -> Uploaded | Error) as the transition
      system [Spec.next], the abstraction [abs], and the proof that [step]
      refines it.
    - [FileUploadModal]: [src/components/FileUploadModal.tsx].  The props,
      the local state, the effect with its dependency array and the renders
      it causes ([Modal.render_cycle]), the handlers, and the [return] of
      the component as the data it shows ([Modal.render]): the texts, the
      file area, the selects with their options and [disabled] attributes,
      the notices and the buttons.
    - [Page]: [App] with the dialog mounted in it, [page_step].  The guards
      of [step] are derived here from the dialog: the page refines [step],
      every upload it starts is for a shipment of the list, and an upload
      to any slot can be started whenever no analysis runs.
    - [Views]: [Dashboard], [ShipmentRow], [DocumentStatusCell] and
      [UploadLogs] of [src/components], as what they show, headings and
      placeholder included; the table agrees with the summary.
    - [Overview]: [src/components/AnalyticsOverview.tsx], with its
      [StatCard]s, and the instance of [JsNum] on the kernel's binary64
      floats: the completion rate as the browser computes and prints it,
      against the exact rate.
    - [Screen]: the [return] of [App] in [src/App.tsx]: the parts of the
      page computed from one state, and the view of the dialog from the
      state of the mounted component.  The parts agree with each other and
      show what the state holds; what the dialog shows can be used; the
      size of a file computed on integers is the one computed on floats.
    - [Parsed]: the value that [JSON.parse] returns in
      [analyzeDocumentContent] ([Json], a JSON value), the reading of its
      five properties as JavaScript reads them ([read_result]: it throws on
      [null], and gives [undefined] for a property that is not there and on
      a value that is no object), the cast of what was read to the type
      that the function declares ([typed]), and the schema of the request
      as a condition on a value ([conforms]).  A value that conforms is of
      the declared type with every property present; the converse fails,
      and a value need not be of the declared type at all.
    - [Service]: [src/services/geminiService.ts].  The mock as a function of
      its random draws and the clock; the request to the remote model with
      its prompt, configuration and schema, and the control flow around the
      call, which is a parameter, as is the parser; the two as instances of
      [Analyzer].  The function throws exactly when the request fails, the
      text is missing or is not JSON, or the value is [null]; a response
      that conforms to the schema fulfils the call with a complete result;
      with the mock, every upload of the page succeeds.
    - [System]: the parts together.  [handleFileUpload_served] is
      [handleFileUpload] of [src/App.tsx] with the call of
      [analyzeDocumentContent] that it awaits.  The page refines the
      lifecycle along whole runs (the refinements of the files Page and
      Lifecycle composed), so no run takes a slot back to [MISSING] or
      rewrites what was recorded; an upload that is never answered blocks
      the dialog for good; with the mock every upload that a user asks for
      is carried out; with a key, a conforming response is what the page
      records, an empty one is recorded as a success, and a failed request
      is shown; after a failure the form is still there and the same
      upload can be submitted again.

    ** How state and effects are modelled

    React state is a record; a setter called with a value overwrites a
    field, a setter called with a function applies it to the latest value.
    The updates a handler makes before it returns or suspends are applied
    in program order and become visible together, so a handler segment is one
    function [AppState -> AppState].  [handleFileUpload] suspends once, at
    [await analyzeDocumentContent(...)]: the model has one function for the
    code before the [await], one for the code after a fulfilled promise and
    one for the [catch] block, each followed by the [finally] block where the
    source runs it.  Other handlers may run while the call is suspended; the
    step relation of the file Machine allows exactly the interleavings that the
    [disabled] attributes of the dialog's buttons allow.

    The clock ([Date.now()], [new Date().toISOString()]) and the analysis
    service are inputs: a handler takes the readings of the clock and the
    outcome of the call as arguments.

    ** Numbers

    Counts ([length], products and differences of lengths) are [Z]: they are
    far below 2^53, where doubles are exact, and the difference
    [totalDocs - uploadedDocs] is not truncated at zero.  File sizes and
    millisecond time stamps are [N].  Monetary amounts and quantities are of
    a type [num] with a [JsNum] instance; theorems that need exact
    arithmetic say so with [ExactNum], and the file Overview instantiates
    [num] with binary64 floats.

    ** Bounds

    The code has no loop but [map], [filter], [reduce] and [find], and the
    functions that model it are structurally recursive or not recursive.
    One definition takes fuel: [Modal.render_cycle], the renders that React
    makes while the effect of the dialog changes its state; its fuel
    counts the renders, and two are proved to be enough from every state.
    The settlements of uploads are a relation, proved strongly
    normalising; the number of uploads in flight bounds the length of a
    sequence.  Three theorems are bounded.  The completion rate is
    proved exact for one to ten shipments, by evaluating the float
    computation on each of the 340 pairs ([uploadedDocs], [totalDocs]) such
    a dashboard can have; the program starts with five shipments and never
    adds one.  The size label of a file is modelled on integers, which is
    what the float computation gives for a size below 2^53 bytes: the two
    are compared by evaluation on 6297 sizes, all up to four kilobytes and
    samples up to 2^53 - 1.  The
    values of the mock are computed for given draws; their range is
    evaluated at the least and the largest draw only, since a proof for
    every draw needs the monotonicity of float rounding, which the
    libraries at hand do not provide.

    ** What is not modelled

    CSS classes, SVG paths and the nesting of the markup: a component is
    modelled as the texts, values and attributes it shows.  The formats of
    [Intl.NumberFormat] and [toLocaleString], which depend on the locale of
    the browser: the components that print through them are modelled
    against the interfaces [NumberFormat] and [DateFormat], and the
    instances used in the examples print an integer plainly and a time
    stamp as it is stored.  The remote model and the network: the call
    [generateContent] is a parameter, a function from the request to a
    response or a failure.  The grammar of JSON: [JSON.parse] is a
    parameter, a partial function from strings to JSON values, and what
    the program does with the value is modelled.  A response whose value
    is not of the type that [analyzeDocumentContent] declares: TypeScript
    does not check it at run time, and the model, whose results are typed,
    has no outcome for it ([project_None] says when).  The generator behind
    [Math.random()], whose draws are inputs of the mock; the 1.5 s timer of
    the mock, which only delays the answer, and the output to the console.
    The imports, the exports and the props interfaces of the components,
    which are types of what the models take as arguments.  The header of the page and the icons, which are
    markup only, and the entry point, which mounts [App]: neither has state
    or logic, and their sources are not part of [src]. *)

From stdpp Require Import base tactics option list strings pretty gmap.

(** ** Truthiness

    [ToBoolean] of the values the program tests: a string is truthy when it
    is not empty, [undefined] is falsy, an object is truthy. *)

Class Truthy (A : Type) := truthy : A → bool.
Global Hint Mode Truthy ! : typeclass_instances.

#[export] Instance string_truthy : Truthy string :=
  λ s, match s with EmptyString => false | String _ _ => true end.

#[export] Instance option_truthy `{Truthy A} : Truthy (option A) :=
  λ o, match o with Some a => truthy a | None => false end.

(** [x || d] where [x] may be [undefined]. *)
Definition js_or `{Truthy A} (x : option A) (d : A) : A :=
  match x with
  | Some a => if truthy a then a else d
  | None => d
  end.

(** [x || null] where [x] may be [undefined]. *)
Definition js_or_null `{Truthy A} (x : option A) : option A :=
  if truthy x then x else None.

(** ** Numbers of the program

    What the program does with a JavaScript number: add two of them, start a
    sum at zero, test one for truthiness. *)

Class JsNum (num : Type) := {
  num_zero : num;
  num_add : num → num → num;
  num_truthy :: Truthy num;
}.
Global Hint Mode JsNum ! : typeclass_instances.

(** The laws of exact arithmetic.  Integers satisfy them; doubles do not. *)
Class ExactNum (num : Type) `{JsNum num} : Prop := {
  num_add_comm : ∀ x y : num, num_add x y = num_add y x;
  num_add_assoc : ∀ x y z : num, num_add x (num_add y z) = num_add (num_add x y) z;
  num_add_zero_l : ∀ x : num, num_add num_zero x = x;
  num_falsy_zero : ∀ x : num, truthy x = false ↔ x = num_zero;
}.

#[export] Instance Z_JsNum : JsNum Z := {
  num_zero := 0%Z;
  num_add := Z.add;
  num_truthy := λ z, negb (Z.eqb z 0);
}.

#[export] Instance Z_ExactNum : ExactNum Z.
Proof.
  split; simpl; intros; try lia.
  unfold truthy, num_truthy; simpl. rewrite negb_false_iff. apply Z.eqb_eq.
Qed.

(** ** The locale of the browser

    Two texts are printed by the platform in the locale of the user, not by
    the program: a number, by [new Intl.NumberFormat().format(x)], and a
    time, by [new Date(iso).toLocaleString()].  The components that show
    them are modelled against these two interfaces. *)

Class NumberFormat (num : Type) := numberFormat : num → string.
Global Hint Mode NumberFormat ! : typeclass_instances.

Class DateFormat := toLocaleString : string → string.

(** A locale for the witnesses: integers in decimal digits without
    grouping, and a time as its ISO text. *)
#[export] Instance plain_NumberFormat : NumberFormat Z := pretty.
#[export] Instance iso_DateFormat : DateFormat | 100 := id.

(** ** Sequences of state updates

    A handler's body is a sequence of calls to setters.  Each call is a
    function on the state, and [f >>> g] runs [f] and then [g]. *)

Declare Scope upd_scope.
Delimit Scope upd_scope with upd.

Definition andThen {S : Type} (f g : S → S) : S → S := λ s, g (f s).
Definition skip {S : Type} : S → S := λ s, s.
(** A statement under [if (b)]. *)
Definition when {S : Type} (b : bool) (f : S → S) : S → S :=
  if b then f else skip.

Notation "f >>> g" := (andThen f g)
  (at level 61, left associativity) : upd_scope.
Open Scope upd_scope.

(** ** [prev.map(x => c(x) ? f(x) : x)] *)

Definition map_if {A : Type} (c : A → bool) (f : A → A) (l : list A) : list A :=
  (λ x, if c x then f x else x) <$> l.

(** [array.find(p)]: the first element that satisfies [p]. *)
Definition js_find {A : Type} (p : A → bool) (l : list A) : option A :=
  List.find p l.

(** [Object.values(o)] of an object used as a map.  The order is the map's;
    the program only counts or sums the values. *)
Definition js_values `{Countable K} {A : Type} (o : gmap K A) : list A :=
  (map_to_list o).*2.

(** The finite map that agrees with [f] on the keys of [l] and is empty
    elsewhere. *)
Definition tabulate `{Countable K} {A : Type} (f : K → option A) (l : list K)
  : gmap K A :=
  list_to_map (omap (λ k, pair k <$> f k) l).

(** [l.filter(p).length] *)
Definition count {A : Type} (P : A → Prop) `{∀ x, Decision (P x)} (l : list A) : nat :=
  length (filter P l).

(** ** Tactics *)

(** Unfold the update combinators. *)
Ltac unfold_upd := unfold andThen, skip, when in *.

(** Case analysis on the condition of the first [if] of the goal. *)
Ltac case_if := match goal with |- context [if ?b then _ else _] => destruct b eqn:? end.

(** ** Lemmas *)

Section updates.
Context {S : Type}.
Implicit Types f g h : S → S.

Lemma andThen_assoc f g h s : ((f >>> g) >>> h) s = (f >>> (g >>> h)) s.
Proof. reflexivity. Qed.

Lemma andThen_skip_r f s : (f >>> skip) s = f s.
Proof. reflexivity. Qed.

Lemma when_true f s : when true f s = f s.
Proof. reflexivity. Qed.

Lemma when_false f s : when false f s = s.
Proof. reflexivity. Qed.

End updates.

Section truthiness.

Lemma truthy_string_nonempty (s : string) : truthy s = true ↔ s ≠ "".
Proof. destruct s; simpl; split; (done || congruence). Qed.

Lemma js_or_None `{Truthy A} (d : A) : js_or None d = d.
Proof. reflexivity. Qed.

Lemma js_or_truthy `{Truthy A} (a d : A) : truthy a = true → js_or (Some a) d = a.
Proof. unfold js_or. by intros ->. Qed.

Lemma js_or_falsy `{Truthy A} (a d : A) : truthy a = false → js_or (Some a) d = d.
Proof. unfold js_or. by intros ->. Qed.

Lemma js_or_zero_exact `{ExactNum num} (x : option num) :
  js_or x num_zero = default num_zero x.
Proof.
  destruct x as [a|]; simpl; [|done].
  destruct (truthy a) eqn:E; [done|]. symmetry. by apply num_falsy_zero.
Qed.

End truthiness.

Section strings.
Implicit Types s t : string.

Lemma string_length_app s t :
  String.length (s +:+ t) = String.length s + String.length t.
Proof. induction s as [|c s IH]; simpl; [done|by rewrite IH]. Qed.

(** Template literals with the same text around a hole agree only when the
    hole is filled with the same string. *)
#[export] Instance string_app_inj_r t : Inj (=) (=) (λ s, s +:+ t).
Proof.
  intros x. induction x as [|c x IH]; intros [|c' y] Heq.
  - done.
  - apply (f_equal String.length) in Heq.
    rewrite !string_length_app in Heq. simpl in Heq. lia.
  - apply (f_equal String.length) in Heq.
    rewrite !string_length_app in Heq. simpl in Heq. lia.
  - injection Heq as -> Heq. f_equal. by apply IH.
Qed.

Lemma string_template_inj (pre post x y : string) :
  pre +:+ x +:+ post = pre +:+ y +:+ post ↔ x = y.
Proof.
  split; [|by intros ->]. intros Heq%(inj (String.append pre)).
  by apply (inj (λ s, s +:+ post)) in Heq.
Qed.

End strings.

Section map_if.
Context {A : Type}.
Implicit Types (c : A → bool) (f : A → A) (l : list A).

Lemma map_if_nil c f : map_if c f [] = [].
Proof. reflexivity. Qed.

Lemma map_if_cons c f x l :
  map_if c f (x :: l) = (if c x then f x else x) :: map_if c f l.
Proof. reflexivity. Qed.

Lemma map_if_app c f l k : map_if c f (l ++ k) = map_if c f l ++ map_if c f k.
Proof. apply fmap_app. Qed.

Lemma length_map_if c f l : length (map_if c f l) = length l.
Proof. apply length_fmap. Qed.

Lemma map_if_lookup c f l i :
  map_if c f l !! i = (λ x, if c x then f x else x) <$> l !! i.
Proof. apply list_lookup_fmap. Qed.

(** No element satisfies the condition: the traversal changes nothing. *)
Lemma map_if_none c f l : Forall (λ x, c x = false) l → map_if c f l = l.
Proof.
  induction 1 as [|x l Hx _ IH]; [done|].
  by rewrite map_if_cons, Hx, IH.
Qed.

(** A property that [f] preserves on the matching elements is preserved. *)
Lemma map_if_Forall (P : A → Prop) c f l :
  (∀ x, c x = true → P x → P (f x)) → Forall P l → Forall P (map_if c f l).
Proof.
  intros Hf. induction 1 as [|x l Hx _ IH]; constructor; [|done].
  destruct (c x) eqn:E; auto.
Qed.

(** A projection that [f] leaves alone is the same on the whole list. *)
Lemma map_if_proj {B} (g : A → B) c f l :
  (∀ x, c x = true → g (f x) = g x) → g <$> map_if c f l = g <$> l.
Proof.
  intros Hf. induction l as [|x l IH]; [done|].
  rewrite map_if_cons, !fmap_cons, IH. f_equal.
  destruct (c x) eqn:E; auto.
Qed.

(** Membership after the traversal. *)
Lemma elem_of_map_if c f l y :
  y ∈ map_if c f l ↔ ∃ x, x ∈ l ∧ y = (if c x then f x else x).
Proof.
  unfold map_if. rewrite list_elem_of_fmap.
  split; intros (x & ? & ?); exists x; done.
Qed.

(** Two traversals with the same condition, when [f] keeps the condition. *)
Lemma map_if_map_if c f g l :
  (∀ x, c x = true → c (f x) = true) →
  map_if c g (map_if c f l) = map_if c (λ x, g (f x)) l.
Proof.
  intros Hc. induction l as [|x l IH]; [done|].
  rewrite !map_if_cons, IH. f_equal.
  destruct (c x) eqn:E; [by rewrite Hc|by rewrite E].
Qed.

(** [find] after the traversal, for a predicate that [f] does not change. *)
Lemma js_find_map_if (p : A → bool) c f l :
  (∀ x, c x = true → p (f x) = p x) →
  js_find p (map_if c f l) = (λ x, if c x then f x else x) <$> js_find p l.
Proof.
  intros Hp. unfold js_find. induction l as [|x l IH]; [done|].
  rewrite map_if_cons; simpl.
  destruct (c x) eqn:Ec; [rewrite Hp by done|];
    (destruct (p x); simpl; [by rewrite ?Ec|done]).
Qed.

Lemma js_find_Some (p : A → bool) l x :
  js_find p l = Some x → x ∈ l ∧ p x = true.
Proof.
  unfold js_find. intros [? ?]%find_some. by rewrite list_elem_of_In.
Qed.

Lemma js_find_None (p : A → bool) l :
  js_find p l = None ↔ Forall (λ x, p x = false) l.
Proof.
  unfold js_find. rewrite Forall_forall. split.
  - intros Hn x Hx%list_elem_of_In. by eapply find_none.
  - intros Hall. destruct (find p l) as [x|] eqn:E; [|done].
    apply find_some in E as [Hx%list_elem_of_In Hp].
    rewrite (Hall x Hx) in Hp. done.
Qed.

End map_if.

Section counting.
Context {A : Type} (P : A → Prop) `{∀ x, Decision (P x)}.
Implicit Types l k : list A.

Lemma count_nil : count P [] = 0.
Proof. reflexivity. Qed.

Lemma count_cons x l :
  count P (x :: l) = (if decide (P x) then 1 else 0) + count P l.
Proof. unfold count. rewrite filter_cons. by destruct (decide (P x)). Qed.

Lemma count_app l k : count P (l ++ k) = count P l + count P k.
Proof. unfold count. by rewrite filter_app, length_app. Qed.

Lemma count_le_length l : count P l ≤ length l.
Proof. apply length_filter. Qed.

Lemma count_perm l k : l ≡ₚ k → count P l = count P k.
Proof. unfold count. by intros ->. Qed.

(** [l.flatMap(g).filter(p).length], shipment by shipment. *)
Lemma count_bind {B} (g : B → list A) (l : list B) :
  count P (l ≫= g) = sum_list_with (λ x, count P (g x)) l.
Proof.
  induction l as [|x l IH]; [done|].
  by rewrite bind_cons, count_app, IH.
Qed.

(** The elements that satisfy [P] and those that do not are all of them. *)
Lemma count_complement l : count P l + count (λ x, ¬ P x) l = length l.
Proof.
  unfold count. rewrite <- length_app.
  by rewrite (filter_app_complement P l).
Qed.

End counting.

#[export] Instance count_perm_proper {A} (P : A → Prop) `{∀ x, Decision (P x)} :
  Proper ((≡ₚ) ==> (=)) (count P).
Proof. intros l k. apply count_perm. Qed.

Section omap.
Context {A B : Type} (f : A → option B).

Lemma omap_cons_Some x y (l : list A) : f x = Some y → omap f (x :: l) = y :: omap f l.
Proof. intros E. change (omap f (x :: l)) with (match f x with Some y => y :: omap f l | None => omap f l end). by rewrite E. Qed.

Lemma omap_cons_None x (l : list A) : f x = None → omap f (x :: l) = omap f l.
Proof. intros E. change (omap f (x :: l)) with (match f x with Some y => y :: omap f l | None => omap f l end). by rewrite E. Qed.

End omap.

Section objects.
Context `{Countable K} {A : Type}.
Implicit Types (o : gmap K A) (k : K) (v : A).

Lemma length_js_values o : length (js_values o) = size o.
Proof. unfold js_values. by rewrite length_fmap, length_map_to_list. Qed.

(** A property of an object: its value joins or leaves the values. *)
Lemma js_values_delete o k v :
  o !! k = Some v → js_values o ≡ₚ v :: js_values (delete k o).
Proof.
  intros Hk. unfold js_values.
  by rewrite <- (map_to_list_delete o k v Hk), fmap_cons.
Qed.

(** [{ ...o, [k]: v }] *)
Lemma js_values_insert o k v :
  js_values (<[k:=v]> o) ≡ₚ v :: js_values (delete k o).
Proof.
  rewrite (js_values_delete (<[k:=v]> o) k v) by apply lookup_insert_eq.
  by rewrite delete_insert_eq.
Qed.

(** The values are the properties read key by key, for any list of keys
    that names each key of the object once. *)
Lemma js_values_keys o (ks : list K) :
  NoDup ks → (∀ k, is_Some (o !! k) → k ∈ ks) →
  js_values o ≡ₚ omap (λ k, o !! k) ks.
Proof.
  intros Hnd. revert o. induction Hnd as [|k ks Hk _ IH]; intros o Hdom.
  - assert (o = ∅) as ->; [|by unfold js_values; rewrite map_to_list_empty].
    apply map_empty. intros k. apply eq_None_not_Some. intros Hs.
    by apply Hdom, elem_of_nil in Hs.
  - assert (js_values (delete k o) ≡ₚ omap (λ k', o !! k') ks) as Hrest.
    { rewrite IH.
      - erewrite list_omap_ext; [done|]. apply Forall_Forall2_diag, Forall_forall.
        intros k' Hk'. apply lookup_delete_ne. by intros ->.
      - intros k' [v [Hne Hv]%lookup_delete_Some].
        assert (k' ∈ k :: ks) as [->|?]%elem_of_cons by eauto; done. }
    destruct (o !! k) as [v|] eqn:E.
    + by rewrite (omap_cons_Some (λ k, o !! k) k v ks E),
        (js_values_delete o k v E), Hrest.
    + by rewrite (omap_cons_None (λ k, o !! k) k ks E), <- Hrest, delete_id.
Qed.

End objects.

Section sums.
Context `{JsNum num}.

(** [l.reduce((sum, x) => sum + v(x), 0)] *)
Definition js_sum {A : Type} (v : A → num) (l : list A) : num :=
  foldl (λ sum x, num_add sum (v x)) num_zero l.

Lemma js_sum_nil {A} (v : A → num) : js_sum v [] = num_zero.
Proof. reflexivity. Qed.

Lemma js_sum_snoc {A} (v : A → num) l x :
  js_sum v (l ++ [x]) = num_add (js_sum v l) (v x).
Proof. unfold js_sum. by rewrite foldl_app. Qed.

End sums.

Section exact_sums.
Context `{ExactNum num}.

Lemma foldl_add_shift {A} (v : A → num) (a b : num) l :
  foldl (λ sum x, num_add sum (v x)) (num_add a b) l =
  num_add a (foldl (λ sum x, num_add sum (v x)) b l).
Proof.
  revert b. induction l as [|x l IH]; intros b; simpl; [done|].
  by rewrite <- num_add_assoc, IH.
Qed.

Lemma js_sum_cons {A} (v : A → num) x l :
  js_sum v (x :: l) = num_add (v x) (js_sum v l).
Proof.
  unfold js_sum; simpl.
  rewrite (num_add_comm num_zero), <- foldl_add_shift.
  by rewrite (num_add_comm (v x)).
Qed.

Lemma js_sum_app {A} (v : A → num) l k :
  js_sum v (l ++ k) = num_add (js_sum v l) (js_sum v k).
Proof.
  induction l as [|x l IH]; simpl.
  - by rewrite js_sum_nil, num_add_zero_l.
  - by rewrite !js_sum_cons, IH, num_add_assoc.
Qed.

(** With exact arithmetic a sum does not depend on the order of the list. *)
Lemma js_sum_perm {A} (v : A → num) l k : l ≡ₚ k → js_sum v l = js_sum v k.
Proof.
  induction 1 as [|x l k _ IH|x y l|l k m _ IH1 _ IH2].
  - done.
  - by rewrite !js_sum_cons, IH.
  - rewrite !js_sum_cons, !num_add_assoc. f_equal. apply num_add_comm.
  - congruence.
Qed.

End exact_sums.

#[export] Instance js_sum_perm_proper `{ExactNum num} {A} (v : A → num) :
  Proper ((≡ₚ) ==> (=)) (js_sum v).
Proof. intros l k. apply js_sum_perm. Qed.

(** [l.map(f).filter(p).length] is a count over [l]. *)
Lemma count_fmap_iff {A B} (f : A → B) (P : B → Prop) (Q : A → Prop)
    `{∀ y, Decision (P y)} `{∀ x, Decision (Q x)} (l : list A) :
  (∀ x, x ∈ l → P (f x) ↔ Q x) → count P (f <$> l) = count Q l.
Proof.
  induction l as [|x l IH]; [done|]. intros Hl.
  rewrite fmap_cons, !count_cons, IH by (intros y Hy; apply Hl; by right).
  specialize (Hl x ltac:(left)). by repeat case_decide; try tauto.
Qed.

Section tabulate.
Context `{Countable K} {A : Type} (f : K → option A).

Lemma lookup_tabulate l k :
  tabulate f l !! k = if decide (k ∈ l) then f k else None.
Proof.
  unfold tabulate. induction l as [|a l IH]; [done|].
  destruct (decide (k = a)) as [->|Hne].
  - rewrite decide_True by left. destruct (f a) as [v|] eqn:Ha.
    + rewrite (omap_cons_Some _ a (a, v)) by by rewrite Ha.
      by rewrite list_to_map_cons, lookup_insert_eq.
    + rewrite omap_cons_None, IH by by rewrite Ha. by case_decide.
  - assert (k ∈ a :: l ↔ k ∈ l) as Hiff by (rewrite elem_of_cons; tauto).
    rewrite (decide_ext _ _ _ _ Hiff), <- IH. destruct (f a) as [v|] eqn:Ha.
    + rewrite (omap_cons_Some _ a (a, v)) by by rewrite Ha.
      by rewrite list_to_map_cons, lookup_insert_ne.
    + by rewrite omap_cons_None by by rewrite Ha.
Qed.

(** Where [f] is defined only on keys of [l], the map is [f]. *)
Lemma lookup_tabulate_total l k :
  (∀ k, is_Some (f k) → k ∈ l) → tabulate f l !! k = f k.
Proof.
  intros Hl. rewrite lookup_tabulate. case_decide as Hk; [done|].
  destruct (f k) eqn:Hf; [|done]. destruct Hk. apply Hl. by rewrite Hf.
Qed.

End tabulate.

(** ** Hints *)

Create HintDb docboard discriminated.
Create Rewrite HintDb docboard.

#[export] Hint Rewrite @length_map_if @map_if_nil @map_if_cons : docboard.
#[export] Hint Rewrite @js_sum_nil @js_sum_snoc : docboard.
#[export] Hint Resolve map_if_none map_if_Forall : docboard.
