(* ===== verification/Types.v ===== *)
(** * Types: the data model of [src/types.ts]

    The two string enums with the strings they stand for, and the interfaces
    as records.  A property declared with [?] is an [option]; the browser's
    [File] is the record of the three properties the program reads.  Each
    record lives in a module of its own so that the properties keep the names
    they have in the source. *)

From stdpp Require Import base tactics option list strings gmap finite.
From S2P Require Import Prelude.

(** ** [enum DocumentType] *)

Inductive DocumentType :=
  | INVOICE
  | BILL_OF_LADING
  | PACKING_LIST
  | CERTIFICATE_OF_ORIGIN
  | CUSTOMS_DECLARATION
  | SETTLEMENT_STATEMENT.

(** The string each member is at run time. *)
Definition DocumentType_value (d : DocumentType) : string :=
  match d with
  | INVOICE => "Commercial Invoice"
  | BILL_OF_LADING => "Bill of Lading (BL)"
  | PACKING_LIST => "Packing List"
  | CERTIFICATE_OF_ORIGIN => "Certificate of Origin"
  | CUSTOMS_DECLARATION => "Customs Declaration"
  | SETTLEMENT_STATEMENT => "Settlement Statement"
  end.

#[export] Instance DocumentType_eq_dec : EqDecision DocumentType.
Proof. solve_decision. Defined.

(** The member a string stands for, if any: the reading of a cast
    [s as DocumentType]. *)
Definition DocumentType_of_value (s : string) : option DocumentType :=
  if bool_decide (s = "Commercial Invoice") then Some INVOICE
  else if bool_decide (s = "Bill of Lading (BL)") then Some BILL_OF_LADING
  else if bool_decide (s = "Packing List") then Some PACKING_LIST
  else if bool_decide (s = "Certificate of Origin") then Some CERTIFICATE_OF_ORIGIN
  else if bool_decide (s = "Customs Declaration") then Some CUSTOMS_DECLARATION
  else if bool_decide (s = "Settlement Statement") then Some SETTLEMENT_STATEMENT
  else None.

#[export] Instance DocumentType_finite : Finite DocumentType.
Proof.
  refine {| enum := [INVOICE; BILL_OF_LADING; PACKING_LIST; CERTIFICATE_OF_ORIGIN;
                     CUSTOMS_DECLARATION; SETTLEMENT_STATEMENT] |}.
  - compute_done.
  - intros []; compute_done.
Defined.

(** ** [enum DocumentStatus] *)

Inductive DocumentStatus :=
  | MISSING
  | UPLOADED
  | PROCESSING
  | DUPLICATE
  | ERROR.

Definition DocumentStatus_value (s : DocumentStatus) : string :=
  match s with
  | MISSING => "Missing"
  | UPLOADED => "Uploaded"
  | PROCESSING => "Processing"
  | DUPLICATE => "Duplicate"
  | ERROR => "Error"
  end.

#[export] Instance DocumentStatus_eq_dec : EqDecision DocumentStatus.
Proof. solve_decision. Defined.

#[export] Instance DocumentStatus_finite : Finite DocumentStatus.
Proof.
  refine {| enum := [MISSING; UPLOADED; PROCESSING; DUPLICATE; ERROR] |}.
  - compute_done.
  - intros []; compute_done.
Defined.

(** ** [interface Document], as the slots of a shipment hold it:
    [Pick<Document, 'status'> & Partial<Omit<Document, 'status'>>] *)

Module Document.

Record t := mk {
  name : option string;
  status : DocumentStatus;
  uploadDate : option string;
  uploader : option string;
  driveLink : option string;
  analysisSummary : option string;
}.

(** [{ status: s }] *)
Definition of_status (s : DocumentStatus) : t := mk None s None None None None.

(** [{ ...d, status: s }], where [d] may be [undefined]. *)
Definition spread_status (d : option t) (s : DocumentStatus) : t :=
  match d with
  | Some d => mk (name d) s (uploadDate d) (uploader d) (driveLink d) (analysisSummary d)
  | None => of_status s
  end.

(** The optional properties are all absent. *)
Definition bare (d : t) : bool :=
  bool_decide (name d = None ∧ uploadDate d = None ∧ uploader d = None
               ∧ driveLink d = None ∧ analysisSummary d = None).

(** The data model's reading of a slot: the properties of an upload are
    present exactly when the status is [UPLOADED] (the summary may be
    absent even then). *)
Definition consistent (d : t) : bool :=
  match status d with
  | UPLOADED => bool_decide (is_Some (name d) ∧ is_Some (uploadDate d)
                             ∧ is_Some (uploader d) ∧ is_Some (driveLink d))
  | _ => bare d
  end.

(** The half of it that the program keeps: an uploaded slot has the
    properties of an upload. *)
Definition complete (d : t) : Prop :=
  status d = UPLOADED →
  is_Some (name d) ∧ is_Some (uploadDate d) ∧ is_Some (uploader d) ∧ is_Some (driveLink d).

End Document.

#[export] Instance Document_eq_dec : EqDecision Document.t.
Proof. solve_decision. Defined.

(** ** [interface Shipment] *)

Module Shipment.

Record t := mk {
  id : string;
  invoiceNumber : string;
  shippingDate : string;
  origin : string;
  destination : string;
  carrier : string;
  documents : gmap DocumentType Document.t;
}.

(** [{ ...shipment, documents: docs }] *)
Definition with_documents (s : t) (docs : gmap DocumentType Document.t) : t :=
  mk (id s) (invoiceNumber s) (shippingDate s) (origin s) (destination s)
     (carrier s) docs.

(** [shipment.documents[docType].status], when the slot exists. *)
Definition status_of (s : t) (docType : DocumentType) : option DocumentStatus :=
  Document.status <$> documents s !! docType.

(** The mapped type [{ [key in DocumentType]: ... }]: a slot for every type. *)
Definition wf (s : t) : Prop := ∀ docType, is_Some (documents s !! docType).

End Shipment.

#[export] Instance Shipment_wf_dec s : Decision (Shipment.wf s).
Proof. unfold Shipment.wf. apply _. Defined.

(** ** The browser's [File], as far as the program reads it *)

Module File.

Record t := mk {
  name : string;
  type : string;
  size : N;
}.

End File.

#[export] Instance File_eq_dec : EqDecision File.t.
Proof. solve_decision. Defined.

(** A [File] is an object, and an object is truthy. *)
#[export] Instance File_truthy : Truthy File.t := λ _, true.

(** ** [Omit<AnalyzedData, 'shipmentId'>]: what the analysis returns *)

Module AnalysisResult.

Record t {num : Type} := mk {
  invoiceNumber : option string;
  totalAmount : option num;
  quantity : option num;
  skus : option (list string);
  analysisSummary : option string;
}.
Global Arguments t : clear implicits.
Global Arguments mk {num}.

End AnalysisResult.

(** ** [interface AnalyzedData] *)

Module AnalyzedData.

Record t {num : Type} := mk {
  shipmentId : string;
  invoiceNumber : option string;
  totalAmount : option num;
  quantity : option num;
  skus : option (list string);
  analysisSummary : option string;
}.
Global Arguments t : clear implicits.
Global Arguments mk {num}.

(** [{ shipmentId, ...analysisResult }] *)
Definition of_result {num} (shipmentId : string) (r : AnalysisResult.t num) : t num :=
  mk shipmentId (AnalysisResult.invoiceNumber r) (AnalysisResult.totalAmount r)
     (AnalysisResult.quantity r) (AnalysisResult.skus r)
     (AnalysisResult.analysisSummary r).

End AnalyzedData.

(** ** [interface UploadLogEntry] *)

Inductive AnalysisStatus := Success | Failed.

#[export] Instance AnalysisStatus_eq_dec : EqDecision AnalysisStatus.
Proof. solve_decision. Defined.

Module UploadLogEntry.

Record t {num : Type} := mk {
  id : string;
  fileName : string;
  driveLink : string;
  uploadTimestamp : string;
  documentType : DocumentType;
  uploader : string;
  shipmentId : string;
  analysisStatus : AnalysisStatus;
  comments : option string;
  extractedData : option (AnalysisResult.t num);
}.
Global Arguments t : clear implicits.
Global Arguments mk {num}.

End UploadLogEntry.

(** ** [interface ModalState] *)

Module ModalState.

Record t := mk {
  isOpen : bool;
  shipmentId : option string;
  docType : option DocumentType;
  file : option File.t;
}.

(** [{ isOpen: false }] *)
Definition closed : t := mk false None None None.

End ModalState.

(** ** Facts about the enums *)

Section enums.

(** No two document types are the same string: the [documents] object,
    which JavaScript keys by these strings, has one property per type. *)
#[export] Instance DocumentType_value_inj : Inj (=) (=) DocumentType_value.
Proof. intros [] []; simpl; (done || discriminate). Qed.

#[export] Instance DocumentStatus_value_inj : Inj (=) (=) DocumentStatus_value.
Proof. intros [] []; simpl; (done || discriminate). Qed.

(** The cast of a member's string gives the member back. *)
Lemma DocumentType_of_value_value d : DocumentType_of_value (DocumentType_value d) = Some d.
Proof. by destruct d. Qed.

(** A string that is cast to a member is the string of that member. *)
Lemma DocumentType_value_of_value s d :
  DocumentType_of_value s = Some d → DocumentType_value d = s.
Proof.
  unfold DocumentType_of_value. repeat case_bool_decide; by intros [= <-].
Qed.

Lemma DocumentType_of_value_Some s d :
  DocumentType_of_value s = Some d ↔ s = DocumentType_value d.
Proof.
  split; [by intros <-%DocumentType_value_of_value|].
  intros ->. apply DocumentType_of_value_value.
Qed.

(** The strings of the members are not empty: a member is truthy. *)
Lemma DocumentType_value_truthy d : truthy (DocumentType_value d) = true.
Proof. by destruct d. Qed.


Lemma card_DocumentType : card DocumentType = 6.
Proof. reflexivity. Qed.

Lemma card_DocumentStatus : card DocumentStatus = 5.
Proof. reflexivity. Qed.

End enums.

(** ** Facts about slots *)

Section slots.
Implicit Types (d : Document.t) (o : option Document.t) (st : DocumentStatus).

Lemma status_spread_status o st : Document.status (Document.spread_status o st) = st.
Proof. by destruct o. Qed.

(** Spreading keeps every property but the status. *)
Lemma spread_status_fields d st :
  let d' := Document.spread_status (Some d) st in
  Document.name d' = Document.name d
  ∧ Document.uploadDate d' = Document.uploadDate d
  ∧ Document.uploader d' = Document.uploader d
  ∧ Document.driveLink d' = Document.driveLink d
  ∧ Document.analysisSummary d' = Document.analysisSummary d.
Proof. done. Qed.

Lemma spread_status_spread_status o st1 st2 :
  Document.spread_status (Some (Document.spread_status o st1)) st2
  = Document.spread_status o st2.
Proof. by destruct o. Qed.

Lemma bare_spread_status d st :
  Document.bare (Document.spread_status (Some d) st) = Document.bare d.
Proof. done. Qed.

Lemma consistent_complete d : Document.consistent d = true → Document.complete d.
Proof.
  unfold Document.consistent, Document.complete. intros Hc Hst.
  rewrite Hst in Hc. by apply bool_decide_eq_true in Hc.
Qed.

Lemma complete_spread_status o st : st ≠ UPLOADED → Document.complete (Document.spread_status o st).
Proof. intros Hne Hst. by rewrite status_spread_status in Hst. Qed.

Lemma bare_of_status st : Document.bare (Document.of_status st) = true.
Proof. done. Qed.

End slots.

(** ** Facts about the [documents] map *)

Section documents.
Implicit Types (s : Shipment.t) (m : gmap DocumentType Document.t).

(** A map with a slot for every type has exactly six slots. *)
Lemma total_map_size m : (∀ dt, is_Some (m !! dt)) → size m = 6.
Proof.
  intros Htot.
  assert (dom m = list_to_set (enum DocumentType)) as Hdom.
  { apply set_eq. intros dt. rewrite elem_of_dom. split; [|by auto].
    intros _. apply elem_of_list_to_set, elem_of_enum. }
  rewrite <- size_dom, Hdom. reflexivity.
Qed.

Lemma wf_size s : Shipment.wf s → size (Shipment.documents s) = 6.
Proof. apply total_map_size. Qed.

(** Writing a slot keeps the map total. *)
Lemma total_map_insert m dt d :
  (∀ dt, is_Some (m !! dt)) → ∀ dt', is_Some (<[dt:=d]> m !! dt').
Proof.
  intros Htot dt'. destruct (decide (dt = dt')) as [->|Hne].
  - rewrite lookup_insert_eq. eauto.
  - by rewrite lookup_insert_ne.
Qed.

Lemma status_of_Some s dt st :
  Shipment.status_of s dt = Some st ↔
  ∃ d, Shipment.documents s !! dt = Some d ∧ Document.status d = st.
Proof.
  unfold Shipment.status_of. rewrite fmap_Some.
  split; intros (d & ? & ?); exists d; done.
Qed.

Lemma wf_status_of s dt : Shipment.wf s → is_Some (Shipment.status_of s dt).
Proof. intros Hwf. unfold Shipment.status_of. rewrite fmap_is_Some. apply Hwf. Qed.

End documents.

#[export] Hint Rewrite status_spread_status spread_status_spread_status : docboard.
#[export] Hint Resolve total_map_insert wf_status_of : docboard.
