(* ===== verification/Constants.v ===== *)
(** * Constants: [src/constants.ts]

    The display order of the document types and the shipments the
    application starts with, and the facts about them that the invariants of
    the application start from. *)

From stdpp Require Import base tactics option list strings gmap finite.
From S2P Require Import Prelude Types.

(** ** [DOCUMENT_TYPES] *)

Definition DOCUMENT_TYPES : list DocumentType := [
  INVOICE;
  BILL_OF_LADING;
  PACKING_LIST;
  CERTIFICATE_OF_ORIGIN;
  CUSTOMS_DECLARATION;
  SETTLEMENT_STATEMENT
].

(** ** [INITIAL_SHIPMENTS] *)

(** The slot literals of the file: [{ status: MISSING }] and
    [{ status, name, uploadDate, uploader, driveLink }]. *)
Definition missing : Document.t := Document.of_status MISSING.

Definition uploaded (name uploadDate uploader driveLink : string) : Document.t :=
  Document.mk (Some name) UPLOADED (Some uploadDate) (Some uploader) (Some driveLink) None.

Definition INITIAL_SHIPMENTS : list Shipment.t := [
  Shipment.mk "BSTSE002509010-1" "INPHL0002508290044" "2025-10-01" "IN" "KR" "SBSGPH"
    (list_to_map [
      (INVOICE, uploaded "CIPL_BSTSE002509010.pdf" "2024-10-23" "Yujin" "#");
      (BILL_OF_LADING, missing);
      (PACKING_LIST, missing);
      (CERTIFICATE_OF_ORIGIN, uploaded "COO_BSTSE002509010.pdf" "2024-10-24" "Admin" "#");
      (CUSTOMS_DECLARATION, missing);
      (SETTLEMENT_STATEMENT, missing)]);
  Shipment.mk "MV0205020250510-02" "INSCG00250830021" "2025-10-02" "KR" "US" "AMZUS"
    (list_to_map [
      (INVOICE, missing);
      (BILL_OF_LADING, missing);
      (PACKING_LIST, missing);
      (CERTIFICATE_OF_ORIGIN, missing);
      (CUSTOMS_DECLARATION, missing);
      (SETTLEMENT_STATEMENT, missing)]);
  Shipment.mk "MV0205020250510-06" "MV0205020250510-06" "2025-10-08" "KR" "US" "AMZUS"
    (list_to_map [
      (INVOICE, uploaded "INV_MV0205020250510-06.pdf" "2024-10-23" "Yujin" "#");
      (BILL_OF_LADING, uploaded "BL_MV0205020250510-06.pdf" "2024-10-23" "Yujin" "#");
      (PACKING_LIST, missing);
      (CERTIFICATE_OF_ORIGIN, missing);
      (CUSTOMS_DECLARATION, missing);
      (SETTLEMENT_STATEMENT, missing)]);
  Shipment.mk "MV02110604202510-01" "MV02110604202510-01" "2025-10-01" "KR" "US" "CJ대한통운"
    (list_to_map [
      (INVOICE, Document.of_status ERROR);
      (BILL_OF_LADING, missing);
      (PACKING_LIST, uploaded "PL_MV02110604202510-01.pdf" "2024-10-22" "Jaehyun" "#");
      (CERTIFICATE_OF_ORIGIN, missing);
      (CUSTOMS_DECLARATION, missing);
      (SETTLEMENT_STATEMENT, missing)]);
  Shipment.mk "MV02110604202510-09" "MV02110604202510-09" "2025-10-01" "KR" "US" "CJ대한통운"
    (list_to_map [
      (INVOICE, missing);
      (BILL_OF_LADING, missing);
      (PACKING_LIST, missing);
      (CERTIFICATE_OF_ORIGIN, missing);
      (CUSTOMS_DECLARATION, missing);
      (SETTLEMENT_STATEMENT, missing)])
].

(** ** Predicates on a list of shipments *)

(** Every slot of every shipment satisfies [P]. *)
Definition all_slots (P : Document.t → Prop) (shipments : list Shipment.t) : Prop :=
  ∀ s dt d, s ∈ shipments → Shipment.documents s !! dt = Some d → P d.

#[export] Instance all_slots_dec P `{∀ d, Decision (P d)} shipments :
  Decision (all_slots P shipments).
Proof.
  refine (cast_if (decide (Forall (λ s,
    map_Forall (λ _ d, P d) (Shipment.documents s)) shipments)));
  abstract (unfold all_slots; rewrite Forall_forall in *; unfold map_Forall in *;
            naive_solver).
Defined.

(** ** Facts *)

Section facts.

(** The list names every member of the enum, each once, in the order of
    the enum's declaration. *)
Lemma DOCUMENT_TYPES_enum : DOCUMENT_TYPES = enum DocumentType.
Proof. reflexivity. Qed.

Lemma DOCUMENT_TYPES_NoDup : NoDup DOCUMENT_TYPES.
Proof. rewrite DOCUMENT_TYPES_enum. apply NoDup_enum. Qed.

Lemma DOCUMENT_TYPES_complete dt : dt ∈ DOCUMENT_TYPES.
Proof. rewrite DOCUMENT_TYPES_enum. apply elem_of_enum. Qed.

Lemma DOCUMENT_TYPES_length : length DOCUMENT_TYPES = 6.
Proof. reflexivity. Qed.

(** The strings of the list are distinct: the [<option>]s of the dialog and
    the columns of the table do not repeat. *)
Lemma DOCUMENT_TYPES_values_NoDup : NoDup (DocumentType_value <$> DOCUMENT_TYPES).
Proof. apply (NoDup_fmap_2 _), DOCUMENT_TYPES_NoDup. Qed.

Lemma INITIAL_SHIPMENTS_wf : Forall Shipment.wf INITIAL_SHIPMENTS.
Proof. by apply (bool_decide_unpack _). Qed.

Lemma INITIAL_SHIPMENTS_ids_NoDup : NoDup (Shipment.id <$> INITIAL_SHIPMENTS).
Proof. by apply (bool_decide_unpack _). Qed.

Lemma INITIAL_SHIPMENTS_not_processing :
  all_slots (λ d, Document.status d ≠ PROCESSING) INITIAL_SHIPMENTS.
Proof. by apply (bool_decide_unpack _). Qed.

Lemma INITIAL_SHIPMENTS_ids_nonempty :
  Forall (λ id, id ≠ "") (Shipment.id <$> INITIAL_SHIPMENTS).
Proof. by apply (bool_decide_unpack _). Qed.

Lemma INITIAL_SHIPMENTS_not_duplicate :
  all_slots (λ d, Document.status d ≠ DUPLICATE) INITIAL_SHIPMENTS.
Proof. by apply (bool_decide_unpack _). Qed.

(** Every initial slot is as the data model says: bare, or uploaded with
    the properties of an upload. *)
Lemma INITIAL_SHIPMENTS_consistent :
  all_slots (λ d, Document.consistent d = true) INITIAL_SHIPMENTS.
Proof. by apply (bool_decide_unpack _). Qed.

End facts.

#[export] Hint Resolve DOCUMENT_TYPES_complete INITIAL_SHIPMENTS_wf : docboard.
