(* ===== verification/Shipments.v ===== *)
(** * Shipments: the updates of the shipment list in [handleFileUpload]

    [handleFileUpload] of [src/App.tsx] changes the shipments three times,
    each time with [setShipments(prev => prev.map(shipment =>
    shipment.id === shipmentId ? { ... } : shipment))]: before the analysis
    (the slot becomes [PROCESSING]), after a successful analysis (the slot is
    replaced by the uploaded document, the invoice number may be
    overwritten) and when the analysis fails (the slot becomes [ERROR]).

    The three object literals are the functions [processing_shipment],
    [uploaded_shipment] and [error_shipment]; [update_shipment] is the
    traversal.  What a client needs to know of an update is stated once, as
    the class [SlotUpdate], and the lemmas about the traversal are proved
    against it. *)

From stdpp Require Import base tactics option list strings gmap finite.
From S2P Require Import Prelude Types Constants.

(** ** Reading the list *)

(** [shipments.find(s => s.id === shipmentId)] *)
Definition find_shipment (shipments : list Shipment.t) (shipmentId : string)
  : option Shipment.t :=
  js_find (λ s, bool_decide (Shipment.id s = shipmentId)) shipments.

(** The slot of a shipment, by id and document type. *)
Definition slot_at (shipments : list Shipment.t) (shipmentId : string)
    (docType : DocumentType) : option Document.t :=
  s ← find_shipment shipments shipmentId; Shipment.documents s !! docType.

Definition status_at (shipments : list Shipment.t) (shipmentId : string)
    (docType : DocumentType) : option DocumentStatus :=
  Document.status <$> slot_at shipments shipmentId docType.

(** ** The traversal *)

(** [prev.map(shipment => shipment.id === shipmentId ? f(shipment) : shipment)] *)
Definition update_shipment (shipmentId : string) (f : Shipment.t → Shipment.t)
    (prev : list Shipment.t) : list Shipment.t :=
  map_if (λ shipment, bool_decide (Shipment.id shipment = shipmentId)) f prev.

(** ** The three object literals *)

(** Before the analysis:
    [{ ...shipment, documents: { ...shipment.documents,
       [docType]: { ...shipment.documents[docType], status: PROCESSING } } }] *)
Definition processing_shipment (docType : DocumentType) (shipment : Shipment.t)
  : Shipment.t :=
  Shipment.with_documents shipment
    (<[docType :=
        Document.spread_status (Shipment.documents shipment !! docType) PROCESSING]>
     (Shipment.documents shipment)).

(** The document a successful upload stores in the slot. *)
Definition uploaded_document {num} (file : File.t) (uploadDate : string)
    (invoiceNumber : string) (analysisResult : AnalysisResult.t num) : Document.t :=
  Document.mk
    (Some (File.name file))
    UPLOADED
    (Some uploadDate)
    (Some "Admin User")
    (Some ("https://mock-drive.com/" +:+ invoiceNumber +:+ "/" +:+ File.name file))
    (AnalysisResult.analysisSummary analysisResult).

(** After a successful analysis:
    [{ ...shipment, documents: { ...shipment.documents, [docType]: {...} },
       ...analysisResult.invoiceNumber && { invoiceNumber: ... } }].
    The link is built from the invoice number the shipment had before. *)
Definition uploaded_shipment {num} (file : File.t) (docType : DocumentType)
    (uploadDate : string) (analysisResult : AnalysisResult.t num)
    (shipment : Shipment.t) : Shipment.t :=
  Shipment.mk
    (Shipment.id shipment)
    (js_or (AnalysisResult.invoiceNumber analysisResult) (Shipment.invoiceNumber shipment))
    (Shipment.shippingDate shipment)
    (Shipment.origin shipment)
    (Shipment.destination shipment)
    (Shipment.carrier shipment)
    (<[docType :=
        uploaded_document file uploadDate (Shipment.invoiceNumber shipment) analysisResult]>
     (Shipment.documents shipment)).

(** When the analysis fails:
    [{ ...shipment, documents: { ...shipment.documents,
       [docType]: { ...shipment.documents[docType], status: ERROR } } }] *)
Definition error_shipment (docType : DocumentType) (shipment : Shipment.t)
  : Shipment.t :=
  Shipment.with_documents shipment
    (<[docType :=
        Document.spread_status (Shipment.documents shipment !! docType) ERROR]>
     (Shipment.documents shipment)).

(** ** What an update of one slot promises *)

Class SlotUpdate (docType : DocumentType) (f : Shipment.t → Shipment.t) : Prop := {
  upd_id s : Shipment.id (f s) = Shipment.id s;
  upd_target s : is_Some (Shipment.documents (f s) !! docType);
  upd_other s dt : dt ≠ docType →
    Shipment.documents (f s) !! dt = Shipment.documents s !! dt;
}.

#[export] Instance processing_shipment_update docType :
  SlotUpdate docType (processing_shipment docType).
Proof.
  split; intros; simpl; [done| |by rewrite lookup_insert_ne].
  rewrite lookup_insert_eq; eauto.
Qed.

#[export] Instance uploaded_shipment_update {num} file docType uploadDate
    (r : AnalysisResult.t num) :
  SlotUpdate docType (uploaded_shipment file docType uploadDate r).
Proof.
  split; intros; simpl; [done| |by rewrite lookup_insert_ne].
  rewrite lookup_insert_eq; eauto.
Qed.

#[export] Instance error_shipment_update docType :
  SlotUpdate docType (error_shipment docType).
Proof.
  split; intros; simpl; [done| |by rewrite lookup_insert_ne].
  rewrite lookup_insert_eq; eauto.
Qed.

(** ** Lemmas about reading *)

Section reading.
Implicit Types (shipments : list Shipment.t) (sid : string) (dt : DocumentType).

Lemma find_shipment_Some shipments sid s :
  find_shipment shipments sid = Some s → s ∈ shipments ∧ Shipment.id s = sid.
Proof.
  intros [? Hid]%js_find_Some. split; [done|]. by apply bool_decide_eq_true in Hid.
Qed.

Lemma find_shipment_None shipments sid :
  find_shipment shipments sid = None ↔ sid ∉ Shipment.id <$> shipments.
Proof.
  unfold find_shipment. rewrite js_find_None, Forall_forall, list_elem_of_fmap.
  split.
  - intros Hall (s & -> & Hs). specialize (Hall s Hs).
    by apply bool_decide_eq_false in Hall.
  - intros Hno s Hs. apply bool_decide_eq_false. intros <-. apply Hno. eauto.
Qed.

Lemma find_shipment_is_Some shipments sid :
  is_Some (find_shipment shipments sid) ↔ sid ∈ Shipment.id <$> shipments.
Proof.
  rewrite <- not_eq_None_Some, find_shipment_None.
  destruct (decide (sid ∈ Shipment.id <$> shipments)); naive_solver.
Qed.

(** In a list of well-formed shipments every slot of a listed id exists. *)
Lemma slot_at_is_Some shipments sid dt :
  Forall Shipment.wf shipments → sid ∈ Shipment.id <$> shipments →
  is_Some (slot_at shipments sid dt).
Proof.
  intros Hwf [s Hs]%find_shipment_is_Some. unfold slot_at. rewrite Hs; simpl.
  apply find_shipment_Some in Hs as [Hin _].
  rewrite Forall_forall in Hwf. by apply Hwf.
Qed.

Lemma slot_at_unknown shipments sid dt :
  sid ∉ Shipment.id <$> shipments → slot_at shipments sid dt = None.
Proof. intros Hno%find_shipment_None. unfold slot_at. by rewrite Hno. Qed.

Lemma status_at_Some shipments sid dt st :
  status_at shipments sid dt = Some st ↔
  ∃ d, slot_at shipments sid dt = Some d ∧ Document.status d = st.
Proof.
  unfold status_at. rewrite fmap_Some.
  split; intros (d & ? & ?); exists d; done.
Qed.

(** A slot that is read through [slot_at] is a slot of a listed shipment. *)
Lemma slot_at_elem_of shipments sid dt d :
  slot_at shipments sid dt = Some d →
  ∃ s, s ∈ shipments ∧ Shipment.id s = sid ∧ Shipment.documents s !! dt = Some d.
Proof.
  unfold slot_at. intros (s & Hs & Hd)%bind_Some.
  apply find_shipment_Some in Hs as [? ?]. eauto.
Qed.

End reading.

(** ** Lemmas about the traversal, for any update of one slot *)

Section traversal.
Context (docType : DocumentType) (f : Shipment.t → Shipment.t) `{!SlotUpdate docType f}.
Implicit Types (prev : list Shipment.t) (sid : string) (dt : DocumentType).

Lemma update_shipment_length sid prev :
  length (update_shipment sid f prev) = length prev.
Proof. apply length_map_if. Qed.

(** No shipment is created, removed, reordered or renamed. *)
Lemma update_shipment_ids sid prev :
  Shipment.id <$> update_shipment sid f prev = Shipment.id <$> prev.
Proof. apply map_if_proj. intros s _. apply upd_id. Qed.

(** An id that no shipment has: the update does nothing. *)
Lemma update_shipment_unknown sid prev :
  sid ∉ Shipment.id <$> prev → update_shipment sid f prev = prev.
Proof.
  intros Hno. apply map_if_none, Forall_forall. intros s Hs.
  apply bool_decide_eq_false. intros <-. apply Hno, list_elem_of_fmap. eauto.
Qed.

Lemma wf_update s : Shipment.wf s → Shipment.wf (f s).
Proof.
  intros Hwf dt. destruct (decide (dt = docType)) as [->|Hne].
  - apply upd_target.
  - rewrite upd_other by done. apply Hwf.
Qed.

(** Every shipment keeps a slot for each of the six types. *)
Lemma update_shipment_wf sid prev :
  Forall Shipment.wf prev → Forall Shipment.wf (update_shipment sid f prev).
Proof. apply map_if_Forall. intros s _. apply wf_update. Qed.

Lemma find_shipment_update sid sid' prev :
  find_shipment (update_shipment sid f prev) sid'
  = (λ s, if bool_decide (Shipment.id s = sid) then f s else s)
      <$> find_shipment prev sid'.
Proof.
  unfold find_shipment, update_shipment. apply js_find_map_if.
  intros s _. by rewrite upd_id.
Qed.

(** The shipment that [find] returns after an update of its id. *)
Lemma find_shipment_update_target sid prev s :
  find_shipment prev sid = Some s →
  find_shipment (update_shipment sid f prev) sid = Some (f s).
Proof.
  intros Hs. rewrite find_shipment_update, Hs; simpl.
  apply find_shipment_Some in Hs as [_ Hid]. by rewrite bool_decide_eq_true_2.
Qed.

(** The slots of the other shipments are not touched. *)
Lemma slot_at_update_other_shipment sid sid' dt prev :
  sid' ≠ sid → slot_at (update_shipment sid f prev) sid' dt = slot_at prev sid' dt.
Proof.
  intros Hne. unfold slot_at. rewrite find_shipment_update.
  destruct (find_shipment prev sid') as [s|] eqn:Hs; [simpl|done].
  apply find_shipment_Some in Hs as [_ <-]. by rewrite bool_decide_eq_false_2.
Qed.

(** The other slots of the shipment are not touched. *)
Lemma slot_at_update_other_slot sid sid' dt prev :
  dt ≠ docType → slot_at (update_shipment sid f prev) sid' dt = slot_at prev sid' dt.
Proof.
  intros Hne. unfold slot_at. rewrite find_shipment_update.
  destruct (find_shipment prev sid') as [s|]; [simpl|done].
  case_bool_decide; [by apply upd_other|done].
Qed.

(** The target slot is the one [f] writes. *)
Lemma slot_at_update_target sid prev :
  slot_at (update_shipment sid f prev) sid docType
  = s ← find_shipment prev sid; Shipment.documents (f s) !! docType.
Proof.
  unfold slot_at. rewrite find_shipment_update.
  destruct (find_shipment prev sid) as [s|] eqn:Hs; [simpl|done].
  apply find_shipment_Some in Hs as [_ Hid]. by rewrite bool_decide_eq_true_2.
Qed.

(** A slot that is not the target keeps what it holds. *)
Lemma slot_at_update_frame sid sid' dt prev :
  (sid', dt) ≠ (sid, docType) →
  slot_at (update_shipment sid f prev) sid' dt = slot_at prev sid' dt.
Proof.
  intros Hne. destruct (decide (dt = docType)) as [->|?].
  - apply slot_at_update_other_shipment. congruence.
  - by apply slot_at_update_other_slot.
Qed.

(** A property of the slots that the update's new slot has is kept. *)
Lemma update_shipment_all_slots (P : Document.t → Prop) sid prev :
  (∀ s d, Shipment.documents (f s) !! docType = Some d → P d) →
  all_slots P prev → all_slots P (update_shipment sid f prev).
Proof.
  intros Hnew Hall s' dt d (s & Hs & ->)%elem_of_map_if Hd.
  case_bool_decide; [|by eapply Hall].
  destruct (decide (dt = docType)) as [->|Hne]; [by eapply Hnew|].
  rewrite upd_other in Hd by done. by eapply Hall.
Qed.

End traversal.

(** ** What each update writes *)

Section writes.
Context {num : Type}.
Implicit Types (prev : list Shipment.t) (sid : string) (dt : DocumentType)
  (r : AnalysisResult.t num).

Lemma status_at_processing sid dt prev :
  sid ∈ Shipment.id <$> prev →
  status_at (update_shipment sid (processing_shipment dt) prev) sid dt = Some PROCESSING.
Proof.
  intros [s Hs]%find_shipment_is_Some. unfold status_at.
  rewrite slot_at_update_target by apply _. rewrite Hs; simpl.
  rewrite lookup_insert_eq; simpl. by rewrite status_spread_status.
Qed.

Lemma status_at_error sid dt prev :
  sid ∈ Shipment.id <$> prev →
  status_at (update_shipment sid (error_shipment dt) prev) sid dt = Some ERROR.
Proof.
  intros [s Hs]%find_shipment_is_Some. unfold status_at.
  rewrite slot_at_update_target by apply _. rewrite Hs; simpl.
  rewrite lookup_insert_eq; simpl. by rewrite status_spread_status.
Qed.

(** The slot after a successful upload is the new document, whatever the
    slot held before. *)
Lemma slot_at_uploaded file sid dt uploadDate r prev s :
  find_shipment prev sid = Some s →
  slot_at (update_shipment sid (uploaded_shipment file dt uploadDate r) prev) sid dt
  = Some (uploaded_document file uploadDate (Shipment.invoiceNumber s) r).
Proof.
  intros Hs. rewrite slot_at_update_target by apply _. rewrite Hs; simpl.
  by rewrite lookup_insert_eq.
Qed.

Lemma status_at_uploaded file sid dt uploadDate r prev :
  sid ∈ Shipment.id <$> prev →
  status_at (update_shipment sid (uploaded_shipment file dt uploadDate r) prev) sid dt
  = Some UPLOADED.
Proof.
  intros [s Hs]%find_shipment_is_Some. unfold status_at.
  by rewrite (slot_at_uploaded _ _ _ _ _ _ s Hs).
Qed.

(** The properties of the slot that an error leaves are those it had. *)
Lemma slot_at_error sid dt prev d :
  slot_at prev sid dt = Some d →
  slot_at (update_shipment sid (error_shipment dt) prev) sid dt
  = Some (Document.spread_status (Some d) ERROR).
Proof.
  unfold slot_at at 1. intros (s & Hs & Hd)%bind_Some.
  rewrite slot_at_update_target by apply _. rewrite Hs; simpl.
  by rewrite lookup_insert_eq, Hd.
Qed.

Lemma slot_at_processing sid dt prev d :
  slot_at prev sid dt = Some d →
  slot_at (update_shipment sid (processing_shipment dt) prev) sid dt
  = Some (Document.spread_status (Some d) PROCESSING).
Proof.
  unfold slot_at at 1. intros (s & Hs & Hd)%bind_Some.
  rewrite slot_at_update_target by apply _. rewrite Hs; simpl.
  by rewrite lookup_insert_eq, Hd.
Qed.

(** The invoice number of the target after a successful upload. *)
Lemma invoiceNumber_uploaded file sid dt uploadDate r prev s :
  find_shipment prev sid = Some s →
  Shipment.invoiceNumber
    <$> find_shipment (update_shipment sid (uploaded_shipment file dt uploadDate r) prev) sid
  = Some (js_or (AnalysisResult.invoiceNumber r) (Shipment.invoiceNumber s)).
Proof.
  intros Hs. rewrite (find_shipment_update dt) by apply _. rewrite Hs; simpl.
  apply find_shipment_Some in Hs as [_ Hid]. by rewrite bool_decide_eq_true_2.
Qed.

End writes.

#[export] Hint Resolve update_shipment_wf update_shipment_all_slots : docboard.
#[export] Hint Rewrite update_shipment_length update_shipment_ids
  using (apply _) : docboard.

(** ** The shape of the list is kept *)

(** Each of the three updaters of [handleFileUpload] keeps the list of
    shipments well formed: applied to the shipment of any id, it leaves as
    many shipments with the same ids in the same order, and every shipment
    still has a slot for each of the six document types. *)
Theorem updaters_keep_shape {num} sid dt file uploadDate (r : AnalysisResult.t num) prev :
  Forall Shipment.wf prev →
  Forall (λ f, Forall Shipment.wf (update_shipment sid f prev)
               ∧ Shipment.id <$> update_shipment sid f prev = Shipment.id <$> prev)
    [processing_shipment dt; uploaded_shipment file dt uploadDate r; error_shipment dt].
Proof.
  intros Hwf. repeat constructor;
    solve [by apply (update_shipment_wf dt _)|by apply (update_shipment_ids dt _)].
Qed.

Lemma updaters_keep_shape_witness :
  Forall (λ f, Forall Shipment.wf (update_shipment "MV0205020250510-02" f INITIAL_SHIPMENTS)
               ∧ Shipment.id <$> update_shipment "MV0205020250510-02" f INITIAL_SHIPMENTS
                 = Shipment.id <$> INITIAL_SHIPMENTS)
    [processing_shipment INVOICE;
     uploaded_shipment (File.mk "invoice.pdf" "application/pdf" 2048) INVOICE "2025-05-12"
       (AnalysisResult.mk (Some "INV-7") (Some 10%Z) None None (Some "ok"));
     error_shipment INVOICE].
Proof. apply updaters_keep_shape. by apply (bool_decide_unpack _). Defined.
