(* ===== verification/Analytics.v ===== *)
(** * Analytics: [analyticsSummary] of [src/App.tsx]

    The four figures of the overview: the number of slots, the number of
    uploaded slots, their difference and the sum of the amounts of the
    analysed documents.  The counts are integers; the sum is taken in the
    arithmetic of the amounts ([JsNum]), from the left, starting at zero, as
    [reduce] does. *)

From stdpp Require Import base tactics option list strings gmap finite.
From S2P Require Import Prelude Types Constants Shipments.

(** ** The summary *)

Module Summary.

Record t {num : Type} := mk {
  totalDocs : Z;
  uploadedDocs : Z;
  missingDocs : Z;
  totalValue : num;
}.
Global Arguments t : clear implicits.
Global Arguments mk {num}.

End Summary.

(** [d.status === DocumentStatus.UPLOADED] *)
Definition is_uploaded (d : Document.t) : Prop := Document.status d = UPLOADED.

#[export] Instance is_uploaded_dec d : Decision (is_uploaded d).
Proof. unfold is_uploaded. apply _. Defined.

(** [shipments.flatMap(s => Object.values(s.documents))] *)
Definition all_documents (shipments : list Shipment.t) : list Document.t :=
  shipments ≫= (λ s, js_values (Shipment.documents s)).

(** [analyzedData.reduce((sum, data) => sum + (data.totalAmount || 0), 0)] *)
Definition totalValue_of `{JsNum num} (analyzedData : list (AnalyzedData.t num)) : num :=
  js_sum (λ data, js_or (AnalyzedData.totalAmount data) num_zero) analyzedData.

Definition analyticsSummary `{JsNum num} (shipments : list Shipment.t)
    (analyzedData : list (AnalyzedData.t num)) : Summary.t num :=
  let totalDocs := (Z.of_nat (length shipments) * Z.of_nat (length DOCUMENT_TYPES))%Z in
  let uploadedDocs := Z.of_nat (count is_uploaded (all_documents shipments)) in
  let missingDocs := (totalDocs - uploadedDocs)%Z in
  let totalValue := totalValue_of analyzedData in
  Summary.mk totalDocs uploadedDocs missingDocs totalValue.

(** ** A reference count: the cells of the dashboard

    The table of the dashboard has a row per shipment and a column per
    entry of [DOCUMENT_TYPES]; a cell shows the slot
    [shipment.documents[docType]].  The number of cells that show an
    uploaded document: *)

Definition uploaded_cells_of (s : Shipment.t) : nat :=
  count (λ dt, Shipment.status_of s dt = Some UPLOADED) DOCUMENT_TYPES.

Definition uploaded_cells (shipments : list Shipment.t) : nat :=
  sum_list_with uploaded_cells_of shipments.

(** The slots of a shipment that are not uploaded. *)
Definition not_uploaded_cells (shipments : list Shipment.t) : nat :=
  sum_list_with
    (λ s, count (λ dt, Shipment.status_of s dt ≠ Some UPLOADED) DOCUMENT_TYPES)
    shipments.

(** ** Counting the slots of one shipment *)

Section one_shipment.
Implicit Types (s : Shipment.t) (m : gmap DocumentType Document.t)
  (dt : DocumentType) (d : Document.t).

Definition uploaded_in m : nat := count is_uploaded (js_values m).

Lemma uploaded_in_le_size m : uploaded_in m ≤ size m.
Proof. unfold uploaded_in. rewrite <- length_js_values. apply count_le_length. Qed.

(** An object keyed by document types has at most six properties. *)
Lemma documents_size_le m : size m ≤ 6.
Proof.
  rewrite <- size_dom.
  transitivity (size (list_to_set (C:=gset DocumentType) (enum DocumentType)));
    [|done].
  apply subseteq_size. intros dt _. apply elem_of_list_to_set, elem_of_enum.
Qed.

(** Writing a slot: the uploaded count loses the old slot and gains the
    new one. *)
Lemma uploaded_in_insert m dt d d0 :
  m !! dt = Some d0 →
  uploaded_in (<[dt:=d]> m) + (if decide (is_uploaded d0) then 1 else 0)
  = uploaded_in m + (if decide (is_uploaded d) then 1 else 0).
Proof.
  intros Hd0. unfold uploaded_in.
  rewrite (count_perm _ _ _ (js_values_insert m dt d)).
  rewrite (count_perm _ _ _ (js_values_delete m dt d0 Hd0)).
  rewrite !count_cons. lia.
Qed.

(** Counting the uploaded slots among the slots read key by key. *)
Lemma count_uploaded_keys m (l : list DocumentType) :
  count is_uploaded (omap (λ dt, m !! dt) l)
  = count (λ dt, Document.status <$> m !! dt = Some UPLOADED) l.
Proof.
  induction l as [|dt l IH]; [done|].
  rewrite (count_cons _ dt). destruct (m !! dt) as [d|] eqn:E.
  - rewrite (omap_cons_Some (λ dt, m !! dt) dt d l E), count_cons, IH. unfold is_uploaded; simpl.
    do 2 case_decide; (done || congruence).
  - by rewrite (omap_cons_None (λ dt, m !! dt) dt l E), IH.
Qed.

(** The values counted are the cells counted. *)
Lemma uploaded_in_cells s :
  uploaded_in (Shipment.documents s) = uploaded_cells_of s.
Proof.
  unfold uploaded_in, uploaded_cells_of, Shipment.status_of.
  rewrite <- count_uploaded_keys. apply count_perm, js_values_keys.
  - apply DOCUMENT_TYPES_NoDup.
  - intros dt _. apply DOCUMENT_TYPES_complete.
Qed.

End one_shipment.

(** ** The figures *)

Section figures.
Context `{JsNum num}.
Implicit Types (shipments : list Shipment.t)
  (analyzedData : list (AnalyzedData.t num)).

Lemma totalDocs_length shipments analyzedData :
  Summary.totalDocs (analyticsSummary shipments analyzedData)
  = (Z.of_nat (length shipments) * 6)%Z.
Proof. reflexivity. Qed.

Lemma missingDocs_difference shipments analyzedData :
  Summary.missingDocs (analyticsSummary shipments analyzedData)
  = (Summary.totalDocs (analyticsSummary shipments analyzedData)
     - Summary.uploadedDocs (analyticsSummary shipments analyzedData))%Z.
Proof. reflexivity. Qed.

Lemma totalValue_of_snoc analyzedData data :
  totalValue_of (analyzedData ++ [data])
  = num_add (totalValue_of analyzedData)
            (js_or (AnalyzedData.totalAmount data) num_zero).
Proof. unfold totalValue_of. by rewrite js_sum_snoc. Qed.

Lemma sum_uploaded_in_cells shipments :
  sum_list_with (λ s, uploaded_in (Shipment.documents s)) shipments
  = uploaded_cells shipments.
Proof.
  unfold uploaded_cells. induction shipments as [|s l IH]; simpl; [done|].
  by rewrite uploaded_in_cells, IH.
Qed.

Lemma uploadedDocs_sum shipments analyzedData :
  Summary.uploadedDocs (analyticsSummary shipments analyzedData)
  = Z.of_nat (sum_list_with (λ s, uploaded_in (Shipment.documents s)) shipments).
Proof. simpl. unfold all_documents. by rewrite count_bind. Qed.

Lemma sum_uploaded_in_le shipments :
  sum_list_with (λ s, uploaded_in (Shipment.documents s)) shipments
  ≤ length shipments * 6.
Proof.
  induction shipments as [|s l IH]; simpl; [lia|].
  pose proof (uploaded_in_le_size (Shipment.documents s)).
  pose proof (documents_size_le (Shipment.documents s)). lia.
Qed.

Lemma sum_cells shipments :
  Forall Shipment.wf shipments →
  uploaded_cells shipments + not_uploaded_cells shipments = length shipments * 6.
Proof.
  unfold uploaded_cells, not_uploaded_cells, uploaded_cells_of.
  induction 1 as [|s l _ _ IH]; simpl; [done|].
  pose proof (count_complement
    (λ dt, Shipment.status_of s dt = Some UPLOADED) DOCUMENT_TYPES) as Hc.
  rewrite DOCUMENT_TYPES_length in Hc. lia.
Qed.

End figures.

(** ** What an upload does to the count *)

Section updates.
Context (docType : DocumentType) (f : Shipment.t → Shipment.t) `{!SlotUpdate docType f}.
Implicit Types (prev : list Shipment.t) (sid : string).

(** The documents of the updated shipment are those of the shipment with
    one slot written. *)
Lemma documents_update s d :
  Shipment.documents (f s) !! docType = Some d →
  Shipment.documents (f s) = <[docType:=d]> (Shipment.documents s).
Proof.
  intros Hd. apply map_eq. intros dt. destruct (decide (dt = docType)) as [->|Hne].
  - by rewrite lookup_insert_eq.
  - rewrite lookup_insert_ne by done. by apply upd_other.
Qed.

(** With distinct ids, an update of the slot [(sid, docType)] changes the
    number of uploaded slots by the difference between the new slot and
    the old one. *)
Lemma sum_uploaded_update sid prev s d0 d :
  NoDup (Shipment.id <$> prev) →
  find_shipment prev sid = Some s →
  Shipment.documents s !! docType = Some d0 →
  Shipment.documents (f s) !! docType = Some d →
  sum_list_with (λ s, uploaded_in (Shipment.documents s)) (update_shipment sid f prev)
    + (if decide (is_uploaded d0) then 1 else 0)
  = sum_list_with (λ s, uploaded_in (Shipment.documents s)) prev
    + (if decide (is_uploaded d) then 1 else 0).
Proof.
  intros Hnd Hs Hd0 Hd. induction prev as [|s' l IH]; [done|].
  rewrite fmap_cons in Hnd. apply NoDup_cons in Hnd as [Hnotin Hnd].
  unfold find_shipment, js_find in Hs; simpl in Hs.
  unfold update_shipment. rewrite map_if_cons. fold (update_shipment sid f l).
  case_bool_decide as Hid; simpl.
  - injection Hs as ->. subst sid. rewrite update_shipment_unknown by done.
    rewrite (documents_update s d Hd).
    pose proof (uploaded_in_insert (Shipment.documents s) docType d d0 Hd0). lia.
  - specialize (IH Hnd Hs). lia.
Qed.

(** With distinct ids and every slot present, an update of one slot,
    whatever the id, raises the number of uploaded slots by one at most,
    and not at all when the slot it writes is not uploaded. *)
Lemma sum_uploaded_update_le sid prev :
  NoDup (Shipment.id <$> prev) → Forall Shipment.wf prev →
  sum_list_with (λ s, uploaded_in (Shipment.documents s)) (update_shipment sid f prev)
  ≤ sum_list_with (λ s, uploaded_in (Shipment.documents s)) prev + 1
  ∧ ((∀ s d, Shipment.documents (f s) !! docType = Some d → ¬ is_uploaded d) →
     sum_list_with (λ s, uploaded_in (Shipment.documents s)) (update_shipment sid f prev)
     ≤ sum_list_with (λ s, uploaded_in (Shipment.documents s)) prev).
Proof.
  intros Hnd Hwf. destruct (decide (sid ∈ Shipment.id <$> prev)) as [Hin|Hno];
    [|by rewrite update_shipment_unknown by done; lia].
  apply find_shipment_is_Some in Hin as [s Hs].
  pose proof (find_shipment_Some _ _ _ Hs) as [Hel _].
  rewrite Forall_forall in Hwf. destruct (Hwf s Hel docType) as [d0 Hd0].
  destruct (upd_target (f:=f) s) as [d Hd].
  pose proof (sum_uploaded_update sid prev s d0 d Hnd Hs Hd0 Hd) as Heq.
  split; [|intros Hnu; rewrite (decide_False (P:=is_uploaded d)) in Heq by eauto];
    repeat destruct (decide _); lia.
Qed.

End updates.

Section three_updates.
Context {num : Type}.
Implicit Types (prev : list Shipment.t) (sid : string) (dt : DocumentType)
  (d : Document.t) (s : Shipment.t).
Local Abbreviation uploaded_sum :=
  (sum_list_with (λ s, uploaded_in (Shipment.documents s))).

Lemma is_uploaded_spread_status o st :
  is_uploaded (Document.spread_status o st) ↔ st = UPLOADED.
Proof. unfold is_uploaded. by rewrite status_spread_status. Qed.

(** Marking a slot as processing takes it out of the uploaded ones. *)
Lemma sum_uploaded_processing sid dt prev s d0 :
  NoDup (Shipment.id <$> prev) → find_shipment prev sid = Some s →
  Shipment.documents s !! dt = Some d0 →
  uploaded_sum (update_shipment sid (processing_shipment dt) prev)
    + (if decide (is_uploaded d0) then 1 else 0)
  = uploaded_sum prev.
Proof.
  intros Hnd Hs Hd0.
  rewrite (sum_uploaded_update dt _ sid prev s d0
    (Document.spread_status (Some d0) PROCESSING) Hnd Hs Hd0)
    by (by simpl; rewrite lookup_insert_eq, Hd0).
  rewrite decide_False; [lia|]. by rewrite is_uploaded_spread_status.
Qed.

(** Marking a slot as failed takes it out of the uploaded ones. *)
Lemma sum_uploaded_error sid dt prev s d0 :
  NoDup (Shipment.id <$> prev) → find_shipment prev sid = Some s →
  Shipment.documents s !! dt = Some d0 →
  uploaded_sum (update_shipment sid (error_shipment dt) prev)
    + (if decide (is_uploaded d0) then 1 else 0)
  = uploaded_sum prev.
Proof.
  intros Hnd Hs Hd0.
  rewrite (sum_uploaded_update dt _ sid prev s d0
    (Document.spread_status (Some d0) ERROR) Hnd Hs Hd0)
    by (by simpl; rewrite lookup_insert_eq, Hd0).
  rewrite decide_False; [lia|]. by rewrite is_uploaded_spread_status.
Qed.

(** Storing an uploaded document puts the slot among the uploaded ones. *)
Lemma sum_uploaded_uploaded file sid dt uploadDate (r : AnalysisResult.t num) prev s d0 :
  NoDup (Shipment.id <$> prev) → find_shipment prev sid = Some s →
  Shipment.documents s !! dt = Some d0 →
  uploaded_sum (update_shipment sid (uploaded_shipment file dt uploadDate r) prev)
    + (if decide (is_uploaded d0) then 1 else 0)
  = uploaded_sum prev + 1.
Proof.
  intros Hnd Hs Hd0.
  by rewrite (sum_uploaded_update dt _ sid prev s d0
    (uploaded_document file uploadDate (Shipment.invoiceNumber s) r) Hnd Hs Hd0)
    by (by simpl; rewrite lookup_insert_eq).
Qed.

End three_updates.

(** ** The properties of the summary *)

Section summary.
Context `{JsNum num}.
Implicit Types (shipments : list Shipment.t)
  (analyzedData : list (AnalyzedData.t num)).

(** C25: the summary counts six slots per shipment, at least zero and at
    most that many uploaded ones, and the missing ones are the rest, so
    neither count is negative or larger than the total. *)
Theorem summary_bounds shipments analyzedData :
  let s := analyticsSummary shipments analyzedData in
  (Summary.totalDocs s = 6 * Z.of_nat (length shipments)
   ∧ 0 ≤ Summary.uploadedDocs s ≤ Summary.totalDocs s
   ∧ Summary.missingDocs s = Summary.totalDocs s - Summary.uploadedDocs s
   ∧ 0 ≤ Summary.missingDocs s ≤ Summary.totalDocs s)%Z.
Proof.
  intros s. subst s.
  rewrite missingDocs_difference, totalDocs_length, uploadedDocs_sum.
  pose proof (sum_uploaded_in_le shipments) as Hle. lia.
Qed.

(** The number of uploaded documents of the summary, which is
    counted over the values of the [documents] objects, is the number of
    cells of the dashboard's table that show an uploaded document. *)
Theorem uploadedDocs_cells shipments analyzedData :
  Summary.uploadedDocs (analyticsSummary shipments analyzedData)
  = Z.of_nat (uploaded_cells shipments).
Proof. by rewrite uploadedDocs_sum, sum_uploaded_in_cells. Qed.

(** When every shipment has its six slots, the missing documents
    of the summary are the slots whose status is not [UPLOADED]: slots
    being processed, failed or duplicate count as missing. *)
Theorem missingDocs_cells shipments analyzedData :
  Forall Shipment.wf shipments →
  Summary.missingDocs (analyticsSummary shipments analyzedData)
  = Z.of_nat (not_uploaded_cells shipments).
Proof.
  intros Hwf%sum_cells.
  rewrite missingDocs_difference, totalDocs_length, uploadedDocs_sum.
  rewrite sum_uploaded_in_cells. lia.
Qed.

(** The total value is the sum of the amounts from the left,
    starting at zero, where an absent amount counts as zero; a record added
    at the end adds its amount to the total, and no record gives zero. *)
Theorem totalValue_snoc shipments analyzedData data :
  Summary.totalValue (analyticsSummary shipments (analyzedData ++ [data]))
  = num_add (Summary.totalValue (analyticsSummary shipments analyzedData))
            (js_or (AnalyzedData.totalAmount data) num_zero)
  ∧ Summary.totalValue (analyticsSummary (num:=num) shipments []) = num_zero.
Proof. split; [apply totalValue_of_snoc|done]. Qed.

End summary.

Section exact_summary.
Context `{ExactNum num}.


End exact_summary.

(** ** The summary of the initial state, and witnesses *)

Example initial_summary :
  analyticsSummary (num:=Z) INITIAL_SHIPMENTS [] = Summary.mk 30 5 25 0%Z.
Proof. by vm_compute. Qed.

Lemma missingDocs_cells_witness :
  Summary.missingDocs (analyticsSummary (num:=Z) INITIAL_SHIPMENTS [])
  = Z.of_nat (not_uploaded_cells INITIAL_SHIPMENTS).
Proof. exact (missingDocs_cells INITIAL_SHIPMENTS [] INITIAL_SHIPMENTS_wf). Defined.


