(* ===== verification/App.v ===== *)
(** * App: the state and the handlers of the [App] component ([src/App.tsx])

    - [AppState.t] has one field per [useState] of the component, and one
      setter per field.
    - A handler is a function on the state, written as the sequence of the
      setter calls of its body.
    - [handleFileUpload] is an [async] function with one [await].  Its body
      before the [await] is [handleFileUpload_begin]; what runs when the
      promise is fulfilled is [handleFileUpload_fulfilled], when it is
      rejected [handleFileUpload_rejected], and [handleFileUpload_finally]
      after either.  [handleFileUpload] composes them for a call that
      nothing interleaves with.
    - The theorems are about one call of a handler: what an upload does to
      its slot, to the other slots, to the log and to the summary; and
      about two calls of [handleFileUpload] that are suspended at once,
      which leave the state that the two uploads leave one after the
      other.  The interleavings that the page allows are the subject of the
      file Machine. *)

From stdpp Require Import base tactics option list strings gmap finite pretty.
From S2P Require Import Prelude Types Constants Shipments Analytics.

(** ** The state *)

Module AppState.

Record t {num : Type} := mk {
  shipments : list Shipment.t;
  uploadLogs : list (UploadLogEntry.t num);
  analyzedData : list (AnalyzedData.t num);
  modalState : ModalState.t;
  isAnalyzing : bool;
  error : option string;
  dragActive : bool;
}.
Global Arguments t : clear implicits.
Global Arguments mk {num}.

(** The state the component is mounted with. *)
Definition initial {num} : t num :=
  mk INITIAL_SHIPMENTS [] [] ModalState.closed false None false.

End AppState.

Section setters.
Context {num : Type}.
Local Abbreviation state := (AppState.t num).
Import AppState.

Definition setShipments (f : list Shipment.t → list Shipment.t) (st : state) : state :=
  mk (f (shipments st)) (uploadLogs st) (analyzedData st) (modalState st)
     (isAnalyzing st) (error st) (dragActive st).

Definition setUploadLogs
    (f : list (UploadLogEntry.t num) → list (UploadLogEntry.t num)) (st : state) : state :=
  mk (shipments st) (f (uploadLogs st)) (analyzedData st) (modalState st)
     (isAnalyzing st) (error st) (dragActive st).

Definition setAnalyzedData
    (f : list (AnalyzedData.t num) → list (AnalyzedData.t num)) (st : state) : state :=
  mk (shipments st) (uploadLogs st) (f (analyzedData st)) (modalState st)
     (isAnalyzing st) (error st) (dragActive st).

Definition setModalState (v : ModalState.t) (st : state) : state :=
  mk (shipments st) (uploadLogs st) (analyzedData st) v
     (isAnalyzing st) (error st) (dragActive st).

Definition setIsAnalyzing (v : bool) (st : state) : state :=
  mk (shipments st) (uploadLogs st) (analyzedData st) (modalState st)
     v (error st) (dragActive st).

Definition setError (v : option string) (st : state) : state :=
  mk (shipments st) (uploadLogs st) (analyzedData st) (modalState st)
     (isAnalyzing st) v (dragActive st).

Definition setDragActive (v : bool) (st : state) : state :=
  mk (shipments st) (uploadLogs st) (analyzedData st) (modalState st)
     (isAnalyzing st) (error st) v.

End setters.

(** ** The inputs of an upload *)

(** The three readings of the clock that a successful upload makes. *)
Module Clock.

Record t := mk {
  (** [new Date().toISOString()] of the stored document *)
  uploadDate : string;
  (** [Date.now()] of the log entry's id *)
  now : N;
  (** [new Date().toISOString()] of the log entry *)
  uploadTimestamp : string;
}.

End Clock.

(** How the promise of [analyzeDocumentContent] settles. *)
Inductive Outcome {num : Type} :=
  | Fulfilled (analysisResult : AnalysisResult.t num)
  | Rejected.
Global Arguments Outcome : clear implicits.

(** An object is truthy. *)
#[export] Instance AnalysisResult_truthy {num} : Truthy (AnalysisResult.t num) :=
  λ _, true.

(** ** The handlers *)

Section handlers.
Context {num : Type}.
Local Abbreviation state := (AppState.t num).

Definition handleOpenModal (shipmentId : option string) (docType : option DocumentType)
    (file : option File.t) : state → state :=
  setModalState (ModalState.mk true shipmentId docType file).

Definition handleCloseModal : state → state :=
  setModalState ModalState.closed >>> setError None.

(** The text sent to the analysis in place of the file's content. *)
Definition fileContent (file : File.t) (shipmentId : string) (docType : DocumentType)
  : string :=
  let nl := String (Ascii.ascii_of_nat 10) "" +:+ "            " in
  "--- DUMMY FILE CONTENT ---" +:+ nl +:+
  "File Name: " +:+ File.name file +:+ nl +:+
  "File Type: " +:+ File.type file +:+ nl +:+
  "Size: " +:+ pretty (File.size file) +:+ " bytes" +:+ nl +:+
  "Document Type: " +:+ DocumentType_value docType +:+ nl +:+
  "Shipment ID: " +:+ shipmentId +:+ nl +:+
  "This is a placeholder for the actual file content." +:+ nl +:+
  "--- END DUMMY CONTENT ---".

(** [handleFileUpload], up to the [await]. *)
Definition handleFileUpload_begin (shipmentId : string) (docType : DocumentType)
  : state → state :=
  setIsAnalyzing true >>>
  setError None >>>
  setShipments (update_shipment shipmentId (processing_shipment docType)).

(** The entry that a successful upload adds to the log. *)
Definition newLog (clock : Clock.t) (file : File.t) (shipmentId : string)
    (docType : DocumentType) (comments : option string)
    (analysisResult : AnalysisResult.t num) : UploadLogEntry.t num :=
  UploadLogEntry.mk
    ("log-" +:+ pretty (Clock.now clock))
    (File.name file)
    ("https://mock-drive.com/" +:+ shipmentId +:+ "/" +:+ File.name file)
    (Clock.uploadTimestamp clock)
    docType
    "Admin User"
    shipmentId
    Success
    comments
    (Some analysisResult).

(** [handleFileUpload], after the [await], when the analysis succeeded. *)
Definition handleFileUpload_fulfilled (clock : Clock.t) (file : File.t)
    (shipmentId : string) (docType : DocumentType) (comments : option string)
    (analysisResult : AnalysisResult.t num) : state → state :=
  setShipments (update_shipment shipmentId
    (uploaded_shipment file docType (Clock.uploadDate clock) analysisResult)) >>>
  setUploadLogs (λ prev, newLog clock file shipmentId docType comments analysisResult :: prev) >>>
  when (truthy analysisResult)
    (setAnalyzedData (λ prev, prev ++ [AnalyzedData.of_result shipmentId analysisResult])) >>>
  handleCloseModal.

Definition analysisFailed : string :=
  "Failed to analyze document. The content might be invalid or the service is unavailable. Please try again.".

(** [handleFileUpload], the [catch] block. *)
Definition handleFileUpload_rejected (shipmentId : string) (docType : DocumentType)
  : state → state :=
  setError (Some analysisFailed) >>>
  setShipments (update_shipment shipmentId (error_shipment docType)).

(** [handleFileUpload], the [finally] block. *)
Definition handleFileUpload_finally : state → state :=
  setIsAnalyzing false.

(** [handleFileUpload], from the [await] to the end. *)
Definition handleFileUpload_settle (clock : Clock.t) (file : File.t)
    (shipmentId : string) (docType : DocumentType) (comments : option string)
    (outcome : Outcome num) : state → state :=
  match outcome with
  | Fulfilled analysisResult =>
      handleFileUpload_fulfilled clock file shipmentId docType comments analysisResult
  | Rejected => handleFileUpload_rejected shipmentId docType
  end >>> handleFileUpload_finally.

(** [handleFileUpload], when no other handler runs during the analysis. *)
Definition handleFileUpload (clock : Clock.t) (outcome : Outcome num) (file : File.t)
    (shipmentId : string) (docType : DocumentType) (comments : option string)
  : state → state :=
  handleFileUpload_begin shipmentId docType >>>
  handleFileUpload_settle clock file shipmentId docType comments outcome.

(** [handleDrag], by the type of the event. *)
Definition handleDrag (type : string) : state → state :=
  if bool_decide (type = "dragenter" ∨ type = "dragover") then setDragActive true
  else if bool_decide (type = "dragleave") then setDragActive false
  else skip.

(** [handleDrop], by the files of the event. *)
Definition handleDrop (files : list File.t) : state → state :=
  setDragActive false >>>
  match files with
  | file :: _ => handleOpenModal None None (Some file)
  | [] => skip
  end.

(** The summary the component renders. *)
Definition summary_of `{JsNum num} (st : state) : Summary.t num :=
  analyticsSummary (AppState.shipments st) (AppState.analyzedData st).

End handlers.

(** ** Tactics for running a handler *)

Ltac unfold_handlers :=
  unfold handleFileUpload, handleFileUpload_settle, handleFileUpload_begin,
    handleFileUpload_fulfilled, handleFileUpload_rejected,
    handleFileUpload_finally, handleCloseModal, handleOpenModal,
    handleDrop, handleDrag in *.

Ltac unfold_setters :=
  unfold setShipments, setUploadLogs, setAnalyzedData, setModalState,
    setIsAnalyzing, setError, setDragActive in *.

(** Reduce a handler applied to a state to the record it returns. *)
Ltac run_handler := unfold_handlers; unfold_upd; unfold_setters; simpl in *.

(** ** What the parts of [handleFileUpload] do to each field *)

(** The shipment that a settled upload leaves, by the outcome. *)
Definition settled_shipment {num} (clock : Clock.t) (file : File.t)
    (docType : DocumentType) (outcome : Outcome num) : Shipment.t → Shipment.t :=
  match outcome with
  | Fulfilled r => uploaded_shipment file docType (Clock.uploadDate clock) r
  | Rejected => error_shipment docType
  end.

#[export] Instance settled_shipment_update {num} clock file docType
    (outcome : Outcome num) :
  SlotUpdate docType (settled_shipment clock file docType outcome).
Proof. destruct outcome; apply _. Qed.

Section fields.
Context {num : Type}.
Implicit Types (st : AppState.t num) (sid : string) (dt : DocumentType)
  (outcome : Outcome num) (r : AnalysisResult.t num) (clock : Clock.t)
  (file : File.t) (comments : option string).

Lemma shipments_begin sid dt st :
  AppState.shipments (handleFileUpload_begin sid dt st)
  = update_shipment sid (processing_shipment dt) (AppState.shipments st).
Proof. reflexivity. Qed.

Lemma shipments_settle clock file sid dt comments outcome st :
  AppState.shipments (handleFileUpload_settle clock file sid dt comments outcome st)
  = update_shipment sid (settled_shipment clock file dt outcome) (AppState.shipments st).
Proof. by destruct outcome. Qed.

Lemma uploadLogs_settle clock file sid dt comments outcome st :
  AppState.uploadLogs (handleFileUpload_settle clock file sid dt comments outcome st)
  = match outcome with
    | Fulfilled r => newLog clock file sid dt comments r :: AppState.uploadLogs st
    | Rejected => AppState.uploadLogs st
    end.
Proof. by destruct outcome. Qed.

Lemma analyzedData_settle clock file sid dt comments outcome st :
  AppState.analyzedData (handleFileUpload_settle clock file sid dt comments outcome st)
  = match outcome with
    | Fulfilled r => AppState.analyzedData st ++ [AnalyzedData.of_result sid r]
    | Rejected => AppState.analyzedData st
    end.
Proof. by destruct outcome. Qed.

Lemma isAnalyzing_settle clock file sid dt comments outcome st :
  AppState.isAnalyzing (handleFileUpload_settle clock file sid dt comments outcome st)
  = false.
Proof. by destruct outcome. Qed.

Lemma error_settle clock file sid dt comments outcome st :
  AppState.error (handleFileUpload_settle clock file sid dt comments outcome st)
  = match outcome with
    | Fulfilled _ => None
    | Rejected => Some analysisFailed
    end.
Proof. by destruct outcome. Qed.

Lemma modalState_settle clock file sid dt comments outcome st :
  AppState.modalState (handleFileUpload_settle clock file sid dt comments outcome st)
  = match outcome with
    | Fulfilled _ => ModalState.closed
    | Rejected => AppState.modalState st
    end.
Proof. by destruct outcome. Qed.

Lemma dragActive_settle clock file sid dt comments outcome st :
  AppState.dragActive (handleFileUpload_settle clock file sid dt comments outcome st)
  = AppState.dragActive st.
Proof. by destruct outcome. Qed.

(** The part before the [await] leaves the log, the data, the dialog and
    the drag flag as they are. *)
Lemma begin_frame sid dt st :
  AppState.uploadLogs (handleFileUpload_begin sid dt st) = AppState.uploadLogs st
  ∧ AppState.analyzedData (handleFileUpload_begin sid dt st) = AppState.analyzedData st
  ∧ AppState.modalState (handleFileUpload_begin sid dt st) = AppState.modalState st
  ∧ AppState.dragActive (handleFileUpload_begin sid dt st) = AppState.dragActive st.
Proof. done. Qed.

(** Two states with the same fields are the same state. *)
Lemma AppState_ext st st' :
  AppState.shipments st = AppState.shipments st' →
  AppState.uploadLogs st = AppState.uploadLogs st' →
  AppState.analyzedData st = AppState.analyzedData st' →
  AppState.modalState st = AppState.modalState st' →
  AppState.isAnalyzing st = AppState.isAnalyzing st' →
  AppState.error st = AppState.error st' →
  AppState.dragActive st = AppState.dragActive st' →
  st = st'.
Proof. destruct st, st'; simpl; congruence. Qed.

End fields.

#[export] Hint Rewrite @shipments_begin @shipments_settle @uploadLogs_settle
  @analyzedData_settle @isAnalyzing_settle @error_settle @modalState_settle
  @dragActive_settle
  : docboard.

(** ** A concrete upload, for the witnesses

    An invoice for the second of the initial shipments, and an upload for
    an id that no shipment has. *)

Definition demo_file : File.t := File.mk "invoice.pdf" "application/pdf" 2048.
Definition demo_id : string := "MV0205020250510-02".
Definition demo_clock : Clock.t :=
  Clock.mk "2025-10-09T08:00:01.500Z" 1760000401500 "2025-10-09T08:00:01.500Z".
Definition demo_result : AnalysisResult.t Z :=
  AnalysisResult.mk None (Some 1000%Z) (Some 5%Z) (Some ["A1"]) (Some "An invoice.").
Definition demo_shipment : Shipment.t :=
  default (Shipment.mk "" "" "" "" "" "" ∅) (INITIAL_SHIPMENTS !! 1).
Definition unknown_id : string := "MV-0000".

(** The upload of [demo_file] as the invoice of the shipment [sid], from
    the initial state. *)
Definition demo_upload (outcome : Outcome Z) (sid : string) : AppState.t Z :=
  handleFileUpload demo_clock outcome demo_file sid INVOICE (Some "") AppState.initial.

Lemma demo_id_listed : demo_id ∈ Shipment.id <$> AppState.shipments (num:=Z) AppState.initial.
Proof. by apply (bool_decide_unpack _). Defined.

Lemma unknown_id_not_listed :
  unknown_id ∉ Shipment.id <$> AppState.shipments (num:=Z) AppState.initial.
Proof. by apply (bool_decide_unpack _). Defined.

Lemma demo_shipment_found :
  find_shipment (AppState.shipments (num:=Z) AppState.initial) demo_id = Some demo_shipment.
Proof. reflexivity. Defined.

(** ** An upload that nothing interleaves with *)

Section upload.
Context {num : Type}.
Implicit Types (st : AppState.t num) (sid : string) (dt : DocumentType)
  (outcome : Outcome num) (r : AnalysisResult.t num) (clock : Clock.t)
  (file : File.t) (comments : option string).

(** The status a settled upload leaves in its slot. *)
Definition terminal_status (outcome : Outcome num) : DocumentStatus :=
  match outcome with Fulfilled _ => UPLOADED | Rejected => ERROR end.

Lemma shipments_handleFileUpload clock outcome file sid dt comments st :
  AppState.shipments (handleFileUpload clock outcome file sid dt comments st)
  = update_shipment sid (settled_shipment clock file dt outcome)
      (update_shipment sid (processing_shipment dt) (AppState.shipments st)).
Proof. by destruct outcome. Qed.

Lemma status_at_handleFileUpload clock outcome file sid dt comments st :
  sid ∈ Shipment.id <$> AppState.shipments st →
  status_at (AppState.shipments (handleFileUpload clock outcome file sid dt comments st))
    sid dt = Some (terminal_status outcome).
Proof.
  intros Hin. rewrite shipments_handleFileUpload.
  assert (sid ∈ Shipment.id <$>
    update_shipment sid (processing_shipment dt) (AppState.shipments st)) as Hin'
    by (by rewrite (update_shipment_ids dt) by apply _).
  destruct outcome; [by apply status_at_uploaded | by apply status_at_error].
Qed.

(** The shipment of an upload, after it. *)
Lemma find_shipment_handleFileUpload clock outcome file sid dt comments st s :
  find_shipment (AppState.shipments st) sid = Some s →
  find_shipment (AppState.shipments
    (handleFileUpload clock outcome file sid dt comments st)) sid
  = Some (settled_shipment clock file dt outcome (processing_shipment dt s)).
Proof.
  intros Hs. rewrite shipments_handleFileUpload.
  by do 2 apply (find_shipment_update_target dt _).
Qed.

(** The slot of a successful upload, after it. *)
Lemma slot_at_fulfilled clock file sid dt comments r st s :
  find_shipment (AppState.shipments st) sid = Some s →
  slot_at (AppState.shipments
    (handleFileUpload clock (Fulfilled r) file sid dt comments st)) sid dt
  = Some (uploaded_document file (Clock.uploadDate clock) (Shipment.invoiceNumber s) r).
Proof.
  intros Hs. rewrite shipments_handleFileUpload. unfold settled_shipment.
  rewrite (slot_at_uploaded _ _ _ _ _ _ (processing_shipment dt s)); [done|].
  by apply (find_shipment_update_target dt _).
Qed.

(** C1: an upload to a slot of an existing shipment leaves the slot
    [UPLOADED] when the analysis succeeded and [ERROR] when it failed; it
    never leaves it [PROCESSING], and the in-progress flag is cleared. *)
Theorem handleFileUpload_terminal clock outcome file sid dt comments st :
  sid ∈ Shipment.id <$> AppState.shipments st →
  let st' := handleFileUpload clock outcome file sid dt comments st in
  status_at (AppState.shipments st') sid dt = Some (terminal_status outcome)
  ∧ AppState.isAnalyzing st' = false.
Proof.
  intros Hin st'. split; [by apply status_at_handleFileUpload|].
  unfold st', handleFileUpload, andThen. apply isAnalyzing_settle.
Qed.

(** C6: after a successful upload the slot is the new document and
    nothing else: its name, date, uploader, link and summary are those of
    this upload, whatever the slot held before. *)
Theorem fulfilled_replaces_slot clock file sid dt comments r st s :
  find_shipment (AppState.shipments st) sid = Some s →
  slot_at (AppState.shipments
    (handleFileUpload clock (Fulfilled r) file sid dt comments st)) sid dt
  = Some (uploaded_document file (Clock.uploadDate clock) (Shipment.invoiceNumber s) r).
Proof. apply slot_at_fulfilled. Qed.

(** Of two uploads to the same slot one after the other, the slot
    holds the second and nothing of the first: its name, date and summary
    are those of the second upload, whatever the outcome of the first.  The
    first shows only in the link, which is built from the invoice number
    the shipment has when the second upload settles. *)
Theorem second_upload_wins clock1 clock2 outcome file1 file2 sid dt comments1 comments2
    r st s :
  find_shipment (AppState.shipments st) sid = Some s →
  let st1 := handleFileUpload clock1 outcome file1 sid dt comments1 st in
  let st2 := handleFileUpload clock2 (Fulfilled r) file2 sid dt comments2 st1 in
  slot_at (AppState.shipments st2) sid dt
  = Some (uploaded_document file2 (Clock.uploadDate clock2)
            match outcome with
            | Fulfilled r1 =>
                js_or (AnalysisResult.invoiceNumber r1) (Shipment.invoiceNumber s)
            | Rejected => Shipment.invoiceNumber s
            end r).
Proof.
  intros Hs st1 st2. unfold st2, st1.
  erewrite slot_at_fulfilled by by apply find_shipment_handleFileUpload.
  by destruct outcome.
Qed.

(** C8: a failed upload sets the slot to [ERROR], shows the one error
    message, and adds nothing to the log or to the analysed data. *)
Theorem rejected_effects clock file sid dt comments st :
  sid ∈ Shipment.id <$> AppState.shipments st →
  let st' := handleFileUpload clock Rejected file sid dt comments st in
  status_at (AppState.shipments st') sid dt = Some ERROR
  ∧ AppState.error st' = Some analysisFailed
  ∧ AppState.uploadLogs st' = AppState.uploadLogs st
  ∧ AppState.analyzedData st' = AppState.analyzedData st
  ∧ AppState.modalState st' = AppState.modalState st.
Proof.
  intros Hin st'. split; [|done].
  by apply (status_at_handleFileUpload clock Rejected).
Qed.

(** An upload for an id that no shipment has changes no shipment,
    neither when it starts nor when it settles. *)
Theorem unknown_shipment_noop clock outcome file sid dt comments st :
  sid ∉ Shipment.id <$> AppState.shipments st →
  AppState.shipments (handleFileUpload_begin sid dt st) = AppState.shipments st
  ∧ AppState.shipments (handleFileUpload clock outcome file sid dt comments st)
    = AppState.shipments st.
Proof.
  intros Hno. rewrite shipments_handleFileUpload, shipments_begin.
  rewrite (update_shipment_unknown (processing_shipment dt)) by done.
  split; [done|]. by apply update_shipment_unknown.
Qed.

(** C12: an upload changes no slot but its own: every other slot, of the
    same shipment or of another, holds what it held. *)
Theorem upload_frame clock outcome file sid dt comments st sid' dt' :
  (sid', dt') ≠ (sid, dt) →
  slot_at (AppState.shipments
    (handleFileUpload clock outcome file sid dt comments st)) sid' dt'
  = slot_at (AppState.shipments st) sid' dt'.
Proof.
  intros Hne. rewrite shipments_handleFileUpload.
  by rewrite !(slot_at_update_frame dt) by (done || apply _).
Qed.

(** C30: a successful upload overwrites the invoice number of the
    shipment when the analysis returned a non-empty one, and keeps it when
    the analysis returned none or an empty string. *)
Theorem invoiceNumber_overwrite clock file sid dt comments r st s :
  find_shipment (AppState.shipments st) sid = Some s →
  Shipment.invoiceNumber <$> find_shipment (AppState.shipments
    (handleFileUpload clock (Fulfilled r) file sid dt comments st)) sid
  = Some (match AnalysisResult.invoiceNumber r with
          | Some n => if bool_decide (n = "") then Shipment.invoiceNumber s else n
          | None => Shipment.invoiceNumber s
          end).
Proof.
  intros Hs. rewrite shipments_handleFileUpload. unfold settled_shipment.
  rewrite (invoiceNumber_uploaded _ _ _ _ _ _ (processing_shipment dt s))
    by (by apply (find_shipment_update_target dt _)).
  simpl. f_equal. destruct (AnalysisResult.invoiceNumber r) as [[|a n]|]; done.
Qed.

End upload.

Lemma handleFileUpload_terminal_witness :
  status_at (AppState.shipments (demo_upload Rejected demo_id)) demo_id INVOICE
  = Some ERROR
  ∧ AppState.isAnalyzing (demo_upload Rejected demo_id) = false.
Proof.
  exact (handleFileUpload_terminal demo_clock Rejected demo_file demo_id INVOICE
           (Some "") AppState.initial demo_id_listed).
Defined.

Lemma fulfilled_replaces_slot_witness :
  slot_at (AppState.shipments (demo_upload (Fulfilled demo_result) demo_id))
    demo_id INVOICE
  = Some (uploaded_document demo_file (Clock.uploadDate demo_clock)
            "INSCG00250830021" demo_result).
Proof.
  exact (fulfilled_replaces_slot demo_clock demo_file demo_id INVOICE (Some "")
           demo_result AppState.initial demo_shipment demo_shipment_found).
Defined.

Lemma second_upload_wins_witness :
  slot_at (AppState.shipments
    (handleFileUpload demo_clock (Fulfilled demo_result) demo_file demo_id INVOICE None
       (demo_upload Rejected demo_id))) demo_id INVOICE
  = Some (uploaded_document demo_file (Clock.uploadDate demo_clock)
            (Shipment.invoiceNumber demo_shipment) demo_result).
Proof.
  exact (second_upload_wins demo_clock demo_clock Rejected demo_file demo_file demo_id
           INVOICE (Some "") None demo_result AppState.initial demo_shipment
           demo_shipment_found).
Defined.

Lemma rejected_effects_witness :
  status_at (AppState.shipments (demo_upload Rejected demo_id)) demo_id INVOICE
  = Some ERROR
  ∧ AppState.error (demo_upload Rejected demo_id) = Some analysisFailed
  ∧ AppState.uploadLogs (demo_upload Rejected demo_id) = []
  ∧ AppState.analyzedData (demo_upload Rejected demo_id) = []
  ∧ AppState.modalState (demo_upload Rejected demo_id) = ModalState.closed.
Proof.
  exact (rejected_effects demo_clock demo_file demo_id INVOICE (Some "")
           AppState.initial demo_id_listed).
Defined.

Lemma unknown_shipment_noop_witness :
  AppState.shipments (handleFileUpload_begin unknown_id INVOICE (AppState.initial (num:=Z)))
  = INITIAL_SHIPMENTS
  ∧ AppState.shipments (demo_upload Rejected unknown_id) = INITIAL_SHIPMENTS.
Proof.
  exact (unknown_shipment_noop demo_clock Rejected demo_file unknown_id INVOICE
           (Some "") AppState.initial unknown_id_not_listed).
Defined.

Lemma upload_frame_witness :
  slot_at (AppState.shipments (demo_upload (Fulfilled demo_result) demo_id))
    demo_id PACKING_LIST
  = Some missing.
Proof.
  exact (upload_frame demo_clock (Fulfilled demo_result) demo_file demo_id INVOICE
           (Some "") AppState.initial demo_id PACKING_LIST ltac:(discriminate)).
Defined.

Lemma invoiceNumber_overwrite_witness :
  Shipment.invoiceNumber <$>
    find_shipment (AppState.shipments (demo_upload (Fulfilled demo_result) demo_id))
      demo_id
  = Some "INSCG00250830021".
Proof.
  exact (invoiceNumber_overwrite demo_clock demo_file demo_id INVOICE (Some "")
           demo_result AppState.initial demo_shipment demo_shipment_found).
Defined.

(** ** What an upload does to the summary *)

Section upload_summary.
Context `{JsNum num}.
Implicit Types (st : AppState.t num) (sid : string) (dt : DocumentType)
  (outcome : Outcome num) (r : AnalysisResult.t num) (clock : Clock.t)
  (file : File.t) (comments : option string).

(** The uploaded slots before and after an upload to the slot [(sid, dt)],
    which held [d0]. *)
Lemma uploaded_after_upload clock outcome file sid dt comments st s d0 :
  NoDup (Shipment.id <$> AppState.shipments st) →
  find_shipment (AppState.shipments st) sid = Some s →
  Shipment.documents s !! dt = Some d0 →
  (Summary.uploadedDocs (summary_of (handleFileUpload clock outcome file sid dt comments st))
   + (if decide (is_uploaded d0) then 1 else 0)
   = Summary.uploadedDocs (summary_of st)
     + (match outcome with Fulfilled _ => 1 | Rejected => 0 end))%Z.
Proof.
  intros Hnd Hs Hd0. unfold summary_of. rewrite !uploadedDocs_sum.
  rewrite shipments_handleFileUpload.
  pose proof (sum_uploaded_processing sid dt _ s d0 Hnd Hs Hd0) as H1.
  set (prev1 := update_shipment sid (processing_shipment dt) (AppState.shipments st)) in *.
  assert (NoDup (Shipment.id <$> prev1)) as Hnd1
    by (by unfold prev1; rewrite (update_shipment_ids dt) by apply _).
  assert (find_shipment prev1 sid = Some (processing_shipment dt s)) as Hs1
    by by apply (find_shipment_update_target dt _).
  assert (Shipment.documents (processing_shipment dt s) !! dt
          = Some (Document.spread_status (Some d0) PROCESSING)) as Hd1
    by (by simpl; rewrite lookup_insert_eq, Hd0).
  assert (¬ is_uploaded (Document.spread_status (Some d0) PROCESSING)) as Hnu
    by by rewrite is_uploaded_spread_status.
  destruct outcome as [r|]; unfold settled_shipment.
  - pose proof (sum_uploaded_uploaded file sid dt (Clock.uploadDate clock) r
      prev1 _ _ Hnd1 Hs1 Hd1) as H2.
    rewrite decide_False in H2 by done. destruct (decide (is_uploaded d0)); lia.
  - pose proof (sum_uploaded_error sid dt prev1 _ _ Hnd1 Hs1 Hd1) as H2.
    rewrite decide_False in H2 by done. destruct (decide (is_uploaded d0)); lia.
Qed.

(** C10: a successful upload to a slot that was not uploaded leaves the
    total number of documents as it was, raises the uploaded documents by
    one, lowers the missing ones by one, adds the amount of the analysis
    to the total value (nothing when the amount is absent), and puts one
    entry, a success, at the head of the log. *)
Theorem fulfilled_summary clock file sid dt comments r st s d0 :
  NoDup (Shipment.id <$> AppState.shipments st) →
  find_shipment (AppState.shipments st) sid = Some s →
  Shipment.documents s !! dt = Some d0 →
  Document.status d0 ≠ UPLOADED →
  let st' := handleFileUpload clock (Fulfilled r) file sid dt comments st in
  (Summary.totalDocs (summary_of st') = Summary.totalDocs (summary_of st)
   ∧ Summary.uploadedDocs (summary_of st') = Summary.uploadedDocs (summary_of st) + 1
   ∧ Summary.missingDocs (summary_of st') = Summary.missingDocs (summary_of st) - 1)%Z
  ∧ Summary.totalValue (summary_of st')
    = num_add (Summary.totalValue (summary_of st))
              (js_or (AnalysisResult.totalAmount r) num_zero)
  ∧ ∃ entry, AppState.uploadLogs st' = entry :: AppState.uploadLogs st
      ∧ UploadLogEntry.analysisStatus entry = Success
      ∧ UploadLogEntry.shipmentId entry = sid.
Proof.
  intros Hnd Hs Hd0 Hst st'.
  pose proof (uploaded_after_upload clock (Fulfilled r) file sid dt comments st s d0
    Hnd Hs Hd0) as Hu.
  rewrite decide_False in Hu by done. fold st' in Hu.
  assert (Summary.totalDocs (summary_of st') = Summary.totalDocs (summary_of st)) as Ht.
  { unfold summary_of, st'. rewrite !totalDocs_length, shipments_handleFileUpload.
    by rewrite !update_shipment_length. }
  split; [|split].
  - unfold summary_of in *. rewrite !missingDocs_difference. lia.
  - apply totalValue_of_snoc.
  - by eexists.
Qed.

(** A failed upload leaves the total of the summary and the number
    of documents as they were; the uploaded documents stay the same when
    the slot was not uploaded, and drop by one when it was. *)
Theorem rejected_summary clock file sid dt comments st s d0 :
  NoDup (Shipment.id <$> AppState.shipments st) →
  find_shipment (AppState.shipments st) sid = Some s →
  Shipment.documents s !! dt = Some d0 →
  let st' := handleFileUpload clock Rejected file sid dt comments st in
  (Summary.totalDocs (summary_of st') = Summary.totalDocs (summary_of st)
   ∧ Summary.uploadedDocs (summary_of st')
     = Summary.uploadedDocs (summary_of st)
       - (if decide (is_uploaded d0) then 1 else 0))%Z
  ∧ Summary.totalValue (summary_of st') = Summary.totalValue (summary_of st).
Proof.
  intros Hnd Hs Hd0 st'.
  pose proof (uploaded_after_upload clock Rejected file sid dt comments st s d0
    Hnd Hs Hd0) as Hu. fold st' in Hu.
  split; [split|done]; [|destruct (decide (is_uploaded d0)); lia].
  unfold summary_of, st'. rewrite !totalDocs_length, shipments_handleFileUpload.
  by rewrite !update_shipment_length.
Qed.

End upload_summary.

Lemma fulfilled_summary_witness :
  let st' := demo_upload (Fulfilled demo_result) demo_id in
  (Summary.totalDocs (summary_of st') = 30
   ∧ Summary.uploadedDocs (summary_of st') = 5 + 1
   ∧ Summary.missingDocs (summary_of st') = 25 - 1)%Z
  ∧ Summary.totalValue (summary_of st') = (0 + 1000)%Z
  ∧ ∃ entry, AppState.uploadLogs st' = [entry]
      ∧ UploadLogEntry.analysisStatus entry = Success
      ∧ UploadLogEntry.shipmentId entry = demo_id.
Proof.
  exact (fulfilled_summary demo_clock demo_file demo_id INVOICE (Some "") demo_result
           AppState.initial demo_shipment missing INITIAL_SHIPMENTS_ids_NoDup
           demo_shipment_found eq_refl ltac:(discriminate)).
Defined.

(** The first initial shipment has an uploaded invoice: a failed upload to
    that slot takes it out of the uploaded documents. *)
Lemma rejected_summary_witness :
  let st' := handleFileUpload demo_clock Rejected demo_file "BSTSE002509010-1" INVOICE
               None (AppState.initial (num:=Z)) in
  (Summary.totalDocs (summary_of st') = 30
   ∧ Summary.uploadedDocs (summary_of st') = 5 - 1)%Z
  ∧ Summary.totalValue (summary_of st') = 0%Z.
Proof.
  exact (rejected_summary demo_clock demo_file "BSTSE002509010-1" INVOICE None
           AppState.initial (default demo_shipment (INITIAL_SHIPMENTS !! 0))
           (uploaded "CIPL_BSTSE002509010.pdf" "2024-10-23" "Yujin" "#")
           INITIAL_SHIPMENTS_ids_NoDup eq_refl eq_refl).
Defined.

(** ** Two uploads at once

    Nothing in [handleFileUpload] keeps a second call from starting while a
    first one is suspended at its [await]: it is the dialog that does, by
    disabling its button.  Whatever the two slots, the two calls do not
    disturb each other: the state they leave is the one that the two
    uploads leave when they run one after the other, in the order in which
    they settle. *)

Section interleaved.
Context {num : Type}.
Implicit Types (st : AppState.t num) (sid : string) (dt : DocumentType)
  (outcome : Outcome num) (clock : Clock.t) (file : File.t)
  (comments : option string) (s : Shipment.t).

(** On one shipment, the settlement of the second upload gives the same
    whether that upload began before the first one settled or after. *)
Lemma settled_processing_commute clockA clockB fileA fileB dtA dtB
    (outcomeA outcomeB : Outcome num) s :
  settled_shipment clockB fileB dtB outcomeB
    (settled_shipment clockA fileA dtA outcomeA (processing_shipment dtB s))
  = settled_shipment clockB fileB dtB outcomeB
      (processing_shipment dtB (settled_shipment clockA fileA dtA outcomeA s)).
Proof.
  destruct s as [id inv date orig dest carr docs].
  destruct outcomeA as [rA|], outcomeB as [rB|];
    unfold settled_shipment, uploaded_shipment, error_shipment, processing_shipment,
      Shipment.with_documents; simpl; f_equal;
    apply map_eq; intros k;
    destruct (decide (k = dtB)) as [->|]; destruct (decide (dtB = dtA)) as [->|];
    simplify_map_eq; try done.
  all: try (destruct (decide (k = dtA)) as [->|]; simplify_map_eq; done).
  all: by destruct (docs !! dtA).
Qed.

(** The same, on the list of the shipments. *)
Lemma update_settled_processing clockA clockB fileA fileB sidA sidB dtA dtB
    (outcomeA outcomeB : Outcome num) (prev : list Shipment.t) :
  update_shipment sidB (settled_shipment clockB fileB dtB outcomeB)
    (update_shipment sidA (settled_shipment clockA fileA dtA outcomeA)
       (update_shipment sidB (processing_shipment dtB) prev))
  = update_shipment sidB (settled_shipment clockB fileB dtB outcomeB)
      (update_shipment sidB (processing_shipment dtB)
         (update_shipment sidA (settled_shipment clockA fileA dtA outcomeA) prev)).
Proof.
  unfold update_shipment, map_if. rewrite <- !list_fmap_compose.
  apply list_fmap_ext; intros _ s _. simpl.
  destruct (bool_decide (Shipment.id s = sidB)) eqn:HB,
    (bool_decide (Shipment.id s = sidA)) eqn:HA;
    repeat (progress rewrite
      ?(upd_id (docType:=dtB) (f:=processing_shipment dtB)),
      ?(upd_id (docType:=dtA) (f:=settled_shipment clockA fileA dtA outcomeA)),
      ?(upd_id (docType:=dtB) (f:=settled_shipment clockB fileB dtB outcomeB)),
      ?HA, ?HB);
    try done.
  apply settled_processing_commute.
Qed.

(** The two calls settle in the order in which they began. *)
Lemma settle_in_order clockA clockB fileA fileB sidA sidB dtA dtB
    commentsA commentsB (outcomeA outcomeB : Outcome num) st :
  (handleFileUpload_begin sidA dtA >>> handleFileUpload_begin sidB dtB >>>
   handleFileUpload_settle clockA fileA sidA dtA commentsA outcomeA >>>
   handleFileUpload_settle clockB fileB sidB dtB commentsB outcomeB) st
  = (handleFileUpload clockA outcomeA fileA sidA dtA commentsA >>>
     handleFileUpload clockB outcomeB fileB sidB dtB commentsB) st.
Proof.
  unfold handleFileUpload, andThen.
  apply AppState_ext; autorewrite with docboard;
    [apply update_settled_processing|..];
    destruct outcomeA, outcomeB; autorewrite with docboard;
    by rewrite ?(proj1 (begin_frame _ _ _)), ?(proj1 (proj2 (begin_frame _ _ _))),
      ?(proj1 (proj2 (proj2 (begin_frame _ _ _)))),
      ?(proj2 (proj2 (proj2 (begin_frame _ _ _)))).
Qed.

(** Marking two slots as processing, in either order. *)
Lemma processing_commute dtA dtB s :
  processing_shipment dtB (processing_shipment dtA s)
  = processing_shipment dtA (processing_shipment dtB s).
Proof.
  destruct s as [id inv date orig dest carr docs].
  unfold processing_shipment, Shipment.with_documents; simpl; f_equal.
  apply map_eq; intros k.
  destruct (decide (dtB = dtA)) as [->|]; [done|].
  destruct (decide (k = dtA)) as [Ha|Ha], (decide (k = dtB)) as [Hb|Hb];
    by simplify_map_eq.
Qed.

(** The parts before the [await] of two calls, in either order. *)
Lemma begin_commute sidA sidB dtA dtB st :
  (handleFileUpload_begin sidA dtA >>> handleFileUpload_begin sidB dtB) st
  = (handleFileUpload_begin sidB dtB >>> handleFileUpload_begin sidA dtA) st.
Proof.
  unfold andThen. apply AppState_ext; try done. rewrite !shipments_begin.
  unfold update_shipment, map_if. rewrite <- !list_fmap_compose.
  apply list_fmap_ext; intros _ s _. simpl.
  destruct (bool_decide (Shipment.id s = sidB)) eqn:HB,
    (bool_decide (Shipment.id s = sidA)) eqn:HA; simpl; rewrite ?HA, ?HB; try done.
  apply processing_commute.
Qed.

(** C13: two uploads that are in flight at once are serialised.  When both
    calls have begun before either settles, the state after both have
    settled is the state that the two uploads leave when the first to
    settle runs from its beginning to its end before the other begins,
    whichever of the two settles first.  This holds for any two slots, the
    same slot included, and any outcomes: the later settlement wins, and
    no slot, log entry or message mixes the two. *)
Theorem interleaved_is_serial clockA clockB fileA fileB sidA sidB dtA dtB
    commentsA commentsB (outcomeA outcomeB : Outcome num) st :
  let settleA := handleFileUpload_settle clockA fileA sidA dtA commentsA outcomeA in
  let settleB := handleFileUpload_settle clockB fileB sidB dtB commentsB outcomeB in
  let uploadA := handleFileUpload clockA outcomeA fileA sidA dtA commentsA in
  let uploadB := handleFileUpload clockB outcomeB fileB sidB dtB commentsB in
  let begun := (handleFileUpload_begin sidA dtA >>> handleFileUpload_begin sidB dtB) st in
  (settleA >>> settleB) begun = (uploadA >>> uploadB) st
  ∧ (settleB >>> settleA) begun = (uploadB >>> uploadA) st.
Proof.
  intros settleA settleB uploadA uploadB begun. split; [apply settle_in_order|].
  unfold begun. rewrite begin_commute. apply settle_in_order.
Qed.

End interleaved.

(** ** Behaviours that the data model or the documentation does not expect *)

Section unexpected.
Context `{JsNum num}.
Implicit Types (st : AppState.t num) (sid : string) (dt : DocumentType)
  (r : AnalysisResult.t num) (clock : Clock.t) (file : File.t)
  (comments : option string).

(** C37: a successful upload for an unknown shipment id changes no
    shipment, and is recorded all the same: the log gets its entry and the
    total value of the summary its amount. *)
Theorem unknown_shipment_recorded clock file sid dt comments r st :
  sid ∉ Shipment.id <$> AppState.shipments st →
  let st' := handleFileUpload clock (Fulfilled r) file sid dt comments st in
  AppState.shipments st' = AppState.shipments st
  ∧ AppState.uploadLogs st' = newLog clock file sid dt comments r :: AppState.uploadLogs st
  ∧ Summary.totalValue (summary_of st')
    = num_add (Summary.totalValue (summary_of st))
              (js_or (AnalysisResult.totalAmount r) num_zero).
Proof.
  intros Hno st'. split; [|split; [done|apply totalValue_of_snoc]].
  unfold st'. rewrite shipments_handleFileUpload.
  by rewrite !update_shipment_unknown
    by (by rewrite ?update_shipment_unknown by done).
Qed.

(** C38: a failed upload changes the status of the slot and nothing else
    of it, so a slot that held an uploaded document keeps the name, date,
    uploader, link and summary of that document under the status [ERROR],
    and is no longer a slot of the data model, whose slots carry these
    properties only when uploaded. *)
Theorem rejected_keeps_stale_fields clock file sid dt comments st d0 :
  slot_at (AppState.shipments st) sid dt = Some d0 →
  let slot' := slot_at (AppState.shipments
    (handleFileUpload clock Rejected file sid dt comments st)) sid dt in
  slot' = Some (Document.mk (Document.name d0) ERROR (Document.uploadDate d0)
                  (Document.uploader d0) (Document.driveLink d0)
                  (Document.analysisSummary d0))
  ∧ (Document.status d0 = UPLOADED → Document.consistent d0 = true →
     Document.consistent <$> slot' = Some false).
Proof.
  intros Hd0 slot'. assert (slot' = Some (Document.spread_status (Some d0) ERROR)) as ->.
  { unfold slot'. rewrite shipments_handleFileUpload. unfold settled_shipment.
    erewrite slot_at_error; [by rewrite spread_status_spread_status|].
    by apply slot_at_processing. }
  split; [done|]. unfold Document.consistent, Document.bare; simpl.
  intros -> Hc%bool_decide_eq_true. destruct Hc as ([n Hn] & _).
  rewrite Hn. by rewrite bool_decide_eq_false_2 by by intros [? _].
Qed.

(** C39: the link stored in the slot is built from the invoice number
    of the shipment and the link written to the log from its id, so the
    two links of one upload are the same only for a shipment whose invoice
    number is its id. *)
Theorem drive_links_agree clock file sid dt comments r st s :
  find_shipment (AppState.shipments st) sid = Some s →
  let st' := handleFileUpload clock (Fulfilled r) file sid dt comments st in
  (slot_at (AppState.shipments st') sid dt ≫= Document.driveLink
   = UploadLogEntry.driveLink <$> head (AppState.uploadLogs st'))
  ↔ Shipment.invoiceNumber s = sid.
Proof.
  intros Hs st'. unfold st'. rewrite shipments_handleFileUpload.
  unfold settled_shipment.
  rewrite (slot_at_uploaded _ _ _ _ _ _ (processing_shipment dt s))
    by (by apply (find_shipment_update_target dt _)).
  unfold handleFileUpload, andThen. rewrite uploadLogs_settle.
  cbn [head fmap option_fmap option_map mbind option_bind option_ret mret
       uploaded_document Document.driveLink newLog UploadLogEntry.driveLink
       processing_shipment Shipment.with_documents Shipment.invoiceNumber].
  rewrite <- (string_template_inj "https://mock-drive.com/"
    ("/" +:+ File.name file) (Shipment.invoiceNumber s) sid).
  split; congruence.
Qed.

(** The id of a log entry is made of the millisecond at which the
    upload was logged, so two entries have the same id exactly when they
    were logged within the same millisecond. *)
Theorem log_id_unique clock1 clock2 file1 file2 sid1 sid2 dt1 dt2 c1 c2 r1 r2 :
  UploadLogEntry.id (newLog clock1 file1 sid1 dt1 c1 r1)
  = UploadLogEntry.id (newLog clock2 file2 sid2 dt2 c2 r2)
  ↔ Clock.now clock1 = Clock.now clock2.
Proof.
  simpl. split; [|by intros ->].
  by intros ?%(inj (String.append "log-"))%(inj pretty).
Qed.

End unexpected.

Lemma unknown_shipment_recorded_witness :
  let st' := demo_upload (Fulfilled demo_result) unknown_id in
  AppState.shipments st' = INITIAL_SHIPMENTS
  ∧ AppState.uploadLogs st'
    = [newLog demo_clock demo_file unknown_id INVOICE (Some "") demo_result]
  ∧ Summary.totalValue (summary_of st') = (0 + 1000)%Z.
Proof.
  exact (unknown_shipment_recorded demo_clock demo_file unknown_id INVOICE (Some "")
           demo_result AppState.initial unknown_id_not_listed).
Defined.

Lemma rejected_keeps_stale_fields_witness :
  Document.consistent <$>
    slot_at (AppState.shipments
      (handleFileUpload demo_clock Rejected demo_file "BSTSE002509010-1" INVOICE
         None (AppState.initial (num:=Z)))) "BSTSE002509010-1" INVOICE
  = Some false.
Proof.
  exact (proj2 (rejected_keeps_stale_fields demo_clock demo_file "BSTSE002509010-1"
                  INVOICE None AppState.initial
                  (uploaded "CIPL_BSTSE002509010.pdf" "2024-10-23" "Yujin" "#")
                  eq_refl) eq_refl eq_refl).
Defined.

(** The invoice number of the demo shipment is not its id: the two links
    of the upload differ. *)
Lemma drive_links_agree_witness :
  let st' := demo_upload (Fulfilled demo_result) demo_id in
  slot_at (AppState.shipments st') demo_id INVOICE ≫= Document.driveLink
  ≠ UploadLogEntry.driveLink <$> head (AppState.uploadLogs st').
Proof.
  intros st' Heq.
  by apply (drive_links_agree demo_clock demo_file demo_id INVOICE (Some "")
              demo_result AppState.initial demo_shipment demo_shipment_found) in Heq.
Defined.
