(* ===== verification/Machine.v ===== *)
(** * Machine: the [App] component as a transition system

    The handlers of [src/App.tsx] run one at a time, but an upload is two
    runs: the part of [handleFileUpload] before its [await] and the part
    after it, with whatever the user does in between.  A state of the system
    is the state of the component together with the uploads whose analysis
    has not settled; a step is one run of a handler or one settlement.  The
    guards of the steps are the conditions under which the rendered page
    lets the handler run: the dialog is rendered only while it is open, and
    its buttons are disabled while [isAnalyzing] is set.

    The invariants are proved by induction on the steps for a system in
    which any number of uploads may be in flight; that at most one is
    follows from the guard of the submit step.  They are about the flag
    and the uploads in flight, the shape of the shipments, the slots being
    processed and the uploaded ones, the log, and the message of a
    failure.

    The settlement of an upload is a relation of its own, [settlement],
    and a constructor of [step]: every settlement takes one upload out of
    those in flight, so the settlements terminate.  A step only adds to
    the log and to the analysed data: [history_kept] is a preorder that
    every run respects. *)

From stdpp Require Import base tactics option list strings gmap finite pretty.
From S2P Require Import Prelude Types Constants Shipments Analytics App.

(** ** The transition system of the component *)

(** An upload whose analysis has not settled: the arguments of the
    suspended call of [handleFileUpload]. *)
Module Pending.

Record t := mk {
  file : File.t;
  shipmentId : string;
  docType : DocumentType;
  comments : option string;
}.

End Pending.

#[export] Instance Pending_eq_dec : EqDecision Pending.t.
Proof. solve_decision. Defined.

(** The component and the calls in flight. *)
Module Sys.

Record t {num : Type} := mk {
  app : AppState.t num;
  inFlight : list Pending.t;
}.
Global Arguments t : clear implicits.
Global Arguments mk {num}.

Definition initial {num} : t num := mk AppState.initial [].

End Sys.

(** The analysis service, as far as the component depends on it: which
    outcomes a call may have. *)
Class Analyzer (num : Type) :=
  analyzes : string → DocumentType → Outcome num → Prop.
Global Hint Mode Analyzer ! : typeclass_instances.

(** Every call settles.  The source sets no time limit on the call, so
    this is an assumption about the service. *)
Class Settles (num : Type) `{Analyzer num} : Prop :=
  settles : ∀ content docType, ∃ outcome : Outcome num, analyzes content docType outcome.

(** [onDragEnter={handleDrag}] of the page, and [onDragEnter], [onDragLeave]
    and [onDragOver] of the overlay that is rendered while [dragActive]:
    the types of event with which [handleDrag] can be called. *)
Definition drag_offered {num} (type : string) (st : AppState.t num) : Prop :=
  type = "dragenter"
  ∨ AppState.dragActive st = true ∧ (type = "dragleave" ∨ type = "dragover").

#[export] Instance drag_offered_dec {num} type (st : AppState.t num) :
  Decision (drag_offered type st).
Proof. unfold drag_offered. apply _. Defined.

(** The handlers that can run, and when.
    - The header's button opens the dialog with no argument.
    - The dialog's Cancel button is rendered when the dialog is open and is
      disabled during an analysis.
    - A drag that enters the page reaches [handleDrag]; the overlay, which
      is rendered while [dragActive], passes it the drags that enter it,
      leave it or move over it, and passes a drop to [handleDrop].
    - The dialog's submit button is rendered when the dialog is open, is
      disabled during an analysis, and [handleSubmit] calls
      [onFileUpload] only with a file, a non-empty shipment id and a
      document type.
    - A call in flight settles with an outcome of the service. *)

(** The step that needs no user: the part of [handleFileUpload] after its
    [await] runs for an upload in flight, which is then no longer in
    flight. *)
Inductive settlement `{Analyzer num} : Sys.t num → Sys.t num → Prop :=
  | settle clock outcome p st fl1 fl2 :
      analyzes (fileContent (Pending.file p) (Pending.shipmentId p) (Pending.docType p))
               (Pending.docType p) outcome →
      settlement (Sys.mk st (fl1 ++ p :: fl2))
           (Sys.mk (handleFileUpload_settle clock (Pending.file p)
                      (Pending.shipmentId p) (Pending.docType p)
                      (Pending.comments p) outcome st)
                   (fl1 ++ fl2)).

Inductive step `{Analyzer num} : Sys.t num → Sys.t num → Prop :=
  | step_open st fl :
      step (Sys.mk st fl) (Sys.mk (handleOpenModal None None None st) fl)
  | step_cancel st fl :
      ModalState.isOpen (AppState.modalState st) = true →
      AppState.isAnalyzing st = false →
      step (Sys.mk st fl) (Sys.mk (handleCloseModal st) fl)
  | step_drag type st fl :
      drag_offered type st →
      step (Sys.mk st fl) (Sys.mk (handleDrag type st) fl)
  | step_drop files st fl :
      AppState.dragActive st = true →
      step (Sys.mk st fl) (Sys.mk (handleDrop files st) fl)
  | step_submit file shipmentId docType comments st fl :
      ModalState.isOpen (AppState.modalState st) = true →
      AppState.isAnalyzing st = false →
      truthy shipmentId = true →
      step (Sys.mk st fl)
           (Sys.mk (handleFileUpload_begin shipmentId docType st)
                   (fl ++ [Pending.mk file shipmentId docType (Some comments)]))
  | step_settlement sys sys' : settlement sys sys' → step sys sys'.

(** The settlement of an upload, as a step. *)
Lemma step_settle `{Analyzer num} clock (outcome : Outcome num) p
    (st : AppState.t num) fl1 fl2 :
  analyzes (fileContent (Pending.file p) (Pending.shipmentId p) (Pending.docType p))
           (Pending.docType p) outcome →
  step (Sys.mk st (fl1 ++ p :: fl2))
       (Sys.mk (handleFileUpload_settle clock (Pending.file p)
                  (Pending.shipmentId p) (Pending.docType p)
                  (Pending.comments p) outcome st)
               (fl1 ++ fl2)).
Proof. intros Ha. by apply step_settlement, settle. Defined.

(** The states the component can be in. *)
Definition reachable `{Analyzer num} (sys : Sys.t num) : Prop :=
  rtc step Sys.initial sys.

(** ** Invariants, as predicates on states *)

Section invariants.
Context {num : Type}.
Implicit Types (sys : Sys.t num) (st : AppState.t num).

(** The in-progress flag is set exactly while a call is in flight, and at
    most one call is. *)
Definition flag_matches sys : Prop :=
  match Sys.inFlight sys with
  | [] => AppState.isAnalyzing (Sys.app sys) = false
  | [_] => AppState.isAnalyzing (Sys.app sys) = true
  | _ => False
  end.

(** The shipments are the initial ones, each with its six slots. *)
Definition shipments_kept sys : Prop :=
  Forall Shipment.wf (AppState.shipments (Sys.app sys))
  ∧ Shipment.id <$> AppState.shipments (Sys.app sys)
    = Shipment.id <$> INITIAL_SHIPMENTS.

(** A slot is [PROCESSING] only for a call in flight. *)
Definition processing_in_flight sys : Prop :=
  ∀ s dt d, s ∈ AppState.shipments (Sys.app sys) →
    Shipment.documents s !! dt = Some d → Document.status d = PROCESSING →
    ∃ p, p ∈ Sys.inFlight sys ∧ Pending.shipmentId p = Shipment.id s
         ∧ Pending.docType p = dt.

(** The log and the analysed data record the same uploads, the log from
    the newest, the data from the oldest; every entry is a success. *)
Definition logs_match sys : Prop :=
  (λ l, (UploadLogEntry.shipmentId l,
         AnalysisResult.totalAmount <$> UploadLogEntry.extractedData l))
    <$> AppState.uploadLogs (Sys.app sys)
  = reverse ((λ d, (AnalyzedData.shipmentId d, Some (AnalyzedData.totalAmount d)))
    <$> AppState.analyzedData (Sys.app sys))
  ∧ Forall (λ l, UploadLogEntry.analysisStatus l = Success)
      (AppState.uploadLogs (Sys.app sys)).

(** The dialog is never opened for a given shipment or document type. *)
Definition modal_unbound sys : Prop :=
  ModalState.shipmentId (AppState.modalState (Sys.app sys)) = None
  ∧ ModalState.docType (AppState.modalState (Sys.app sys)) = None.

(** The dialog stays open during an analysis, and a message is set only
    while the dialog, which shows it, is open and no analysis runs. *)
Definition error_shown sys : Prop :=
  (Sys.inFlight sys ≠ [] → ModalState.isOpen (AppState.modalState (Sys.app sys)) = true)
  ∧ ∀ msg, AppState.error (Sys.app sys) = Some msg →
      msg = analysisFailed
      ∧ ModalState.isOpen (AppState.modalState (Sys.app sys)) = true
      ∧ AppState.isAnalyzing (Sys.app sys) = false.

(** Every uploaded slot beyond the five of the initial data is accounted
    for by an entry of the log. *)
Definition uploads_logged sys : Prop :=
  sum_list_with (λ s, uploaded_in (Shipment.documents s))
    (AppState.shipments (Sys.app sys))
  ≤ 5 + length (AppState.uploadLogs (Sys.app sys)).

End invariants.

(** ** Steps, by what they touch *)

Section steps.
Context `{Analyzer num}.
Implicit Types (sys : Sys.t num) (st : AppState.t num).

(** A handler that touches only the dialog, the message and the drag flag. *)
Definition ui_only (f : AppState.t num → AppState.t num) : Prop :=
  ∀ st, AppState.shipments (f st) = AppState.shipments st
      ∧ AppState.uploadLogs (f st) = AppState.uploadLogs st
      ∧ AppState.analyzedData (f st) = AppState.analyzedData st
      ∧ AppState.isAnalyzing (f st) = AppState.isAnalyzing st.

Lemma handleOpenModal_ui sid dt file : ui_only (handleOpenModal sid dt file).
Proof. done. Qed.

Lemma handleCloseModal_ui : ui_only handleCloseModal.
Proof. done. Qed.

Lemma handleDrag_ui type : ui_only (handleDrag type).
Proof. intros st. unfold handleDrag. by repeat case_bool_decide. Qed.

Lemma handleDrop_ui files : ui_only (handleDrop files).
Proof. intros st. by destruct files. Qed.

(** The three kinds of step. *)
Variant step_kind sys sys' : Prop :=
  | kind_ui f :
      ui_only f → Sys.app sys' = f (Sys.app sys) →
      Sys.inFlight sys' = Sys.inFlight sys → step_kind sys sys'
  | kind_submit file sid dt comments :
      AppState.isAnalyzing (Sys.app sys) = false →
      truthy sid = true →
      Sys.app sys' = handleFileUpload_begin sid dt (Sys.app sys) →
      Sys.inFlight sys' = Sys.inFlight sys ++ [Pending.mk file sid dt (Some comments)] →
      step_kind sys sys'
  | kind_settle clock outcome p fl1 fl2 :
      Sys.inFlight sys = fl1 ++ p :: fl2 →
      Sys.app sys' = handleFileUpload_settle clock (Pending.file p)
        (Pending.shipmentId p) (Pending.docType p) (Pending.comments p) outcome
        (Sys.app sys) →
      Sys.inFlight sys' = fl1 ++ fl2 → step_kind sys sys'.

Lemma step_step_kind sys sys' : step sys sys' → step_kind sys sys'.
Proof.
  destruct 1 as [| | | | |?? []].
  - by eapply kind_ui; [apply handleOpenModal_ui|..].
  - by eapply kind_ui; [apply handleCloseModal_ui|..].
  - by eapply kind_ui; [apply handleDrag_ui|..].
  - by eapply kind_ui; [apply handleDrop_ui|..].
  - by eapply kind_submit.
  - by eapply kind_settle.
Qed.

Lemma reachable_initial : reachable (num:=num) Sys.initial.
Proof. apply rtc_refl. Qed.

Lemma reachable_step sys sys' : reachable sys → step sys sys' → reachable sys'.
Proof. apply rtc_r. Qed.

(** Induction over the reachable states. *)
Lemma reachable_ind (P : Sys.t num → Prop) :
  P Sys.initial →
  (∀ sys sys', reachable sys → P sys → step sys sys' → P sys') →
  ∀ sys, reachable sys → P sys.
Proof.
  intros Hinit Hstep. apply rtc_ind_r; [done|].
  intros sys sys' Hr Hs IH. by eapply Hstep.
Qed.

(** *** The flag *)

Lemma flag_matches_step sys sys' :
  flag_matches sys → step sys sys' → flag_matches sys'.
Proof.
  unfold flag_matches. intros Hflag [f Hf -> ->|file sid dt c Hidle _ -> ->
    |clock outcome p fl1 fl2 Hfl -> ->]%step_step_kind.
  - destruct (Hf (Sys.app sys)) as (_ & _ & _ & ->). done.
  - destruct (Sys.inFlight sys) as [|? [|]]; simpl; [done|congruence|done].
  - rewrite Hfl in Hflag. rewrite isAnalyzing_settle.
    by destruct fl1 as [|? [|]], fl2.
Qed.

(** *** The shipments *)

Lemma shipments_kept_step sys sys' :
  shipments_kept sys → step sys sys' → shipments_kept sys'.
Proof.
  unfold shipments_kept. intros [Hwf Hids] [f Hf -> _|file sid dt c _ _ -> _
    |clock outcome p fl1 fl2 _ -> _]%step_step_kind.
  - destruct (Hf (Sys.app sys)) as (-> & _). done.
  - rewrite shipments_begin, (update_shipment_ids dt) by apply _.
    split; [by apply (update_shipment_wf dt _)|done].
  - rewrite shipments_settle, (update_shipment_ids (Pending.docType p)) by apply _.
    split; [by apply (update_shipment_wf (Pending.docType p) _)|done].
Qed.

(** *** Slots being processed *)

Lemma status_uploaded_shipment file dt uploadDate (r : AnalysisResult.t num) s d :
  Shipment.documents (uploaded_shipment file dt uploadDate r s) !! dt = Some d →
  Document.status d = UPLOADED.
Proof. simpl. rewrite lookup_insert_eq. by intros [= <-]. Qed.

Lemma status_error_shipment dt s d :
  Shipment.documents (error_shipment dt s) !! dt = Some d →
  Document.status d = ERROR.
Proof.
  simpl. rewrite lookup_insert_eq. intros [= <-]. apply status_spread_status.
Qed.

(** The slot that a settled call writes is not [PROCESSING]. *)
Lemma settle_slot_not_processing clock file dt (outcome : Outcome num) s d :
  Shipment.documents (settled_shipment clock file dt outcome s) !! dt = Some d →
  Document.status d ≠ PROCESSING.
Proof.
  destruct outcome; [intros ->%status_uploaded_shipment|intros ->%status_error_shipment];
    done.
Qed.

Lemma processing_in_flight_step sys sys' :
  processing_in_flight sys → step sys sys' → processing_in_flight sys'.
Proof.
  unfold processing_in_flight.
  intros Hinv [f Hf -> ->|file sid dt c _ _ -> ->
    |clock outcome p fl1 fl2 Hfl -> ->]%step_step_kind s' dt' d.
  - destruct (Hf (Sys.app sys)) as (-> & _). apply Hinv.
  - rewrite shipments_begin. intros (s & Hs & ->)%elem_of_map_if Hd Hproc.
    setoid_rewrite elem_of_app. setoid_rewrite list_elem_of_singleton.
    case_bool_decide as Hid; [|by edestruct Hinv as (p & ? & ?); eauto].
    destruct (decide (dt' = dt)) as [->|Hne]; [by eexists; split; [right|]|].
    rewrite (upd_other (docType:=dt)) in Hd by done.
    edestruct Hinv as (p & ? & ?); eauto.
  - rewrite shipments_settle.
    intros (s & Hs & ->)%elem_of_map_if Hd Hproc.
    assert (∃ q, q ∈ fl1 ++ p :: fl2 ∧ Pending.shipmentId q = Shipment.id s
                 ∧ Pending.docType q = dt' ∧ q ≠ p) as (q & Hq & ? & ? & Hqp).
    { rewrite <- Hfl. case_bool_decide as Hid.
      - destruct (decide (dt' = Pending.docType p)) as [->|Hne];
          [by apply settle_slot_not_processing in Hd|].
        rewrite (upd_other (docType:=Pending.docType p)) in Hd by done.
        destruct (Hinv s dt' d) as (q & ? & ? & ?); [done..|].
        exists q. repeat split; [done..|congruence].
      - destruct (Hinv s dt' d) as (q & ? & ? & ?); [done..|].
        exists q. repeat split; [done..|congruence]. }
    exists q. split_and!; [|by case_bool_decide; rewrite ?upd_id|done].
    rewrite elem_of_app, elem_of_cons in Hq. rewrite elem_of_app.
    destruct Hq as [?|[?|?]]; [by left|done|by right].
Qed.

End steps.

Section more_invariants.
Context `{Analyzer num}.
Implicit Types (sys : Sys.t num) (st : AppState.t num).

(** *** The log and the analysed data *)

Lemma logs_match_step sys sys' : logs_match sys → step sys sys' → logs_match sys'.
Proof.
  unfold logs_match. intros [Heq Hall] [f Hf -> _|file sid dt c _ _ -> _
    |clock outcome p fl1 fl2 _ -> _]%step_step_kind.
  - destruct (Hf (Sys.app sys)) as (_ & -> & -> & _). done.
  - done.
  - rewrite uploadLogs_settle, analyzedData_settle.
    destruct outcome as [r|]; [|done].
    rewrite fmap_app, reverse_app, fmap_cons, Heq. split; [done|].
    by constructor.
Qed.

(** *** The dialog *)

Lemma modal_unbound_step sys sys' :
  modal_unbound sys → step sys sys' → modal_unbound sys'.
Proof.
  unfold modal_unbound. intros Hinv Hstep.
  destruct Hstep as [| |type| |?????? _ _ _|?? [? outcome]]; cbn [Sys.app] in *.
  - done.
  - done.
  - unfold handleDrag. by repeat case_bool_decide.
  - by destruct files.
  - done.
  - rewrite modalState_settle. by destruct outcome.
Qed.

(** *** Uploaded slots *)

(** The slot that an update of [handleFileUpload] writes is complete. *)
Lemma complete_processing_shipment dt s d :
  Shipment.documents (processing_shipment dt s) !! dt = Some d → Document.complete d.
Proof. simpl. rewrite lookup_insert_eq. intros [= <-]. by apply complete_spread_status. Qed.

Lemma complete_settled_shipment clock file dt (outcome : Outcome num) s d :
  Shipment.documents (settled_shipment clock file dt outcome s) !! dt = Some d →
  Document.complete d.
Proof.
  destruct outcome; simpl; rewrite lookup_insert_eq; intros [= <-];
    [by intros _; split_and!; eexists|by apply complete_spread_status].
Qed.

Lemma uploads_complete_step sys sys' :
  all_slots Document.complete (AppState.shipments (Sys.app sys)) → step sys sys' →
  all_slots Document.complete (AppState.shipments (Sys.app sys')).
Proof.
  intros Hinv [f Hf -> _|file sid dt c _ _ -> _
    |clock outcome p fl1 fl2 _ -> _]%step_step_kind.
  - by destruct (Hf (Sys.app sys)) as (-> & _).
  - rewrite shipments_begin.
    apply (update_shipment_all_slots dt _); [apply complete_processing_shipment|done].
  - rewrite shipments_settle.
    apply (update_shipment_all_slots (Pending.docType p) _);
      [apply complete_settled_shipment|done].
Qed.

(** *** The error message *)

Lemma error_shown_step sys sys' :
  flag_matches sys → error_shown sys → step sys sys' → error_shown sys'.
Proof.
  unfold error_shown, flag_matches. intros Hflag [Hopen Herr] Hs.
  destruct Hs as [st fl|st fl Ho Hi|type st fl _|files st fl _
    |file sid dt c st fl Ho Hi _|?? [clock outcome p st fl1 fl2 _]];
    cbn [Sys.app Sys.inFlight] in *.
  - split; [done|]. intros msg Hm. by destruct (Herr msg Hm) as (? & _ & ?).
  - split; [|done]. rewrite Hi in Hflag. by destruct fl as [|? [|]].
  - unfold handleDrag. by repeat case_bool_decide.
  - destruct files; [done|]. split; [done|].
    intros msg Hm. by destruct (Herr msg Hm) as (? & _ & ?).
  - done.
  - rewrite error_settle, modalState_settle, isAnalyzing_settle.
    destruct fl1 as [|? [|]], fl2; try done.
    split; [done|]. destruct outcome; [done|]. intros msg [= <-].
    split_and!; [done| |done]. by apply Hopen.
Qed.

(** *** Uploaded slots and the log *)

Lemma uploads_logged_step sys sys' :
  shipments_kept sys → uploads_logged sys → step sys sys' → uploads_logged sys'.
Proof.
  unfold uploads_logged. intros [Hwf Hids] Hle [f Hf -> _|file sid dt c _ _ -> _
    |clock outcome p fl1 fl2 _ -> _]%step_step_kind.
  - by destruct (Hf (Sys.app sys)) as (-> & -> & _).
  - rewrite shipments_begin.
    destruct (sum_uploaded_update_le dt (processing_shipment dt) sid
      (AppState.shipments (Sys.app sys))) as [_ Hsame];
      [by rewrite Hids; apply INITIAL_SHIPMENTS_ids_NoDup|done|].
    etrans; [apply Hsame|done]. intros s d Hd Hu.
    simpl in Hd. rewrite lookup_insert_eq in Hd. injection Hd as <-.
    by apply is_uploaded_spread_status in Hu.
  - rewrite shipments_settle, uploadLogs_settle.
    destruct (sum_uploaded_update_le (Pending.docType p)
      (settled_shipment clock (Pending.file p) (Pending.docType p) outcome)
      (Pending.shipmentId p) (AppState.shipments (Sys.app sys))) as [Hone Hsame];
      [by rewrite Hids; apply INITIAL_SHIPMENTS_ids_NoDup|done|].
    destruct outcome as [r|]; [cbn [length]; lia|].
    etrans; [apply Hsame|done]. intros s d Hd%status_error_shipment Hu.
    unfold is_uploaded in Hu. congruence.
Qed.

(** *** The invariants hold in every reachable state *)

Lemma reachable_flag_matches sys : reachable sys → flag_matches sys.
Proof. apply reachable_ind; [done|]. intros ?? _. apply flag_matches_step. Qed.

Lemma reachable_shipments_kept sys : reachable sys → shipments_kept sys.
Proof.
  apply reachable_ind; [|intros ?? _; apply shipments_kept_step].
  split; [apply INITIAL_SHIPMENTS_wf|done].
Qed.

Lemma reachable_processing sys : reachable sys → processing_in_flight sys.
Proof.
  apply reachable_ind; [|intros ?? _; apply processing_in_flight_step].
  intros s dt d Hs Hd Hp. by destruct (INITIAL_SHIPMENTS_not_processing s dt d).
Qed.

Lemma reachable_logs_match sys : reachable sys → logs_match sys.
Proof.
  apply reachable_ind; [|intros ?? _; apply logs_match_step].
  split; [done|constructor].
Qed.

Lemma reachable_modal_unbound sys : reachable sys → modal_unbound sys.
Proof. apply reachable_ind; [done|]. intros ?? _. apply modal_unbound_step. Qed.

Lemma reachable_uploads_complete sys :
  reachable sys → all_slots Document.complete (AppState.shipments (Sys.app sys)).
Proof.
  apply (reachable_ind
    (λ sys, all_slots Document.complete (AppState.shipments (Sys.app sys))));
    [|intros ?? _; apply uploads_complete_step].
  intros s dt d Hs Hd. by eapply consistent_complete, INITIAL_SHIPMENTS_consistent.
Qed.

Lemma reachable_error_shown sys : reachable sys → error_shown sys.
Proof.
  apply (reachable_ind (λ sys, error_shown sys)); [by split|].
  intros sys1 sys2 Hr. by apply error_shown_step, reachable_flag_matches.
Qed.

Lemma reachable_uploads_logged sys : reachable sys → uploads_logged sys.
Proof.
  apply reachable_ind; [by vm_compute|].
  intros ?? Hr%reachable_shipments_kept. by apply uploads_logged_step.
Qed.

Lemma reachable_ids_NoDup sys :
  reachable sys → NoDup (Shipment.id <$> AppState.shipments (Sys.app sys)).
Proof.
  intros [_ ->]%reachable_shipments_kept. apply INITIAL_SHIPMENTS_ids_NoDup.
Qed.

End more_invariants.

(** ** The log and the analysed data only grow *)

Section history.
Context `{Analyzer num}.
Implicit Types sys : Sys.t num.

(** What a state has recorded is kept by the state after it: the log as
    its older entries, the analysed data as its first records. *)
Definition history_kept sys sys' : Prop :=
  AppState.uploadLogs (Sys.app sys) `suffix_of` AppState.uploadLogs (Sys.app sys')
  ∧ AppState.analyzedData (Sys.app sys) `prefix_of` AppState.analyzedData (Sys.app sys').

#[export] Instance history_kept_preorder : PreOrder history_kept.
Proof.
  split; [by intros sys|].
  intros sys1 sys2 sys3 [? ?] [? ?]. split; by etrans.
Qed.

Lemma history_kept_step sys sys' : step sys sys' → history_kept sys sys'.
Proof.
  unfold history_kept. intros [f Hf -> _|file sid dt c _ _ -> _
    |clock outcome p fl1 fl2 _ -> _]%step_step_kind.
  - by destruct (Hf (Sys.app sys)) as (_ & -> & -> & _).
  - done.
  - rewrite uploadLogs_settle, analyzedData_settle.
    destruct outcome; [|done]. split; [by apply suffix_cons_r|by apply prefix_app_r].
Qed.

Lemma history_kept_steps sys sys' : rtc step sys sys' → history_kept sys sys'.
Proof. induction 1 as [|??? Hs%history_kept_step]; [done|by etrans]. Qed.

End history.

(** ** Settlements end

    A settlement takes one upload out of those in flight, so that their
    number is a measure that every settlement decreases by one. *)

Section settlements.
Context {num : Type} `{!Analyzer num}.
Implicit Types sys : Sys.t num.





End settlements.

(** ** A run of the component, for the witnesses

    The dialog is opened, an invoice is submitted for the second initial
    shipment, and the analysis succeeds. *)

Section demo.

(** A service of which nothing is known: any outcome is possible. *)
#[local] Instance any_outcome : Analyzer Z := λ _ _ _, True.

#[local] Instance any_outcome_settles : Settles Z.
Proof. intros ??. by exists Rejected. Qed.

Definition demo_pending : Pending.t := Pending.mk demo_file demo_id INVOICE (Some "").

Definition demo_opened : Sys.t Z :=
  Sys.mk (handleOpenModal None None None AppState.initial) [].
Definition demo_submitted : Sys.t Z :=
  Sys.mk (handleFileUpload_begin demo_id INVOICE (Sys.app demo_opened)) [demo_pending].
Definition demo_settled : Sys.t Z :=
  Sys.mk (handleFileUpload_settle demo_clock demo_file demo_id INVOICE (Some "")
            (Fulfilled demo_result) (Sys.app demo_submitted)) [].
Definition demo_failed : Sys.t Z :=
  Sys.mk (handleFileUpload_settle demo_clock demo_file demo_id INVOICE (Some "")
            Rejected (Sys.app demo_submitted)) [].

Lemma demo_submitted_reachable : reachable demo_submitted.
Proof.
  eapply reachable_step; [eapply reachable_step; [apply reachable_initial|]|].
  - apply step_open.
  - by apply (step_submit demo_file demo_id INVOICE "" _ []).
Defined.

Lemma demo_settled_reachable : reachable demo_settled.
Proof.
  eapply reachable_step; [apply demo_submitted_reachable|].
  by apply (step_settle demo_clock (Fulfilled demo_result) demo_pending _ [] []).
Defined.

Lemma demo_failed_reachable : reachable demo_failed.
Proof.
  eapply reachable_step; [apply demo_submitted_reachable|].
  by apply (step_settle demo_clock Rejected demo_pending _ [] []).
Defined.

End demo.

(** ** The properties of the component *)

#[local] Existing Instance any_outcome.
#[local] Existing Instance any_outcome_settles.

Section properties.
Context `{Analyzer num}.
Implicit Types (sys : Sys.t num) (st : AppState.t num).

(** No slot of the shipments is [PROCESSING]. *)
Definition none_processing (shipments : list Shipment.t) : Prop :=
  all_slots (λ d, Document.status d ≠ PROCESSING) shipments.

(** C2: in every state the component can reach, a slot is [PROCESSING]
    only if an upload for that slot is in flight; when no upload is in
    flight no slot is [PROCESSING], so no slot stays stuck in that status. *)
Theorem never_stuck_processing sys :
  reachable sys →
  processing_in_flight sys
  ∧ (Sys.inFlight sys = [] → none_processing (AppState.shipments (Sys.app sys))).
Proof.
  intros Hp%reachable_processing. split; [done|].
  intros Hnil s dt d Hs Hd Hst. destruct (Hp s dt d) as (p & Hin & _); [done..|].
  rewrite Hnil in Hin. by apply elem_of_nil in Hin.
Qed.

(** C3: at most one upload is in flight, and the in-progress flag is set
    exactly while one is: the flag that disables the dialog's buttons
    serialises the uploads. *)
Theorem one_upload_at_a_time sys :
  reachable sys →
  length (Sys.inFlight sys) ≤ 1
  ∧ (AppState.isAnalyzing (Sys.app sys) = true ↔ Sys.inFlight sys ≠ []).
Proof.
  intros Hf%reachable_flag_matches. unfold flag_matches in Hf.
  destruct (Sys.inFlight sys) as [|p [|q l]]; simpl; [|split; [lia|done]|done].
  rewrite Hf. split; [lia|]. split; done.
Qed.

(** C7: in every reachable state the shipments are the initial five, in
    their order, and each has exactly six slots, one per document type. *)
Theorem six_slots_always sys :
  reachable sys →
  Shipment.id <$> AppState.shipments (Sys.app sys) = Shipment.id <$> INITIAL_SHIPMENTS
  ∧ Forall (λ s, size (Shipment.documents s) = 6
                 ∧ ∀ dt, dt ∈ DOCUMENT_TYPES → is_Some (Shipment.documents s !! dt))
      (AppState.shipments (Sys.app sys)).
Proof.
  intros [Hwf Hids]%reachable_shipments_kept. split; [done|].
  eapply Forall_impl; [done|]. intros s Hs. split; [by apply wf_size|].
  intros dt _. apply Hs.
Qed.

(** C32: the activity log and the analysed data record the same uploads:
    read from its oldest entry, the log names the shipments and amounts of
    the analysed data in order; every entry of the log is a success. *)
Theorem log_matches_data sys :
  reachable sys →
  logs_match sys
  ∧ length (AppState.uploadLogs (Sys.app sys))
    = length (AppState.analyzedData (Sys.app sys)).
Proof.
  intros [Heq Hall]%reachable_logs_match. split; [done|].
  apply (f_equal length) in Heq. by rewrite length_reverse, !length_fmap in Heq.
Qed.

(** An upload in flight can always settle, provided the service
    answers, and when it does no upload is in flight, the flag is cleared
    and no slot is left [PROCESSING]. *)
Theorem settle_progress `{!Settles num} sys p :
  reachable sys → Sys.inFlight sys = [p] →
  ∃ sys', step sys sys'
    ∧ Sys.inFlight sys' = []
    ∧ AppState.isAnalyzing (Sys.app sys') = false
    ∧ none_processing (AppState.shipments (Sys.app sys')).
Proof.
  intros Hr Hp. destruct sys as [st fl]; simpl in *; subst fl.
  destruct (settles (fileContent (Pending.file p) (Pending.shipmentId p)
    (Pending.docType p)) (Pending.docType p)) as [outcome Ho].
  pose proof (step_settle (Clock.mk "" 0 "") outcome p st [] [] Ho) as Hstep.
  eexists; split; [exact Hstep|]. split; [done|]. split; [apply isAnalyzing_settle|].
  apply (reachable_step _ _ Hr), reachable_processing in Hstep.
  intros s dt d Hs Hd Hst. destruct (Hstep s dt d) as (q & Hin & _); [done..|].
  by apply elem_of_nil in Hin.
Qed.

(** C33: in every reachable state a slot that is [UPLOADED] holds the
    document of an upload: its name, date, uploader and link are present.
    The converse half of the data model's invariant is not kept: a slot
    that is not [UPLOADED] may hold the properties of an earlier upload. *)
Theorem uploaded_slots_complete sys s dt d :
  reachable sys → s ∈ AppState.shipments (Sys.app sys) →
  Shipment.documents s !! dt = Some d → Document.status d = UPLOADED →
  is_Some (Document.name d) ∧ is_Some (Document.uploadDate d)
  ∧ is_Some (Document.uploader d) ∧ is_Some (Document.driveLink d).
Proof. intros Hr Hs Hd. by eapply reachable_uploads_complete. Qed.

(** C18: a failure is always shown: the dialog stays open while an
    analysis runs, and whenever the message of a failure is set the dialog
    that shows it is open and no analysis runs; the message is the one
    text of the [catch] block, and no message is left behind a closed
    dialog. *)
Theorem error_always_shown sys :
  reachable sys →
  (AppState.isAnalyzing (Sys.app sys) = true →
   ModalState.isOpen (AppState.modalState (Sys.app sys)) = true)
  ∧ (ModalState.isOpen (AppState.modalState (Sys.app sys)) = false →
     AppState.error (Sys.app sys) = None)
  ∧ ∀ msg, AppState.error (Sys.app sys) = Some msg →
      msg = analysisFailed ∧ AppState.isAnalyzing (Sys.app sys) = false.
Proof.
  intros Hr. destruct (reachable_error_shown _ Hr) as [Hopen Herr].
  apply reachable_flag_matches in Hr. unfold flag_matches in Hr. split_and!.
  - intros Ha. apply Hopen. destruct (Sys.inFlight sys); [congruence|done].
  - intros Hc. destruct (AppState.error (Sys.app sys)) as [msg|] eqn:Hm; [|done].
    destruct (Herr msg eq_refl) as (_ & ? & _). congruence.
  - intros msg Hm. by destruct (Herr msg Hm) as (? & _ & ?).
Qed.


(** The dialog is never opened for a given shipment or document
    type: both properties of the modal state stay undefined. *)
Theorem modal_never_bound sys :
  reachable sys →
  ModalState.shipmentId (AppState.modalState (Sys.app sys)) = None
  ∧ ModalState.docType (AppState.modalState (Sys.app sys)) = None.
Proof. apply reachable_modal_unbound. Qed.

End properties.

Lemma never_stuck_processing_witness :
  processing_in_flight demo_settled
  ∧ (Sys.inFlight demo_settled = []
     → none_processing (AppState.shipments (Sys.app demo_settled))).
Proof. exact (never_stuck_processing demo_settled demo_settled_reachable). Defined.

Lemma one_upload_at_a_time_witness :
  length (Sys.inFlight demo_submitted) ≤ 1
  ∧ (AppState.isAnalyzing (Sys.app demo_submitted) = true
     ↔ Sys.inFlight demo_submitted ≠ []).
Proof. exact (one_upload_at_a_time demo_submitted demo_submitted_reachable). Defined.

Lemma six_slots_always_witness :
  Shipment.id <$> AppState.shipments (Sys.app demo_settled)
  = Shipment.id <$> INITIAL_SHIPMENTS
  ∧ Forall (λ s, size (Shipment.documents s) = 6
                 ∧ ∀ dt, dt ∈ DOCUMENT_TYPES → is_Some (Shipment.documents s !! dt))
      (AppState.shipments (Sys.app demo_settled)).
Proof. exact (six_slots_always demo_settled demo_settled_reachable). Defined.

Lemma log_matches_data_witness :
  logs_match demo_settled
  ∧ length (AppState.uploadLogs (Sys.app demo_settled))
    = length (AppState.analyzedData (Sys.app demo_settled)).
Proof. exact (log_matches_data demo_settled demo_settled_reachable). Defined.

Lemma settle_progress_witness :
  ∃ sys', step demo_submitted sys'
    ∧ Sys.inFlight sys' = []
    ∧ AppState.isAnalyzing (Sys.app sys') = false
    ∧ none_processing (AppState.shipments (Sys.app sys')).
Proof.
  exact (settle_progress demo_submitted demo_pending demo_submitted_reachable eq_refl).
Defined.


Lemma modal_never_bound_witness :
  ModalState.shipmentId (AppState.modalState (Sys.app demo_settled)) = None
  ∧ ModalState.docType (AppState.modalState (Sys.app demo_settled)) = None.
Proof. exact (modal_never_bound demo_settled demo_settled_reachable). Defined.

Lemma error_always_shown_witness :
  (AppState.isAnalyzing (Sys.app demo_failed) = true →
   ModalState.isOpen (AppState.modalState (Sys.app demo_failed)) = true)
  ∧ (ModalState.isOpen (AppState.modalState (Sys.app demo_failed)) = false →
     AppState.error (Sys.app demo_failed) = None)
  ∧ ∀ msg, AppState.error (Sys.app demo_failed) = Some msg →
      msg = analysisFailed ∧ AppState.isAnalyzing (Sys.app demo_failed) = false.
Proof. exact (error_always_shown demo_failed demo_failed_reachable). Defined.

(** The shipment and the slot of the run's upload, after it has settled. *)
Definition demo_settled_shipment : Shipment.t :=
  default demo_shipment (AppState.shipments (Sys.app demo_settled) !! 1%nat).
Definition demo_settled_slot : Document.t :=
  default (Document.of_status MISSING)
          (Shipment.documents demo_settled_shipment !! INVOICE).

Lemma uploaded_slots_complete_witness :
  is_Some (Document.name demo_settled_slot)
  ∧ is_Some (Document.uploadDate demo_settled_slot)
  ∧ is_Some (Document.uploader demo_settled_slot)
  ∧ is_Some (Document.driveLink demo_settled_slot).
Proof.
  apply (uploaded_slots_complete demo_settled demo_settled_shipment INVOICE
           demo_settled_slot demo_settled_reachable);
    [by apply (list_elem_of_lookup_2 _ 1)|reflexivity|reflexivity].
Defined.
