(* ===== verification/Lifecycle.v ===== *)
(** * Lifecycle: the contract of the upload workflow, and that [App] keeps it

    [Spec] is the workflow as its documentation describes it: a board that
    gives each slot a status, at most one slot busy, and three transitions,
    submit, succeed and fail.  It knows nothing of files, dialogs, log
    entries or links.

    [abs] reads a state of the component as a state of [Spec]: the board is
    the status of every slot of every shipment, the busy slot is the slot
    of the upload in flight, and the successes are counted by the log.
    [step_simulation] shows that every step of the component is a transition
    of [Spec] or leaves the abstract state as it is; what is proved of
    [Spec] by induction on its three rules then holds of the component. *)

From stdpp Require Import base tactics option list strings gmap finite.
From S2P Require Import Prelude Types Constants Shipments App Machine.

(** A slot, by shipment id and document type. *)
Definition Slot : Type := string * DocumentType.

(** ** The contract *)

Module Spec.

Record t := mk {
  board : gmap Slot DocumentStatus;
  busy : option Slot;
  successes : nat;
}.

Definition initial (b : gmap Slot DocumentStatus) : t := mk b None 0.

(** Set the status of a slot that exists; nothing for one that does not. *)
Definition write (slot : Slot) (st : DocumentStatus)
    (b : gmap Slot DocumentStatus) : gmap Slot DocumentStatus :=
  alter (λ _, st) slot b.

Inductive next : t → t → Prop :=
  | submit σ slot :
      busy σ = None →
      next σ (mk (write slot PROCESSING (board σ)) (Some slot) (successes σ))
  | succeed σ slot :
      busy σ = Some slot →
      next σ (mk (write slot UPLOADED (board σ)) None (S (successes σ)))
  | fail σ slot :
      busy σ = Some slot →
      next σ (mk (write slot ERROR (board σ)) None (successes σ)).

(** The edges of the lifecycle of one slot: any status to [PROCESSING],
    and [PROCESSING] to [UPLOADED] or [ERROR]. *)
Definition edge (a b : DocumentStatus) : Prop :=
  b = PROCESSING ∨ (a = PROCESSING ∧ (b = UPLOADED ∨ b = ERROR)).

#[export] Instance edge_dec a b : Decision (edge a b).
Proof. unfold edge. apply _. Defined.

(** A slot is [PROCESSING] exactly when it is the busy one. *)
Definition coherent (σ : t) : Prop :=
  ∀ slot st, board σ !! slot = Some st → st = PROCESSING ↔ busy σ = Some slot.

(** No slot is [DUPLICATE]. *)
Definition no_duplicate (σ : t) : Prop :=
  map_Forall (λ _ st, st ≠ DUPLICATE) (board σ).

(** The slot has left the status [MISSING]: an upload for it was submitted
    or it was uploaded from the start. *)
Definition left_missing (slot : Slot) (σ : t) : Prop :=
  ∀ st, board σ !! slot = Some st → st ≠ MISSING.

End Spec.

(** ** Facts about the contract *)

Section spec.
Implicit Types (σ : Spec.t) (slot : Slot) (st : DocumentStatus)
  (b : gmap Slot DocumentStatus).

Lemma lookup_write b slot slot' st :
  Spec.write slot st b !! slot'
  = if decide (slot' = slot) then (λ _, st) <$> b !! slot else b !! slot'.
Proof.
  unfold Spec.write. case_decide as Heq; [subst; apply lookup_alter_eq|].
  by apply lookup_alter_ne.
Qed.

Lemma lookup_write_Some b slot slot' st st' :
  Spec.write slot st b !! slot' = Some st' ↔
  (slot' = slot ∧ st' = st ∧ is_Some (b !! slot))
  ∨ (slot' ≠ slot ∧ b !! slot' = Some st').
Proof.
  rewrite lookup_write. case_decide as Heq; [subst|naive_solver].
  rewrite fmap_Some. unfold is_Some. naive_solver.
Qed.

Lemma dom_write b slot st : dom (Spec.write slot st b) = dom b.
Proof. apply dom_alter_L. Qed.

(** The transitions create and remove no slot. *)
Lemma next_dom σ σ' : Spec.next σ σ' → dom (Spec.board σ') = dom (Spec.board σ).
Proof. destruct 1; apply dom_write. Qed.

Lemma coherent_next σ σ' : Spec.coherent σ → Spec.next σ σ' → Spec.coherent σ'.
Proof.
  intros Hc Hn slot' st.
  destruct Hn as [σ slot Hb|σ slot Hb|σ slot Hb]; simpl;
    rewrite lookup_write_Some; intros [(-> & -> & _)|(Hne & Hs)];
    try (split; [done|congruence]); specialize (Hc _ _ Hs); rewrite Hb in Hc;
    naive_solver.
Qed.

Lemma no_duplicate_next σ σ' :
  Spec.no_duplicate σ → Spec.next σ σ' → Spec.no_duplicate σ'.
Proof.
  intros Hn Hs slot st. destruct Hs; simpl; rewrite lookup_write_Some;
    intros [(_ & -> & _)|(_ & Hs)]; (done || by apply (Hn _ _ Hs)).
Qed.

(** No transition puts a slot back to [MISSING]. *)
Lemma left_missing_next slot σ σ' :
  Spec.left_missing slot σ → Spec.next σ σ' → Spec.left_missing slot σ'.
Proof.
  intros Hl Hn st. destruct Hn; simpl; rewrite lookup_write_Some;
    intros [(_ & -> & _)|(_ & Hs)]; (done || by apply (Hl _ Hs)).
Qed.

(** A transition moves the status of a slot along an edge, or not at all. *)
Lemma next_edge σ σ' slot st1 st2 :
  Spec.coherent σ → Spec.next σ σ' →
  Spec.board σ !! slot = Some st1 → Spec.board σ' !! slot = Some st2 →
  st1 = st2 ∨ Spec.edge st1 st2.
Proof.
  intros Hc Hn Ha. specialize (Hc _ _ Ha). unfold Spec.edge.
  destruct Hn as [σ slot0 Hb|σ slot0 Hb|σ slot0 Hb]; simpl;
    rewrite lookup_write_Some; intros [(-> & -> & _)|(Hne & Hs)];
    try (left; congruence); right; [by left|right..]; (split; [by apply Hc|auto]).
Qed.

(** What holds of the initial state and is kept by the transitions holds
    after any number of them. *)
Lemma rtc_next_ind (P : Spec.t → Prop) σ σ' :
  (∀ σ1 σ2, P σ1 → Spec.next σ1 σ2 → P σ2) → P σ → rtc Spec.next σ σ' → P σ'.
Proof. intros Hstep Hinit Hrtc. induction Hrtc; eauto. Qed.

End spec.

(** ** Reading the component as a state of the contract *)

Section abs.
Context {num : Type}.
Implicit Types (sys : Sys.t num) (shipments prev : list Shipment.t)
  (sid : string) (dt : DocumentType).

(** Every pair of a listed id and a document type. *)
Definition slots shipments : list Slot :=
  s ← shipments; (λ dt, (Shipment.id s, dt)) <$> DOCUMENT_TYPES.

Definition board shipments : gmap Slot DocumentStatus :=
  tabulate (λ slot, status_at shipments slot.1 slot.2) (slots shipments).

Definition slot_of (p : Pending.t) : Slot :=
  (Pending.shipmentId p, Pending.docType p).

Definition abs sys : Spec.t :=
  Spec.mk (board (AppState.shipments (Sys.app sys)))
          (slot_of <$> head (Sys.inFlight sys))
          (length (AppState.uploadLogs (Sys.app sys))).

Lemma elem_of_slots shipments sid dt :
  (sid, dt) ∈ slots shipments ↔ sid ∈ Shipment.id <$> shipments.
Proof.
  unfold slots. rewrite list_elem_of_bind, list_elem_of_fmap. split.
  - intros (s & (dt' & [= -> ->] & _)%list_elem_of_fmap & Hs). eauto.
  - intros (s & -> & Hs). exists s. split; [|done].
    apply list_elem_of_fmap. eauto using DOCUMENT_TYPES_complete.
Qed.

(** The board is the statuses of the slots, and nothing else. *)
Lemma lookup_board shipments sid dt :
  board shipments !! (sid, dt) = status_at shipments sid dt.
Proof.
  unfold board. rewrite lookup_tabulate_total; [done|].
  intros [sid' dt']; simpl. rewrite elem_of_slots. unfold status_at.
  rewrite fmap_is_Some. intros [d Hd]. apply find_shipment_is_Some.
  apply bind_Some in Hd as (s & -> & _). eauto.
Qed.

End abs.

(** ** What an update writes, as a status *)

(** An update of the slot [docType] that leaves it with the status [st]. *)
Class StatusWrite (docType : DocumentType) (st : DocumentStatus)
    (f : Shipment.t → Shipment.t) : Prop := {
  #[global] write_update :: SlotUpdate docType f;
  write_status s d : Shipment.documents (f s) !! docType = Some d → Document.status d = st;
}.

#[export] Instance processing_shipment_write dt :
  StatusWrite dt PROCESSING (processing_shipment dt).
Proof.
  split; [apply _|]. intros s d. simpl. rewrite lookup_insert_eq.
  intros [= <-]. apply status_spread_status.
Qed.

#[export] Instance settled_shipment_write {num} clock file dt (outcome : Outcome num) :
  StatusWrite dt (terminal_status outcome) (settled_shipment clock file dt outcome).
Proof.
  split; [apply _|]. intros s d.
  destruct outcome; [apply status_uploaded_shipment|apply status_error_shipment].
Qed.

Section writes.
Context (dt : DocumentType) (st : DocumentStatus) (f : Shipment.t → Shipment.t)
  `{!StatusWrite dt st f}.
Implicit Types (prev : list Shipment.t) (sid : string).

Lemma status_at_write sid prev :
  Forall Shipment.wf prev →
  status_at (update_shipment sid f prev) sid dt = (λ _, st) <$> status_at prev sid dt.
Proof.
  intros Hwf. unfold status_at. rewrite (slot_at_update_target dt) by apply _.
  unfold slot_at. destruct (find_shipment prev sid) as [s|] eqn:Hs; [simpl|done].
  apply find_shipment_Some in Hs as [Hs _]. rewrite Forall_forall in Hwf.
  destruct (Hwf s Hs dt) as [d0 ->], (upd_target (f:=f) s) as [d Hd].
  rewrite Hd. simpl. by rewrite (write_status s d).
Qed.

(** On the board, the update of a shipment is the write of one status. *)
Lemma board_update sid prev :
  Forall Shipment.wf prev →
  board (update_shipment sid f prev) = Spec.write (sid, dt) st (board prev).
Proof.
  intros Hwf. apply map_eq. intros [sid' dt'].
  rewrite lookup_write, !lookup_board. case_decide as Heq.
  - injection Heq as -> ->. by apply status_at_write.
  - unfold status_at. by rewrite (slot_at_update_frame dt) by (done || apply _).
Qed.

End writes.

(** ** The component refines the contract *)

Section refinement.
Context `{Analyzer num}.
Implicit Types (sys : Sys.t num) (sid : string) (dt : DocumentType).

Lemma abs_initial : abs (num:=num) Sys.initial = Spec.initial (board INITIAL_SHIPMENTS).
Proof. reflexivity. Qed.

(** A step of the dialog, the message or the drag flag is no transition. *)
Lemma abs_ui f sys sys' :
  ui_only f → Sys.app sys' = f (Sys.app sys) →
  Sys.inFlight sys' = Sys.inFlight sys → abs sys' = abs sys.
Proof.
  intros Hui Happ Hfl. unfold abs. rewrite Happ, Hfl.
  by destruct (Hui (Sys.app sys)) as (-> & -> & _).
Qed.

Lemma idle_no_flight sys :
  flag_matches sys → AppState.isAnalyzing (Sys.app sys) = false →
  Sys.inFlight sys = [].
Proof.
  unfold flag_matches. destruct (Sys.inFlight sys) as [|? [|??]]; [done|congruence|done].
Qed.

Lemma sole_in_flight sys fl1 p fl2 :
  flag_matches sys → Sys.inFlight sys = fl1 ++ p :: fl2 → fl1 = [] ∧ fl2 = [].
Proof.
  unfold flag_matches. intros Hf Hfl. rewrite Hfl in Hf.
  by destruct fl1 as [|? [|??]], fl2.
Qed.

(** The part of an upload before the [await] is the transition [submit]. *)
Lemma abs_submit sys sys' sid dt p :
  Forall Shipment.wf (AppState.shipments (Sys.app sys)) →
  Sys.inFlight sys = [] →
  Sys.app sys' = handleFileUpload_begin sid dt (Sys.app sys) →
  Sys.inFlight sys' = Sys.inFlight sys ++ [p] → slot_of p = (sid, dt) →
  Spec.next (abs sys) (abs sys').
Proof.
  intros Hwf Hidle Happ Hfl Hp.
  replace (abs sys') with (Spec.mk
    (Spec.write (sid, dt) PROCESSING (Spec.board (abs sys))) (Some (sid, dt))
    (Spec.successes (abs sys))).
  { apply Spec.submit. unfold abs; simpl. by rewrite Hidle. }
  unfold abs. rewrite Happ, Hfl, Hidle, shipments_begin; simpl.
  rewrite (board_update dt PROCESSING) by (done || apply _). by rewrite Hp.
Qed.

(** The part after it is [succeed] or [fail], by the outcome. *)
Lemma abs_settle sys sys' clock outcome p :
  Forall Shipment.wf (AppState.shipments (Sys.app sys)) →
  Sys.inFlight sys = [p] →
  Sys.app sys' = handleFileUpload_settle clock (Pending.file p)
    (Pending.shipmentId p) (Pending.docType p) (Pending.comments p) outcome
    (Sys.app sys) →
  Sys.inFlight sys' = [] →
  Spec.next (abs sys) (abs sys').
Proof.
  intros Hwf Hfl Happ Hfl'.
  replace (abs sys') with (Spec.mk
    (Spec.write (slot_of p) (terminal_status outcome) (Spec.board (abs sys))) None
    (match outcome with Fulfilled _ => S (Spec.successes (abs sys))
                      | Rejected => Spec.successes (abs sys) end)).
  { assert (Spec.busy (abs sys) = Some (slot_of p)) by (by unfold abs; rewrite Hfl).
    destruct outcome; by constructor. }
  unfold abs. rewrite Happ, Hfl', shipments_settle, uploadLogs_settle; simpl.
  rewrite (board_update (Pending.docType p) (terminal_status outcome))
    by (done || apply _).
  by destruct outcome.
Qed.

End refinement.

(** ** The theorems *)

Section theorems.
Context `{Analyzer num}.
Implicit Types (sys : Sys.t num) (sid : string) (dt : DocumentType).

(** A property of every slot is a property of every status of the board. *)
Lemma board_all_slots (P : DocumentStatus → Prop) shipments :
  all_slots (λ d, P (Document.status d)) shipments →
  map_Forall (λ _, P) (board shipments).
Proof.
  intros Hall [sid dt] st. rewrite lookup_board. unfold status_at.
  intros (d & Hd & ->)%fmap_Some. apply slot_at_elem_of in Hd as (s & Hs & _ & Hd).
  by apply (Hall s dt d).
Qed.

Lemma initial_coherent : Spec.coherent (Spec.initial (board INITIAL_SHIPMENTS)).
Proof.
  intros slot st Hs. split; [|discriminate]. intros ->.
  by apply (board_all_slots (λ st, st ≠ PROCESSING) _
              INITIAL_SHIPMENTS_not_processing) in Hs.
Qed.

Lemma initial_no_duplicate : Spec.no_duplicate (Spec.initial (board INITIAL_SHIPMENTS)).
Proof.
  apply (board_all_slots (λ st, st ≠ DUPLICATE)), INITIAL_SHIPMENTS_not_duplicate.
Qed.

(** One step of the component is one transition of the contract, or none. *)
Lemma step_simulation sys sys' :
  reachable sys → step sys sys' →
  abs sys' = abs sys ∨ Spec.next (abs sys) (abs sys').
Proof.
  intros Hr Hs. pose proof (reachable_flag_matches _ Hr) as Hf.
  destruct (reachable_shipments_kept _ Hr) as [Hwf _].
  destruct (step_step_kind _ _ Hs) as [f Hui Happ Hfl
    |file sid dt comments Hidle _ Happ Hfl|clock outcome p fl1 fl2 Hfl Happ Hfl'].
  - left. by eapply abs_ui.
  - right. apply (idle_no_flight _ Hf) in Hidle. by eapply abs_submit.
  - right. destruct (sole_in_flight _ _ _ _ Hf Hfl) as [-> ->].
    by eapply abs_settle.
Qed.

(** A run of the component is a run of the contract. *)
Lemma reachable_refines sys :
  reachable sys → rtc Spec.next (Spec.initial (board INITIAL_SHIPMENTS)) (abs sys).
Proof.
  apply (reachable_ind (λ sys, rtc Spec.next _ (abs sys))); [apply rtc_refl|].
  intros sys1 sys2 Hr IH Hs. destruct (step_simulation sys1 sys2 Hr Hs) as [->|Hn]; [done|].
  by eapply rtc_r.
Qed.

(** What the contract keeps, the component keeps. *)
Lemma refinement_invariant (P : Spec.t → Prop) sys :
  P (Spec.initial (board INITIAL_SHIPMENTS)) →
  (∀ σ1 σ2, P σ1 → Spec.next σ1 σ2 → P σ2) →
  reachable sys → P (abs sys).
Proof. intros Hinit Hstep Hr. eapply rtc_next_ind; eauto using reachable_refines. Qed.

Lemma reachable_coherent sys : reachable sys → Spec.coherent (abs sys).
Proof. apply refinement_invariant; [apply initial_coherent|apply coherent_next]. Qed.

(** C4: the component refines the contract of the workflow: every run
    of the component, read through [abs], is a run of the contract from the
    initial board, and every further step is one of the transitions submit,
    succeed and fail, or changes nothing the contract speaks of. *)
Theorem app_refines_lifecycle sys :
  reachable sys →
  rtc Spec.next (Spec.initial (board INITIAL_SHIPMENTS)) (abs sys)
  ∧ ∀ sys', step sys sys' → abs sys' = abs sys ∨ Spec.next (abs sys) (abs sys').
Proof. intros Hr. split; [by apply reachable_refines|]. intros sys'. by apply step_simulation. Qed.

(** C11: a step of the component changes the status of a slot only along
    an edge of the lifecycle: to [PROCESSING] from any status, and from
    [PROCESSING] to [UPLOADED] or [ERROR]. *)
Theorem lifecycle_edges sys sys' sid dt st1 st2 :
  reachable sys → step sys sys' →
  status_at (AppState.shipments (Sys.app sys)) sid dt = Some st1 →
  status_at (AppState.shipments (Sys.app sys')) sid dt = Some st2 →
  st1 = st2 ∨ Spec.edge st1 st2.
Proof.
  intros Hr Hs. rewrite <- !lookup_board. intros H1 H2.
  destruct (step_simulation _ _ Hr Hs) as [Heq|Hn].
  - left. change (Spec.board (abs sys') !! (sid, dt) = Some st2) in H2.
    rewrite Heq in H2. simpl in H2. congruence.
  - by eapply (next_edge _ _ (sid, dt)); [apply reachable_coherent|..].
Qed.

(** No step of the workflow produces the status [DUPLICATE]: no
    slot of a reachable state has it. *)
Theorem duplicate_never_produced sys sid dt :
  reachable sys →
  Spec.no_duplicate (abs sys)
  ∧ status_at (AppState.shipments (Sys.app sys)) sid dt ≠ Some DUPLICATE.
Proof.
  intros Hr.
  pose proof (refinement_invariant Spec.no_duplicate sys initial_no_duplicate
                no_duplicate_next Hr) as Hnd.
  split; [done|]. intros Hs. rewrite <- lookup_board in Hs. by apply Hnd in Hs.
Qed.

(** In a reachable state a slot is [PROCESSING] exactly when it is
    the slot of the upload in flight. *)
Theorem processing_iff_in_flight sys sid dt :
  reachable sys →
  sid ∈ Shipment.id <$> AppState.shipments (Sys.app sys) →
  status_at (AppState.shipments (Sys.app sys)) sid dt = Some PROCESSING
  ↔ slot_of <$> head (Sys.inFlight sys) = Some (sid, dt).
Proof.
  intros Hr Hin. destruct (reachable_shipments_kept _ Hr) as [Hwf _].
  apply find_shipment_is_Some in Hin as [s Hs].
  assert (is_Some (status_at (AppState.shipments (Sys.app sys)) sid dt)) as [st Hst].
  { unfold status_at, slot_at. rewrite Hs. simpl. apply fmap_is_Some.
    apply find_shipment_Some in Hs as [Hs _]. rewrite Forall_forall in Hwf.
    by apply Hwf. }
  rewrite Hst. pose proof (reachable_coherent _ Hr (sid, dt) st) as Hc.
  unfold abs in Hc. cbn [Spec.board Spec.busy] in Hc.
  rewrite lookup_board in Hc. rewrite <- (Hc Hst). split; congruence.
Qed.

End theorems.

(** ** The theorems at the run of the file Machine *)

#[local] Existing Instance any_outcome.

Lemma app_refines_lifecycle_witness :
  rtc Spec.next (Spec.initial (board INITIAL_SHIPMENTS)) (abs demo_settled)
  ∧ ∀ sys', step demo_settled sys' →
      abs sys' = abs demo_settled ∨ Spec.next (abs demo_settled) (abs sys').
Proof. exact (app_refines_lifecycle demo_settled demo_settled_reachable). Defined.

Lemma demo_settle_step : step demo_submitted demo_settled.
Proof. by apply (step_settle demo_clock (Fulfilled demo_result) demo_pending _ [] []). Defined.

Lemma lifecycle_edges_witness : PROCESSING = UPLOADED ∨ Spec.edge PROCESSING UPLOADED.
Proof.
  exact (lifecycle_edges demo_submitted demo_settled demo_id INVOICE PROCESSING UPLOADED
           demo_submitted_reachable demo_settle_step eq_refl eq_refl).
Defined.

Lemma duplicate_never_produced_witness :
  Spec.no_duplicate (abs demo_settled)
  ∧ status_at (AppState.shipments (Sys.app demo_settled)) demo_id INVOICE
    ≠ Some DUPLICATE.
Proof. exact (duplicate_never_produced demo_settled demo_id INVOICE demo_settled_reachable). Defined.

Lemma processing_iff_in_flight_witness :
  status_at (AppState.shipments (Sys.app demo_submitted)) demo_id INVOICE
  = Some PROCESSING
  ↔ slot_of <$> head (Sys.inFlight demo_submitted) = Some (demo_id, INVOICE).
Proof.
  exact (processing_iff_in_flight demo_submitted demo_id INVOICE
           demo_submitted_reachable demo_id_listed).
Defined.
