(* ===== verification/FileUploadModal.v ===== *)
(** * FileUploadModal: the dialog ([src/components/FileUploadModal.tsx])

    - [Props.t] is what the parent passes; [Modal.t] has one field per
      [useState] of the component.
    - [Modal.mount] is the state the component is mounted with,
      [Modal.effect] the body of its [useEffect], and [Modal.rerender] runs
      the effect when one of its dependencies has changed.
    - The handlers are functions on [Modal.t].  A handler that calls a
      callback of the parent returns the call: [Modal.handleSubmit] returns
      the arguments of [onFileUpload] when it calls it.
    - What the render decides is a function of the props and the state: the
      [disabled] attributes, the options of the two [select]s and the label
      with the size of the file.  [Modal.render] is the [return] of the
      component as a record of what it shows, and [view_admits] says which
      events the controls of that record take.
    - [Modal.render_cycle] is the sequence of renders that the effect
      causes: a render whose dependencies have changed runs the effect, and
      a state that the effect has changed is rendered again.  Its fuel
      counts the renders; two are enough. *)

From stdpp Require Import base tactics option list strings gmap pretty.
From S2P Require Import Prelude Types Constants.

(** ** The props *)

Module Props.

Record t := mk {
  isOpen : bool;
  shipmentId : option string;
  docType : option DocumentType;
  initialFile : option File.t;
  isAnalyzing : bool;
  error : option string;
  shipments : list Shipment.t;
}.

(** The dependencies of the effect: [isOpen, initialFile, initialShipmentId,
    initialDocType]. *)
Definition deps (props : t)
  : bool * option File.t * option string * option DocumentType :=
  (isOpen props, initialFile props, shipmentId props, docType props).

End Props.

(** ** The state and the handlers *)

Module Modal.

Record t := mk {
  dragActive : bool;
  file : option File.t;
  selectedShipment : string;
  selectedDocType : string;
  comments : string;
}.

#[export] Instance eq_dec : EqDecision t.
Proof. solve_decision. Defined.

Definition setDragActive (v : bool) (m : t) : t :=
  mk v (file m) (selectedShipment m) (selectedDocType m) (comments m).

Definition setFile (v : option File.t) (m : t) : t :=
  mk (dragActive m) v (selectedShipment m) (selectedDocType m) (comments m).

Definition setSelectedShipment (v : string) (m : t) : t :=
  mk (dragActive m) (file m) v (selectedDocType m) (comments m).

Definition setSelectedDocType (v : string) (m : t) : t :=
  mk (dragActive m) (file m) (selectedShipment m) v (comments m).

Definition setComments (v : string) (m : t) : t :=
  mk (dragActive m) (file m) (selectedShipment m) (selectedDocType m) v.

(** [initialDocType || ''], a string. *)
Definition docType_or_empty (docType : option DocumentType) : string :=
  js_or (DocumentType_value <$> docType) "".

(** The initial values of the five [useState]s. *)
Definition mount (props : Props.t) : t :=
  mk false
     (js_or_null (Props.initialFile props))
     (js_or (Props.shipmentId props) "")
     (docType_or_empty (Props.docType props))
     "".

(** The body of the [useEffect]. *)
Definition effect (props : Props.t) : t → t :=
  setFile (js_or_null (Props.initialFile props)) >>>
  setSelectedShipment (js_or (Props.shipmentId props) "") >>>
  setSelectedDocType (docType_or_empty (Props.docType props)) >>>
  setComments "".

(** A render with new props: the effect runs when a dependency is not the
    one of the render before.  Two [File] objects are the same dependency
    only if they are the same object; [fresh] says that the file of the new
    props was created by the event that caused the render. *)
Definition rerender (fresh : bool) (old new : Props.t) : t → t :=
  if fresh || bool_decide (Props.deps old ≠ Props.deps new) then effect new else skip.

(** The loop that [rerender] is one round of.  React renders the component,
    runs the effect when the dependency array is not the one of the render
    before, and renders again when the effect has set a state to a new
    value.  [last] is the array of the render before, [None] at the mount
    and for a file object that did not exist before; the fuel counts the
    renders. *)
Fixpoint render_cycle (fuel : nat)
    (last : option (bool * option File.t * option string * option DocumentType))
    (props : Props.t) (m : t) : option t :=
  match fuel with
  | 0 => None
  | S fuel =>
      if decide (last = Some (Props.deps props)) then Some m
      else
        let m' := effect props m in
        if decide (m' = m) then Some m'
        else render_cycle fuel (Some (Props.deps props)) props m'
  end.

(** [handleDrag], by the type of the event. *)
Definition handleDrag (type : string) : t → t :=
  if bool_decide (type = "dragenter" ∨ type = "dragover") then setDragActive true
  else if bool_decide (type = "dragleave") then setDragActive false
  else skip.

(** [handleDrop], by the files of the event. *)
Definition handleDrop (files : list File.t) : t → t :=
  setDragActive false >>>
  match files with
  | file :: _ => setFile (Some file)
  | [] => skip
  end.

(** [handleChange], by the files of the input. *)
Definition handleChange (files : list File.t) : t → t :=
  match files with
  | file :: _ => setFile (Some file)
  | [] => skip
  end.

(** The arguments of a call of [onFileUpload]. *)
Record Upload := mkUpload {
  upload_file : File.t;
  upload_shipmentId : string;
  upload_docType : DocumentType;
  upload_comments : string;
}.

(** [handleSubmit]: the call of [onFileUpload] it makes, if it makes one.
    The document type is the string of the state, cast; a string that is
    no document type has no reading as one, and the [select] never holds
    such a string ([valid] below). *)
Definition handleSubmit (m : t) : option Upload :=
  match file m with
  | Some f =>
      if truthy (selectedShipment m) && truthy (selectedDocType m) then
        docType ← DocumentType_of_value (selectedDocType m);
        Some (mkUpload f (selectedShipment m) docType (comments m))
      else None
  | None => None
  end.

(** [handleCancel], as far as it changes the dialog; it then calls
    [onClose]. *)
Definition handleCancel : t → t := setFile None.

(** The button beside the name of the file: [() => setFile(null)]. *)
Definition clearFile : t → t := setFile None.

(** ** What the render decides *)

(** [if (!isOpen) return null] *)
Definition rendered (props : Props.t) : bool := Props.isOpen props.

(** [disabled] of the submit button. *)
Definition submit_disabled (props : Props.t) (m : t) : bool :=
  negb (truthy (file m)) || negb (truthy (selectedShipment m))
  || negb (truthy (selectedDocType m)) || Props.isAnalyzing props.

(** [disabled] of the Cancel button. *)
Definition cancel_disabled (props : Props.t) : bool := Props.isAnalyzing props.

(** [disabled={!!initialShipmentId}] and [disabled={!!initialDocType}]. *)
Definition shipment_disabled (props : Props.t) : bool := truthy (Props.shipmentId props).

Definition docType_disabled (props : Props.t) : bool :=
  truthy (DocumentType_value <$> Props.docType props).

(** [{isAnalyzing && ...}]: the notice of a running analysis. *)
Definition analyzing_banner (props : Props.t) : bool := Props.isAnalyzing props.

(** [{error && ...}]: the message that is shown, if any. *)
Definition error_banner (props : Props.t) : option string :=
  if truthy (Props.error props) then Props.error props else None.

(** [{isAnalyzing ? 'Analyzing...' : 'Upload & Analyze'}] *)
Definition submit_label (props : Props.t) : string :=
  if Props.isAnalyzing props then "Analyzing..." else "Upload & Analyze".

(** The options of the two [select]s: value and label. *)
Definition shipment_options (props : Props.t) : list (string * string) :=
  ("", "Select a shipment")
  :: ((λ s, (Shipment.id s, Shipment.invoiceNumber s)) <$> Props.shipments props).

Definition docType_options : list (string * string) :=
  ("", "Select a document type")
  :: ((λ d, (DocumentType_value d, DocumentType_value d)) <$> DOCUMENT_TYPES).

(** [(file.size / 1024).toFixed(2)] in hundredths.  The quotient by 1024 is
    exact for a size below 2^53, and [toFixed] rounds the exact value to the
    nearest hundredth, upwards when it is half way. *)
Definition size_hundredths (size : N) : N := ((50 * size + 256) / 512)%N.

Definition pad2 (n : N) : string :=
  if (n <? 10)%N then "0" +:+ pretty n else pretty n.

(** [{(file.size / 1024).toFixed(2)} KB] *)
Definition size_label (size : N) : string :=
  let h := size_hundredths size in
  pretty (h / 100)%N +:+ "." +:+ pad2 (h mod 100)%N +:+ " KB".

(** ** The render

    What the dialog shows, as data: the texts, the controls with their
    values and [disabled] attributes, and the parts that are rendered under
    a condition. *)

(** [{!file ? <label ...> : <div ...>}]: the label on which a file is
    dropped or chosen, its border highlighted while [dragActive], or the
    name and the size of the chosen file with the button that removes it. *)
Inductive FileArea :=
  | DropZone (highlight : bool) (text hint : string)
  | Chosen (name size : string).

Record Select := mkSelect {
  select_label : string;
  select_value : string;
  select_disabled : bool;
  select_options : list (string * string);
}.

Record Button := mkButton {
  button_text : string;
  button_disabled : bool;
}.

Record View := mkView {
  view_title : string;
  view_subtitle : string;
  view_file : FileArea;
  view_shipment : Select;
  view_docType : Select;
  view_comments : string * string;
  view_analyzing : option string;
  view_error : option (string * string);
  view_submit : Button;
  view_cancel : Button;
}.

(** The [return] of the component: nothing when [!isOpen]. *)
Definition render (props : Props.t) (m : t) : option View :=
  if negb (rendered props) then None
  else Some (mkView
    "Upload Document"
    "Attach a document and link it to a shipment."
    match file m with
    | None => DropZone (dragActive m) "Click to upload a file" "or drag and drop"
    | Some f => Chosen (File.name f) (size_label (File.size f))
    end
    (mkSelect "Shipment (Invoice #)" (selectedShipment m) (shipment_disabled props)
       (shipment_options props))
    (mkSelect "Document Type" (selectedDocType m) (docType_disabled props)
       docType_options)
    ("Comments (Optional)", comments m)
    (if analyzing_banner props then Some "Analyzing document with AI... Please wait."
     else None)
    (pair "Error:" <$> error_banner props)
    (mkButton (submit_label props) (submit_disabled props m))
    (mkButton "Cancel" (cancel_disabled props))).

(** ** The strings the selects can hold *)

(** The state holds values of the rendered options. *)
Definition valid (props : Props.t) (m : t) : Prop :=
  selectedShipment m ∈ (shipment_options props).*1
  ∧ selectedDocType m ∈ docType_options.*1.

#[export] Instance valid_dec props m : Decision (valid props m).
Proof. unfold valid. apply _. Defined.

End Modal.

(** ** The events of the form

    The events that the rendered dialog handles within its own state: on the
    label that is shown while no file is chosen, on the button beside the
    name of the chosen file, on the two selects and on the text area. *)

Inductive ModalEvent :=
  | DragLabel (type : string)
  | DropLabel (files : list File.t)
  | ChangeInput (files : list File.t)
  | ClearFile
  | SelectShipment (value : string)
  | SelectDocType (value : string)
  | EditComments (value : string).

(** The handler of each event. *)
Definition modal_handle (e : ModalEvent) : Modal.t → Modal.t :=
  match e with
  | DragLabel type => Modal.handleDrag type
  | DropLabel files => Modal.handleDrop files
  | ChangeInput files => Modal.handleChange files
  | ClearFile => Modal.clearFile
  | SelectShipment value => Modal.setSelectedShipment value
  | SelectDocType value => Modal.setSelectedDocType value
  | EditComments value => Modal.setComments value
  end.

(** When the render offers the event: the label and its input are shown
    when there is no file and the button when there is one; a select that
    is not disabled takes the value of one of its options. *)
Definition modal_offers (props : Props.t) (m : Modal.t) (e : ModalEvent) : Prop :=
  match e with
  | DragLabel _ | DropLabel _ | ChangeInput _ => Modal.file m = None
  | ClearFile => is_Some (Modal.file m)
  | SelectShipment value =>
      Modal.shipment_disabled props = false
      ∧ value ∈ (Modal.shipment_options props).*1
  | SelectDocType value =>
      Modal.docType_disabled props = false ∧ value ∈ Modal.docType_options.*1
  | EditComments _ => True
  end.

#[export] Instance modal_offers_dec props m e : Decision (modal_offers props m e).
Proof. destruct e; simpl; apply _. Defined.

(** The events that the view gives a control for: the label or the button
    of the file area, a select that is not disabled with one of its options,
    the text area. *)
Definition view_admits (v : Modal.View) (e : ModalEvent) : Prop :=
  match e with
  | DragLabel _ | DropLabel _ | ChangeInput _ =>
      ∃ highlight text hint, Modal.view_file v = Modal.DropZone highlight text hint
  | ClearFile => ∃ name size, Modal.view_file v = Modal.Chosen name size
  | SelectShipment value =>
      Modal.select_disabled (Modal.view_shipment v) = false
      ∧ value ∈ (Modal.select_options (Modal.view_shipment v)).*1
  | SelectDocType value =>
      Modal.select_disabled (Modal.view_docType v) = false
      ∧ value ∈ (Modal.select_options (Modal.view_docType v)).*1
  | EditComments _ => True
  end.

(** ** A dialog for the witnesses *)

Definition demo_props : Props.t :=
  Props.mk true None None None false None INITIAL_SHIPMENTS.

Definition demo_modal : Modal.t :=
  Modal.mk false (Some (File.mk "invoice.pdf" "application/pdf" 2048))
    "MV0205020250510-02" "Commercial Invoice" "first copy".

(** ** Mounting and the effect *)

(** ** The render cycle ends *)

Section cycle.
Implicit Types (props : Props.t) (m : Modal.t).

(** With fuel for two renders the cycle returns: the effect has run at most
    once. *)
Lemma render_cycle_two fuel last props m :
  2 ≤ fuel →
  Modal.render_cycle fuel last props m
  = Some (if decide (last = Some (Props.deps props)) then m else Modal.effect props m).
Proof.
  intros Hfuel. destruct fuel as [|[|fuel]]; [lia..|]. cbn [Modal.render_cycle].
  case_decide; [done|]. case_decide; [done|]. by rewrite decide_True.
Qed.

(** A render with new props is the cycle, from the array of the render
    before. *)
Lemma rerender_cycle fuel (fresh : bool) (old new : Props.t) m :
  2 ≤ fuel →
  Modal.render_cycle fuel (if fresh then None else Some (Props.deps old)) new m
  = Some (Modal.rerender fresh old new m).
Proof.
  intros Hfuel. rewrite render_cycle_two by done. unfold Modal.rerender. f_equal.
  destruct fresh; simpl; [done|]. case_decide; case_bool_decide; (done || congruence).
Qed.

(** What the view offers is what the events of the form require. *)
Lemma modal_offers_view props m v e :
  Modal.render props m = Some v → modal_offers props m e ↔ view_admits v e.
Proof.
  unfold Modal.render. destruct (negb _); [done|]. intros [= <-].
  destruct e; simpl; try done; destruct (Modal.file m); naive_solver.
Qed.

End cycle.

Section effect.
Implicit Types (props : Props.t) (m : Modal.t).

(** The effect that runs after the mount finds the state it would set. *)
Lemma effect_mount props : Modal.effect props (Modal.mount props) = Modal.mount props.
Proof. reflexivity. Qed.

Lemma effect_idempotent props m :
  Modal.effect props (Modal.effect props m) = Modal.effect props m.
Proof. reflexivity. Qed.

(** The effect resets the form and keeps the drag flag. *)
Lemma effect_fields props m :
  Modal.effect props m
  = Modal.mk (Modal.dragActive m) (Modal.file (Modal.mount props))
      (Modal.selectedShipment (Modal.mount props))
      (Modal.selectedDocType (Modal.mount props)) "".
Proof. reflexivity. Qed.

Lemma rerender_same props m : Modal.rerender false props props m = m.
Proof. unfold Modal.rerender. by rewrite bool_decide_eq_false_2 by (by intros []). Qed.

(** Props that agree on the dependencies of the effect leave the form as
    it is, whatever else they hold. *)
Lemma rerender_same_deps old new m :
  Props.deps old = Props.deps new → Modal.rerender false old new m = m.
Proof. intros Hd. unfold Modal.rerender. by rewrite bool_decide_eq_false_2 by naive_solver. Qed.

Lemma rerender_fresh old new m : Modal.rerender true old new m = Modal.effect new m.
Proof. reflexivity. Qed.

End effect.

(** ** Submitting *)

Section submit.
Implicit Types (props : Props.t) (m : Modal.t) (u : Modal.Upload).

(** The condition of [handleSubmit]. *)
Definition submit_guard m : bool :=
  truthy (Modal.file m) && truthy (Modal.selectedShipment m)
  && truthy (Modal.selectedDocType m).

Lemma submit_disabled_guard props m :
  Modal.submit_disabled props m = negb (submit_guard m) || Props.isAnalyzing props.
Proof.
  unfold Modal.submit_disabled, submit_guard.
  by destruct (truthy (Modal.file m)), (truthy (Modal.selectedShipment m)),
    (truthy (Modal.selectedDocType m)).
Qed.

(** What [handleSubmit] passes to [onFileUpload] is what the form holds. *)
Lemma handleSubmit_Some m u :
  Modal.handleSubmit m = Some u ↔
  Modal.file m = Some (Modal.upload_file u)
  ∧ Modal.selectedShipment m = Modal.upload_shipmentId u
  ∧ Modal.upload_shipmentId u ≠ ""
  ∧ Modal.selectedDocType m = DocumentType_value (Modal.upload_docType u)
  ∧ Modal.comments m = Modal.upload_comments u.
Proof.
  unfold Modal.handleSubmit. destruct m as [dragActive [f|] sid dts c], u as [f' sid' dt' c'];
    simpl; [|naive_solver]. rewrite <- truthy_string_nonempty, <- DocumentType_of_value_Some.
  destruct (truthy sid) eqn:Hsid, (truthy dts) eqn:Hdts; simpl;
    try (split; [done|]; intros (_ & <- & ? & Hdt & _)); try congruence.
  - destruct (DocumentType_of_value dts) as [dt|]; simpl; naive_solver.
  - rewrite DocumentType_of_value_Some in Hdt. subst dts.
    by rewrite DocumentType_value_truthy in Hdts.
Qed.

Lemma handleSubmit_guard m u : Modal.handleSubmit m = Some u → submit_guard m = true.
Proof.
  intros (Hf & Hs & Hne & Hd & _)%handleSubmit_Some. unfold submit_guard.
  rewrite Hf, Hs, Hd, DocumentType_value_truthy. simpl.
  by rewrite andb_true_r, truthy_string_nonempty.
Qed.

(** A value of an option of the document-type select is empty or the
    string of a document type. *)
Lemma docType_options_values :
  Modal.docType_options.*1 = "" :: (DocumentType_value <$> DOCUMENT_TYPES).
Proof. reflexivity. Qed.

Lemma docType_option_cast (s : string) :
  s ∈ Modal.docType_options.*1 → s = "" ∨ is_Some (DocumentType_of_value s).
Proof.
  rewrite docType_options_values, elem_of_cons.
  intros [->|(d & -> & _)%list_elem_of_fmap]; [by left|right].
  rewrite DocumentType_of_value_value. eauto.
Qed.

(** The values of the shipment select: the empty string and the ids. *)
Lemma shipment_options_values props :
  (Modal.shipment_options props).*1 = "" :: (Shipment.id <$> Props.shipments props).
Proof.
  unfold Modal.shipment_options. rewrite fmap_cons. f_equal.
  by rewrite <- list_fmap_compose.
Qed.

Lemma shipment_option_listed props (s : string) :
  s ∈ (Modal.shipment_options props).*1 →
  s = "" ∨ s ∈ Shipment.id <$> Props.shipments props.
Proof. rewrite shipment_options_values. apply elem_of_cons. Qed.

(** With the values of the options in the form, the condition of
    [handleSubmit] is the whole of it: it calls [onFileUpload]. *)
Lemma submit_guard_calls props m :
  Modal.valid props m → submit_guard m = true → is_Some (Modal.handleSubmit m).
Proof.
  intros [_ Hd] Hg. unfold submit_guard in Hg.
  apply andb_true_iff in Hg as [[Hf Hs]%andb_true_iff Hdt].
  unfold Modal.handleSubmit. destruct (Modal.file m) as [f|]; [|done].
  rewrite Hs, Hdt. simpl.
  destruct (docType_option_cast _ Hd) as [Heq|[dt ->]]; [|by eexists].
  by rewrite Heq in Hdt.
Qed.

(** The shipment of a submitted upload is one of the list. *)
Lemma handleSubmit_listed props m u :
  Modal.valid props m → Modal.handleSubmit m = Some u →
  Modal.upload_shipmentId u ∈ Shipment.id <$> Props.shipments props.
Proof.
  intros [Hs _] (_ & Hsid & Hne & _)%handleSubmit_Some.
  rewrite Hsid in Hs. by apply shipment_option_listed in Hs as [?|Hs].
Qed.

End submit.

(** ** The values of the selects *)

Section valid.
Implicit Types (props : Props.t) (m : Modal.t).

(** A handler that leaves the two selects alone keeps the state valid. *)
Lemma valid_selection props m m' :
  Modal.selectedShipment m' = Modal.selectedShipment m →
  Modal.selectedDocType m' = Modal.selectedDocType m →
  Modal.valid props m → Modal.valid props m'.
Proof. unfold Modal.valid. by intros -> ->. Qed.

(** The validity of a state depends on the ids of the shipments only. *)
Lemma valid_ids props props' m :
  Shipment.id <$> Props.shipments props' = Shipment.id <$> Props.shipments props →
  Modal.valid props m → Modal.valid props' m.
Proof.
  unfold Modal.valid. rewrite !shipment_options_values. by intros ->.
Qed.

Lemma valid_mount props :
  Props.shipmentId props = None → Modal.valid props (Modal.mount props).
Proof.
  intros Hs. unfold Modal.valid.
  rewrite shipment_options_values, docType_options_values.
  unfold Modal.mount. cbn [Modal.selectedShipment Modal.selectedDocType].
  rewrite Hs. split; [left|]. destruct (Props.docType props) as [d|]; [|left].
  unfold Modal.docType_or_empty, js_or. cbn [fmap option_fmap option_map].
  rewrite DocumentType_value_truthy. right. apply list_elem_of_fmap. exists d. split; [done|apply DOCUMENT_TYPES_complete].
Qed.

Lemma valid_effect props m :
  Props.shipmentId props = None → Modal.valid props (Modal.effect props m).
Proof.
  intros Hs. eapply valid_selection; [..|by apply valid_mount]; done.
Qed.

Lemma valid_setSelectedShipment props m v :
  v ∈ (Modal.shipment_options props).*1 → Modal.valid props m →
  Modal.valid props (Modal.setSelectedShipment v m).
Proof. by intros Hv [_ Hd]. Qed.

Lemma valid_setSelectedDocType props m v :
  v ∈ Modal.docType_options.*1 → Modal.valid props m →
  Modal.valid props (Modal.setSelectedDocType v m).
Proof. by intros Hv [Hs _]. Qed.

(** Every event of the form keeps the state valid. *)
Lemma valid_modal_handle props m e :
  modal_offers props m e → Modal.valid props m → Modal.valid props (modal_handle e m).
Proof.
  destruct e as [type|files|files| | | |]; simpl.
  - intros _. apply valid_selection; unfold Modal.handleDrag; by repeat case_bool_decide.
  - intros _. apply valid_selection; by destruct files.
  - intros _. apply valid_selection; by destruct files.
  - intros _. by apply valid_selection.
  - intros [_ ?]. by apply valid_setSelectedShipment.
  - intros [_ ?]. by apply valid_setSelectedDocType.
  - intros _. by apply valid_selection.
Qed.

End valid.

(** ** The properties of the dialog *)

Section properties.
Implicit Types (props : Props.t) (m : Modal.t) (u : Modal.Upload).

(** C26: while the selects hold values of their options, the submit
    button is enabled exactly when no analysis runs and [handleSubmit]
    calls [onFileUpload]: the condition of the handler repeats the
    [disabled] attribute and never stops a click. *)
Theorem submit_enabled_iff props m :
  Modal.valid props m →
  Modal.submit_disabled props m = false
  ↔ is_Some (Modal.handleSubmit m) ∧ Props.isAnalyzing props = false.
Proof.
  intros Hv. rewrite submit_disabled_guard, orb_false_iff, negb_false_iff. split.
  - intros [Hg Ha]. split; [by eapply submit_guard_calls|done].
  - intros [[u Hu] Ha]. split; [by eapply handleSubmit_guard|done].
Qed.

(** An upload that the dialog submits is for a shipment of the
    list, for a document type of the list, and carries the file, the
    selection and the comments of the form. *)
Theorem submitted_upload_listed props m u :
  Modal.valid props m → Modal.handleSubmit m = Some u →
  Modal.upload_shipmentId u ∈ Shipment.id <$> Props.shipments props
  ∧ Modal.upload_docType u ∈ DOCUMENT_TYPES
  ∧ Modal.file m = Some (Modal.upload_file u)
  ∧ DocumentType_value (Modal.upload_docType u) = Modal.selectedDocType m
  ∧ Modal.upload_comments u = Modal.comments m.
Proof.
  intros Hv Hu. split; [by eapply handleSubmit_listed|].
  apply handleSubmit_Some in Hu as (Hf & _ & _ & Hd & Hc).
  split; [apply DOCUMENT_TYPES_complete|done].
Qed.


(** The size shown for a file is its size in KB rounded to the
    nearest hundredth: it is the number of hundredths closest to
    [size / 1024], the larger one when two are as close. *)
Theorem size_hundredths_nearest (size : N) :
  let h := Modal.size_hundredths size in
  (1024 * h ≤ 100 * size + 512 ∧ 100 * size + 512 < 1024 * (h + 1))%N.
Proof.
  intros h. unfold h, Modal.size_hundredths.
  pose proof (N.div_mod (50 * size + 256) 512 ltac:(lia)) as Hdm.
  pose proof (N.mod_lt (50 * size + 256) 512 ltac:(lia)) as Hlt.
  set (q := ((50 * size + 256) / 512)%N) in *.
  set (r := ((50 * size + 256) mod 512)%N) in *. lia.
Qed.

End properties.

Lemma submit_enabled_iff_witness :
  Modal.submit_disabled demo_props demo_modal = false
  ↔ is_Some (Modal.handleSubmit demo_modal) ∧ Props.isAnalyzing demo_props = false.
Proof. apply (submit_enabled_iff demo_props demo_modal). by apply (bool_decide_unpack _). Defined.

Lemma submitted_upload_listed_witness :
  "MV0205020250510-02" ∈ Shipment.id <$> INITIAL_SHIPMENTS
  ∧ INVOICE ∈ DOCUMENT_TYPES
  ∧ Modal.file demo_modal = Some (File.mk "invoice.pdf" "application/pdf" 2048)
  ∧ DocumentType_value INVOICE = "Commercial Invoice"
  ∧ "first copy" = "first copy".
Proof.
  apply (submitted_upload_listed demo_props demo_modal
           (Modal.mkUpload (File.mk "invoice.pdf" "application/pdf" 2048)
              "MV0205020250510-02" INVOICE "first copy"));
    [by apply (bool_decide_unpack _)|reflexivity].
Defined.

Example size_label_examples :
  Modal.size_label 2048 = "2.00 KB" ∧ Modal.size_label 1536 = "1.50 KB"
  ∧ Modal.size_label 5 = "0.00 KB" ∧ Modal.size_label 6 = "0.01 KB"
  ∧ Modal.size_label 1048576 = "1024.00 KB".
Proof. by vm_compute. Qed.
