(* ===== verification/Page.v ===== *)
(** * Page: the [App] component together with its dialog

    [App] renders [FileUploadModal] while [modalState.isOpen] and passes it
    its state as props ([src/App.tsx], the end of the render).  A state of
    the page is the state of [App], the state of the dialog while it is
    mounted, and the uploads in flight.

    - An event of [App] runs its handler and renders the dialog again with
      the new props: it is mounted, kept (its effect runs when a dependency
      changed) or unmounted.
    - An event of the form changes the state of the dialog only.
    - Cancel and submit are events of the dialog that call back into [App].

    [forget] drops the state of the dialog.  Every step of the page is a
    step of the transition system of the file Machine or changes only the
    dialog, so what holds of that system holds of the page; with the dialog
    in the state, more holds: the uploads are for shipments of the list,
    and from every page on which no analysis runs an upload to any slot
    can be started ([fill_form] is the sequence of events that does it). *)

From stdpp Require Import base tactics option list strings gmap.
From S2P Require Import Prelude Types Constants Shipments App Machine FileUploadModal.

(** ** The state *)

Module Page.

Record t {num : Type} := mk {
  app : AppState.t num;
  modal : option Modal.t;
  inFlight : list Pending.t;
}.
Global Arguments t : clear implicits.
Global Arguments mk {num}.

Definition initial {num} : t num := mk AppState.initial None [].

End Page.

Section render.
Context {num : Type}.
Implicit Types (st old new : AppState.t num) (page : Page.t num).

(** The props of [<FileUploadModal ... />]. *)
Definition props_of st : Props.t :=
  Props.mk
    (ModalState.isOpen (AppState.modalState st))
    (ModalState.shipmentId (AppState.modalState st))
    (ModalState.docType (AppState.modalState st))
    (ModalState.file (AppState.modalState st))
    (AppState.isAnalyzing st)
    (AppState.error st)
    (AppState.shipments st).

(** [{modalState.isOpen && <FileUploadModal ... />}], after a render that
    took [App] from [old] to [new].  A dialog that was not there is mounted
    and its effect runs; one that was there is rendered with the new props;
    one that is no longer rendered is unmounted and its state is lost. *)
Definition render_modal (fresh : bool) old new (modal : option Modal.t)
  : option Modal.t :=
  if ModalState.isOpen (AppState.modalState new) then
    Some match modal with
         | Some m => Modal.rerender fresh (props_of old) (props_of new) m
         | None => Modal.effect (props_of new) (Modal.mount (props_of new))
         end
  else None.

(** An event of [App]: its handler, then the render. *)
Definition app_event (fresh : bool) (f : AppState.t num → AppState.t num) page
  : Page.t num :=
  Page.mk (f (Page.app page))
          (render_modal fresh (Page.app page) (f (Page.app page)) (Page.modal page))
          (Page.inFlight page).

(** The upload that a call [onFileUpload(...)] of the dialog starts. *)
Definition pending_of (u : Modal.Upload) : Pending.t :=
  Pending.mk (Modal.upload_file u) (Modal.upload_shipmentId u)
             (Modal.upload_docType u) (Some (Modal.upload_comments u)).

(** The page without the state of the dialog. *)
Definition forget page : Sys.t num := Sys.mk (Page.app page) (Page.inFlight page).

End render.

(** ** The steps *)

(** - The header's button and the drag and drop events of the page are
      events of [App].
    - An event of the form, when the dialog is mounted and offers it.
    - Cancel, when its button is not disabled: [handleCancel], then
      [onClose].
    - Submit, when its button is not disabled and [handleSubmit] calls
      [onFileUpload].
    - An upload in flight settles with an outcome of the service. *)
Inductive page_step `{Analyzer num} : Page.t num → Page.t num → Prop :=
  | page_open page :
      page_step page (app_event false (handleOpenModal None None None) page)
  | page_drag type page :
      drag_offered type (Page.app page) →
      page_step page (app_event false (handleDrag type) page)
  | page_drop files page :
      AppState.dragActive (Page.app page) = true →
      page_step page (app_event (bool_decide (files ≠ [])) (handleDrop files) page)
  | page_form e m page :
      Page.modal page = Some m →
      modal_offers (props_of (Page.app page)) m e →
      page_step page (Page.mk (Page.app page) (Some (modal_handle e m)) (Page.inFlight page))
  | page_cancel m page :
      Page.modal page = Some m →
      Modal.cancel_disabled (props_of (Page.app page)) = false →
      page_step page
        (app_event false handleCloseModal
           (Page.mk (Page.app page) (Some (Modal.handleCancel m)) (Page.inFlight page)))
  | page_submit m u page :
      Page.modal page = Some m →
      Modal.submit_disabled (props_of (Page.app page)) m = false →
      Modal.handleSubmit m = Some u →
      page_step page
        (app_event false
           (handleFileUpload_begin (Modal.upload_shipmentId u) (Modal.upload_docType u))
           (Page.mk (Page.app page) (Page.modal page)
                    (Page.inFlight page ++ [pending_of u])))
  | page_settle clock outcome p fl1 fl2 page :
      Page.inFlight page = fl1 ++ p :: fl2 →
      analyzes (fileContent (Pending.file p) (Pending.shipmentId p) (Pending.docType p))
               (Pending.docType p) outcome →
      page_step page
        (app_event false
           (handleFileUpload_settle clock (Pending.file p) (Pending.shipmentId p)
              (Pending.docType p) (Pending.comments p) outcome)
           (Page.mk (Page.app page) (Page.modal page) (fl1 ++ fl2))).

Definition page_reachable `{Analyzer num} (page : Page.t num) : Prop :=
  rtc page_step Page.initial page.

(** ** Invariants, as predicates on states *)

Section invariants.
Context {num : Type}.
Implicit Types (page : Page.t num).

(** The dialog is mounted exactly while it is open. *)
Definition mounted_open page : Prop :=
  is_Some (Page.modal page)
  ↔ ModalState.isOpen (AppState.modalState (Page.app page)) = true.

(** The selects of the dialog hold values of their options. *)
Definition modal_valid page : Prop :=
  ∀ m, Page.modal page = Some m → Modal.valid (props_of (Page.app page)) m.

(** Every upload in flight is for a shipment of the list. *)
Definition in_flight_listed page : Prop :=
  ∀ p, p ∈ Page.inFlight page →
    Pending.shipmentId p ∈ Shipment.id <$> AppState.shipments (Page.app page).

End invariants.

(** ** The dialog is mounted while it is open *)

Section mounted.
Context `{Analyzer num}.
Implicit Types (page : Page.t num) (st old new : AppState.t num).

Lemma page_reachable_step page page' :
  page_reachable page → page_step page page' → page_reachable page'.
Proof. apply rtc_r. Qed.

(** Induction over the reachable states of the page. *)
Lemma page_reachable_ind (P : Page.t num → Prop) :
  P Page.initial →
  (∀ page page', page_reachable page → P page → page_step page page' → P page') →
  ∀ page, page_reachable page → P page.
Proof.
  intros Hinit Hstep. apply rtc_ind_r; [done|].
  intros page page' Hr Hs IH. by eapply Hstep.
Qed.

Lemma render_modal_is_Some fresh old new modal :
  is_Some (render_modal fresh old new modal)
  ↔ ModalState.isOpen (AppState.modalState new) = true.
Proof.
  unfold render_modal. destruct (ModalState.isOpen _); [by split; eauto|].
  split; [by intros [? ?]|done].
Qed.

Lemma mounted_open_app_event fresh f page : mounted_open (app_event fresh f page).
Proof. apply render_modal_is_Some. Qed.

(** A handler of [App] that leaves [modalState] as it is leaves the form of
    an open dialog as it is. *)
Lemma app_event_keeps_form f page m :
  Page.modal page = Some m →
  AppState.modalState (f (Page.app page)) = AppState.modalState (Page.app page) →
  ModalState.isOpen (AppState.modalState (Page.app page)) = true →
  Page.modal (app_event false f page) = Some m.
Proof.
  intros Hm Hf Ho. unfold app_event, render_modal. cbn [Page.modal].
  rewrite Hf, Ho, Hm. f_equal. apply rerender_same_deps.
  unfold Props.deps, props_of. cbn. by rewrite Hf.
Qed.

Lemma mounted_open_step page page' :
  mounted_open page → page_step page page' → mounted_open page'.
Proof.
  intros Hm Hs. destruct Hs as [| | |e m pg Hmod _| | |];
    try apply mounted_open_app_event.
  unfold mounted_open in *. simpl. rewrite <- Hm, Hmod. split; eauto.
Qed.

Lemma page_reachable_mounted page : page_reachable page → mounted_open page.
Proof.
  apply page_reachable_ind; [|intros ?? _; apply mounted_open_step].
  split; [by intros [? ?]|done].
Qed.

End mounted.

(** ** The page refines the transition system of [App] *)

Section simulation.
Context `{Analyzer num}.
Implicit Types (page : Page.t num).

(** The Cancel and the submit button are clicked in a state in which the
    step relation of [App] lets their handlers run. *)
Lemma submit_guards page m u :
  mounted_open page → Page.modal page = Some m →
  Modal.submit_disabled (props_of (Page.app page)) m = false →
  Modal.handleSubmit m = Some u →
  ModalState.isOpen (AppState.modalState (Page.app page)) = true
  ∧ AppState.isAnalyzing (Page.app page) = false
  ∧ truthy (Modal.upload_shipmentId u) = true.
Proof.
  intros Hm Hmod Hd (_ & _ & Hne & _)%handleSubmit_Some.
  rewrite submit_disabled_guard, orb_false_iff in Hd. destruct Hd as [_ Ha].
  split; [apply Hm; rewrite Hmod; eauto|]. split; [done|].
  by apply truthy_string_nonempty.
Qed.

(** A step of the page is a step of [App] and its uploads, or a step of
    the form alone. *)
Lemma page_step_forget page page' :
  mounted_open page → page_step page page' →
  forget page' = forget page ∨ step (forget page) (forget page').
Proof.
  intros Hm Hs.
  destruct Hs as [pg|type pg|files pg Hd|e m pg Hmod Ho|m pg Hmod Hc
    |m u pg Hmod Hd Hu|clock outcome p fl1 fl2 pg Hfl Ha].
  - right. apply step_open.
  - right. by apply step_drag.
  - right. by apply step_drop.
  - by left.
  - right. apply step_cancel; [|done]. apply Hm. rewrite Hmod. eauto.
  - right. destruct (submit_guards pg m u) as (? & ? & ?); [done..|].
    by apply (step_submit (Modal.upload_file u) _ _ (Modal.upload_comments u)).
  - right. unfold forget at 1. rewrite Hfl.
    by apply (step_settle clock outcome p _ fl1 fl2).
Qed.

Lemma page_reachable_forget page : page_reachable page → reachable (forget page).
Proof.
  apply (page_reachable_ind (λ page, reachable (forget page))); [apply rtc_refl|].
  intros pg pg' Hr IH Hs.
  destruct (page_step_forget pg pg') as [->|Hstep];
    [by apply page_reachable_mounted|done|done|by eapply reachable_step].
Qed.

(** What holds in every state of [App] holds on every page. *)
Lemma page_ids page :
  page_reachable page →
  Shipment.id <$> AppState.shipments (Page.app page) = Shipment.id <$> INITIAL_SHIPMENTS.
Proof. by intros [_ ?]%page_reachable_forget%reachable_shipments_kept. Qed.

Lemma page_unbound page :
  page_reachable page →
  ModalState.shipmentId (AppState.modalState (Page.app page)) = None.
Proof. by intros [? _]%page_reachable_forget%reachable_modal_unbound. Qed.

End simulation.

(** ** The selection of the dialog and the uploads it starts *)

Section dialog.
Context `{Analyzer num}.
Implicit Types (page pg : Page.t num) (old new : AppState.t num).

Lemma modal_valid_render fresh old new modal :
  ModalState.shipmentId (AppState.modalState new) = None →
  Shipment.id <$> AppState.shipments new = Shipment.id <$> AppState.shipments old →
  (∀ m, modal = Some m → Modal.valid (props_of old) m) →
  ∀ m', render_modal fresh old new modal = Some m' → Modal.valid (props_of new) m'.
Proof.
  unfold render_modal. intros Hs Hids Hv m'.
  destruct (ModalState.isOpen _); [|done]. intros [= <-].
  destruct modal as [m|]; [|by apply valid_effect].
  unfold Modal.rerender. destruct (fresh || _); [by apply valid_effect|].
  apply (valid_ids (props_of old)); [done|by apply Hv].
Qed.

(** An event of [App] that binds no shipment to the dialog and keeps the
    ids of the shipments keeps the selection valid. *)
Lemma modal_valid_app_event fresh f pg :
  modal_valid pg →
  ModalState.shipmentId (AppState.modalState (f (Page.app pg))) = None →
  Shipment.id <$> AppState.shipments (f (Page.app pg))
  = Shipment.id <$> AppState.shipments (Page.app pg) →
  modal_valid (app_event fresh f pg).
Proof. intros Hv Hs Hids m'. by apply modal_valid_render. Qed.

Lemma modal_valid_step pg pg' :
  page_reachable pg → page_reachable pg' → modal_valid pg → page_step pg pg' →
  modal_valid pg'.
Proof.
  intros Hr Hr' Hv Hs.
  pose proof (page_unbound _ Hr') as Hu. pose proof (page_ids _ Hr') as Hids'.
  rewrite <- (page_ids _ Hr) in Hids'. clear Hr Hr'.
  destruct Hs as [pg|type pg|files pg Hd|e m pg Hmod Ho|m pg Hmod Hc
    |m u pg Hmod Hd Hsub|clock outcome p fl1 fl2 pg Hfl Ha];
    try (by apply modal_valid_app_event).
  - intros m' [= <-]. apply valid_modal_handle; [done|by apply Hv].
  - apply modal_valid_app_event; [|done..]. intros m' [= <-].
    by eapply valid_selection; [..|by apply Hv].
Qed.

Lemma in_flight_listed_step pg pg' :
  page_reachable pg → page_reachable pg' → modal_valid pg → in_flight_listed pg →
  page_step pg pg' → in_flight_listed pg'.
Proof.
  intros Hr Hr' Hv Hl Hs. unfold in_flight_listed in *.
  rewrite (page_ids _ Hr'). rewrite (page_ids _ Hr) in Hl.
  pose proof (page_ids _ Hr) as Hids. clear Hr Hr'.
  set (ids := Shipment.id <$> INITIAL_SHIPMENTS) in *. clearbody ids.
  destruct Hs as [pg|type pg|files pg Hd|e m pg Hmod Ho|m pg Hmod Hc
    |m u pg Hmod Hd Hsub|clock outcome p fl1 fl2 pg Hfl Ha]; simpl; try done.
  - intros p [Hp|Hp]%elem_of_app; [by apply Hl|].
    apply list_elem_of_singleton in Hp as ->. rewrite <- Hids.
    apply (handleSubmit_listed (props_of (Page.app pg)) m); [by apply Hv|done].
  - intros q Hq. apply Hl. rewrite Hfl. set_solver.
Qed.

Lemma page_reachable_dialog page :
  page_reachable page → modal_valid page ∧ in_flight_listed page.
Proof.
  apply (page_reachable_ind (λ pg, modal_valid pg ∧ in_flight_listed pg)).
  - split; [by intros m|]. intros p Hp. by apply elem_of_nil in Hp.
  - intros pg pg' Hr [Hv Hl] Hs. pose proof (page_reachable_step _ _ Hr Hs) as Hr'.
    split; [exact (modal_valid_step pg pg' Hr Hr' Hv Hs)|].
    exact (in_flight_listed_step pg pg' Hr Hr' Hv Hl Hs).
Qed.

(** The slot that a settled upload leaves, when its shipment is listed. *)
Lemma status_at_settle clock file sid dt comments (outcome : Outcome num) st :
  sid ∈ Shipment.id <$> AppState.shipments st →
  status_at (AppState.shipments
    (handleFileUpload_settle clock file sid dt comments outcome st)) sid dt
  = Some (terminal_status outcome).
Proof.
  intros Hin. rewrite shipments_settle.
  destruct outcome; [by apply status_at_uploaded|by apply status_at_error].
Qed.

End dialog.

(** ** An upload can always be started *)

(** The events with which a user fills the form: the file that is there is
    removed, a file is chosen, and the two selects are set. *)
Definition fill_form (file : File.t) (sid : string) (dt : DocumentType) (m : Modal.t)
  : list ModalEvent :=
  match Modal.file m with Some _ => [ClearFile] | None => [] end
  ++ [ChangeInput [file]; SelectShipment sid; SelectDocType (DocumentType_value dt)].

Definition run_form (es : list ModalEvent) (m : Modal.t) : Modal.t :=
  foldl (λ m e, modal_handle e m) m es.

(** Each event of the list is offered when its turn comes. *)
Fixpoint offers_all (props : Props.t) (m : Modal.t) (es : list ModalEvent) : Prop :=
  match es with
  | [] => True
  | e :: es => modal_offers props m e ∧ offers_all props (modal_handle e m) es
  end.

Section progress.
Context `{Analyzer num}.
Implicit Types (page : Page.t num) (st : AppState.t num) (m : Modal.t).

Lemma page_eta page m :
  Page.modal page = Some m → page = Page.mk (Page.app page) (Some m) (Page.inFlight page).
Proof. destruct page; simpl. by intros ->. Qed.

Lemma page_form_steps es m st fl :
  offers_all (props_of st) m es →
  rtc page_step (Page.mk st (Some m) fl) (Page.mk st (Some (run_form es m)) fl).
Proof.
  revert m. induction es as [|e es IH]; intros m; simpl; [done|].
  intros [Ho Hall]. eapply rtc_l; [|by apply IH].
  by apply (page_form e m (Page.mk st (Some m) fl)).
Qed.

Lemma run_fill_form file sid dt m :
  run_form (fill_form file sid dt m) m
  = Modal.mk (Modal.dragActive m) (Some file) sid (DocumentType_value dt)
             (Modal.comments m).
Proof. unfold fill_form, run_form. by destruct m as [? [?|] ? ? ?]. Qed.

Lemma fill_form_offered props file sid dt m :
  Modal.shipment_disabled props = false → Modal.docType_disabled props = false →
  sid ∈ Shipment.id <$> Props.shipments props →
  offers_all props m (fill_form file sid dt m).
Proof.
  intros Hs Hd Hin.
  assert (modal_offers props m (SelectShipment sid)) as Hos
    by (split; [done|]; rewrite shipment_options_values; by right).
  assert (modal_offers props m (SelectDocType (DocumentType_value dt))) as Hod.
  { split; [done|]. rewrite docType_options_values. right.
    apply list_elem_of_fmap. eexists. split; [done|apply DOCUMENT_TYPES_complete]. }
  unfold fill_form. destruct m as [? [f|] ? ? ?]; simpl in *; eauto 10.
Qed.

(** The submit button of a filled form starts the upload. *)
Lemma submit_filled st m file sid dt fl :
  AppState.isAnalyzing st = false → sid ≠ "" →
  Modal.file m = Some file → Modal.selectedShipment m = sid →
  Modal.selectedDocType m = DocumentType_value dt →
  page_step (Page.mk st (Some m) fl)
    (app_event false (handleFileUpload_begin sid dt)
       (Page.mk st (Some m) (fl ++ [Pending.mk file sid dt (Some (Modal.comments m))]))).
Proof.
  intros Hidle Hne%truthy_string_nonempty Hf Hs Hd.
  pose proof (DocumentType_value_truthy dt) as Hdt.
  apply (page_submit m (Modal.mkUpload file sid dt (Modal.comments m))
           (Page.mk st (Some m) fl)); [done|..].
  - rewrite submit_disabled_guard. unfold submit_guard.
    by rewrite Hf, Hs, Hd, Hne, Hdt.
  - unfold Modal.handleSubmit.
    by rewrite Hf, Hs, Hd, Hne, Hdt, DocumentType_of_value_value.
Qed.

(** From a page whose dialog is mounted and unbound, with no analysis
    running: the form is filled and submitted. *)
Lemma fill_and_submit st m fl file sid dt :
  AppState.isAnalyzing st = false → sid ≠ "" →
  ModalState.shipmentId (AppState.modalState st) = None →
  ModalState.docType (AppState.modalState st) = None →
  sid ∈ Shipment.id <$> AppState.shipments st →
  rtc page_step (Page.mk st (Some m) fl)
    (app_event false (handleFileUpload_begin sid dt)
       (Page.mk st (Some (run_form (fill_form file sid dt m) m))
          (fl ++ [Pending.mk file sid dt (Some (Modal.comments m))]))).
Proof.
  intros Hidle Hne Hs Hd Hin.
  apply (rtc_r _ (Page.mk st (Some (run_form (fill_form file sid dt m) m)) fl)).
  - apply page_form_steps, fill_form_offered; [..|done].
    + unfold Modal.shipment_disabled. cbn [props_of Props.shipmentId]. by rewrite Hs.
    + unfold Modal.docType_disabled. cbn [props_of Props.docType]. by rewrite Hd.
  - rewrite run_fill_form. set (m' := Modal.mk _ _ _ _ _).
    change (Modal.comments m) with (Modal.comments m'). by apply submit_filled.
Qed.

(** The dialog is opened, the form is filled and submitted. *)
Lemma upload_can_start page file sid dt :
  page_reachable page → AppState.isAnalyzing (Page.app page) = false →
  sid ∈ Shipment.id <$> AppState.shipments (Page.app page) →
  ∃ page' comments, rtc page_step page page'
    ∧ Page.inFlight page' = [Pending.mk file sid dt (Some comments)]
    ∧ AppState.isAnalyzing (Page.app page') = true
    ∧ status_at (AppState.shipments (Page.app page')) sid dt = Some PROCESSING
    ∧ AppState.uploadLogs (Page.app page') = AppState.uploadLogs (Page.app page).
Proof.
  intros Hr Hidle Hin.
  assert (Page.inFlight page = []) as Hfl.
  { apply page_reachable_forget, reachable_flag_matches in Hr.
    unfold flag_matches in Hr. cbn [forget Sys.inFlight Sys.app] in Hr.
    destruct (Page.inFlight page) as [|? [|]]; [done|congruence|done]. }
  assert (sid ≠ "") as Hne.
  { pose proof INITIAL_SHIPMENTS_ids_nonempty as Hall.
    rewrite Forall_forall in Hall. apply Hall. by rewrite <- (page_ids page). }
  set (page1 := app_event false (handleOpenModal None None None) page).
  destruct (proj2 (mounted_open_app_event false (handleOpenModal None None None) page)
              eq_refl) as [m1 Hm1]. fold page1 in Hm1.
  eexists _, (Modal.comments m1). split.
  - eapply rtc_l; [apply page_open|]. fold page1. rewrite (page_eta page1 m1 Hm1).
    by apply (fill_and_submit _ m1 _ file sid dt).
  - cbn [app_event Page.inFlight Page.app page1]. rewrite Hfl.
    split_and!; [done..| |done]. by apply status_at_processing.
Qed.

End progress.

(** ** A run of the page, for the witnesses

    The dialog is opened from the header, a file is chosen, the second
    shipment and the invoice are selected, the form is submitted and the
    analysis succeeds. *)

Section demo.
Variable num : Type.
Context `{!Analyzer num}.

Definition demo_form (e : ModalEvent) (m : Modal.t) (page : Page.t num) : Page.t num :=
  Page.mk (Page.app page) (Some (modal_handle e m)) (Page.inFlight page).

Definition demo_page1 : Page.t num :=
  app_event false (handleOpenModal None None None) Page.initial.
Definition demo_modal1 : Modal.t := Modal.mount (props_of (Page.app demo_page1)).
Definition demo_page2 : Page.t num :=
  demo_form (ChangeInput [demo_file]) demo_modal1 demo_page1.
Definition demo_modal2 : Modal.t := modal_handle (ChangeInput [demo_file]) demo_modal1.
Definition demo_page3 : Page.t num :=
  demo_form (SelectShipment demo_id) demo_modal2 demo_page2.
Definition demo_modal3 : Modal.t := modal_handle (SelectShipment demo_id) demo_modal2.
Definition demo_page4 : Page.t num :=
  demo_form (SelectDocType "Commercial Invoice") demo_modal3 demo_page3.
Definition demo_modal4 : Modal.t :=
  modal_handle (SelectDocType "Commercial Invoice") demo_modal3.
Definition demo_upload_call : Modal.Upload := Modal.mkUpload demo_file demo_id INVOICE "".
Definition demo_page5 : Page.t num :=
  app_event false (handleFileUpload_begin demo_id INVOICE)
    (Page.mk (Page.app demo_page4) (Page.modal demo_page4)
             (Page.inFlight demo_page4 ++ [pending_of demo_upload_call])).

Lemma demo_page4_reachable : page_reachable demo_page4.
Proof.
  do 3 (eapply page_reachable_step;
        [|apply page_form; [reflexivity|by apply (bool_decide_unpack _)]]).
  eapply page_reachable_step; [apply rtc_refl|apply page_open].
Defined.

Lemma demo_submit_step : page_step demo_page4 demo_page5.
Proof. by apply (page_submit demo_modal4 demo_upload_call demo_page4). Defined.

Lemma demo_page5_reachable : page_reachable demo_page5.
Proof. exact (page_reachable_step _ _ demo_page4_reachable demo_submit_step). Defined.

End demo.

#[local] Existing Instance any_outcome.

Definition demo_page6 : Page.t Z :=
  app_event false
    (handleFileUpload_settle demo_clock demo_file demo_id INVOICE (Some "")
       (Fulfilled demo_result))
    (Page.mk (Page.app (demo_page5 Z)) (Page.modal (demo_page5 Z)) ([] ++ [])).

Lemma demo_page6_reachable : page_reachable demo_page6.
Proof.
  eapply page_reachable_step; [apply demo_page5_reachable|].
  by apply (page_settle demo_clock (Fulfilled demo_result)
              (pending_of demo_upload_call) [] [] (demo_page5 Z)).
Defined.

(** ** The properties of the page *)

Section properties.
Context `{Analyzer num}.
Implicit Types (page : Page.t num).

(** C5: the page refines the transition system of [App]: without the
    state of the dialog, every reachable page is a reachable state of that
    system, and every step of the page is one of its steps or a step of the
    form alone.  The guards of that system are thus the guards the dialog
    really enforces. *)
Theorem page_refines_machine page :
  page_reachable page →
  reachable (forget page)
  ∧ ∀ page', page_step page page' →
      forget page' = forget page ∨ step (forget page) (forget page').
Proof.
  intros Hr. split; [by apply page_reachable_forget|].
  intros page'. by apply page_step_forget, page_reachable_mounted.
Qed.

(** The dialog is mounted exactly while [modalState.isOpen], and
    while it is mounted its two selects hold the empty string or the value
    of one of their options: an id of the list and a document type. *)
Theorem dialog_mounted_valid page :
  page_reachable page →
  (is_Some (Page.modal page)
   ↔ ModalState.isOpen (AppState.modalState (Page.app page)) = true)
  ∧ ∀ m, Page.modal page = Some m →
      (Modal.selectedShipment m = ""
       ∨ Modal.selectedShipment m ∈ Shipment.id <$> AppState.shipments (Page.app page))
      ∧ (Modal.selectedDocType m = ""
         ∨ is_Some (DocumentType_of_value (Modal.selectedDocType m))).
Proof.
  intros Hr. split; [by apply page_reachable_mounted|].
  intros m Hm. destruct (page_reachable_dialog _ Hr) as [Hv _].
  destruct (Hv m Hm) as [Hs Hd].
  split; [by apply shipment_option_listed in Hs|by apply docType_option_cast].
Qed.

(** C9: every upload the page has in flight is for a shipment of the
    list, so when it settles its slot is [UPLOADED] or [ERROR] by the
    outcome: through the dialog no upload is lost on an unknown id. *)
Theorem uploads_reach_terminal page p clock (outcome : Outcome num) :
  page_reachable page → p ∈ Page.inFlight page →
  Pending.shipmentId p ∈ Shipment.id <$> AppState.shipments (Page.app page)
  ∧ status_at (AppState.shipments
      (handleFileUpload_settle clock (Pending.file p) (Pending.shipmentId p)
         (Pending.docType p) (Pending.comments p) outcome (Page.app page)))
      (Pending.shipmentId p) (Pending.docType p)
    = Some (terminal_status outcome).
Proof.
  intros [_ Hl]%page_reachable_dialog Hp. specialize (Hl p Hp).
  split; [done|by apply status_at_settle].
Qed.

(** C31: an upload can always be started: from every reachable page on
    which no analysis runs, and for every file, every shipment of the list
    and every document type, there are steps of the page (the dialog is
    opened, the form is filled and submitted) after which that upload is in
    flight and its slot is [PROCESSING]. *)
Theorem upload_always_possible page file sid dt :
  page_reachable page → AppState.isAnalyzing (Page.app page) = false →
  sid ∈ Shipment.id <$> AppState.shipments (Page.app page) →
  ∃ page' comments, rtc page_step page page'
    ∧ Page.inFlight page' = [Pending.mk file sid dt (Some comments)]
    ∧ AppState.isAnalyzing (Page.app page') = true
    ∧ status_at (AppState.shipments (Page.app page')) sid dt = Some PROCESSING.
Proof.
  intros Hr Hidle Hin.
  destruct (upload_can_start page file sid dt Hr Hidle Hin)
    as (page' & comments & ? & ? & ? & ? & _). by exists page', comments.
Qed.

(** A file dropped on the page while the dialog is open replaces the
    form: the dialog is rendered with the dropped file as its initial file,
    its effect runs, and the shipment, the document type and the comments
    the user had entered are reset. *)
Theorem drop_resets_form page m file files :
  Page.modal page = Some m → AppState.dragActive (Page.app page) = true →
  let page' := app_event (bool_decide (file :: files ≠ [])) (handleDrop (file :: files))
                 page in
  page_step page page'
  ∧ Page.modal page' = Some (Modal.mk (Modal.dragActive m) (Some file) "" "" "").
Proof.
  intros Hm Hd page'. split; [by apply page_drop|].
  unfold page'. cbn [app_event Page.modal]. by rewrite Hm.
Qed.

End properties.

Lemma drop_resets_form_witness :
  let page := app_event false (handleDrag "dragenter") (demo_page4 Z) in
  let page' := app_event (bool_decide ([demo_file] ≠ [])) (handleDrop [demo_file]) page in
  page_step page page'
  ∧ Page.modal page'
    = Some (Modal.mk (Modal.dragActive (demo_modal4 Z)) (Some demo_file) "" "" "").
Proof.
  exact (drop_resets_form (app_event false (handleDrag "dragenter") (demo_page4 Z))
           (demo_modal4 Z) demo_file [] eq_refl eq_refl).
Defined.

Lemma upload_always_possible_witness :
  ∃ page' comments, rtc page_step demo_page6 page'
    ∧ Page.inFlight page' = [Pending.mk demo_file "MV0205020250510-06" PACKING_LIST (Some comments)]
    ∧ AppState.isAnalyzing (Page.app page') = true
    ∧ status_at (AppState.shipments (Page.app page')) "MV0205020250510-06" PACKING_LIST
      = Some PROCESSING.
Proof.
  apply (upload_always_possible demo_page6 demo_file "MV0205020250510-06" PACKING_LIST
           demo_page6_reachable); [reflexivity|].
  by apply (bool_decide_unpack _).
Defined.

Lemma page_refines_machine_witness :
  reachable (forget demo_page6)
  ∧ ∀ page', page_step demo_page6 page' →
      forget page' = forget demo_page6 ∨ step (forget demo_page6) (forget page').
Proof. exact (page_refines_machine demo_page6 demo_page6_reachable). Defined.

Lemma dialog_mounted_valid_witness :
  (is_Some (Page.modal (demo_page5 Z))
   ↔ ModalState.isOpen (AppState.modalState (Page.app (demo_page5 Z))) = true)
  ∧ ∀ m, Page.modal (demo_page5 Z) = Some m →
      (Modal.selectedShipment m = ""
       ∨ Modal.selectedShipment m
         ∈ Shipment.id <$> AppState.shipments (Page.app (demo_page5 Z)))
      ∧ (Modal.selectedDocType m = ""
         ∨ is_Some (DocumentType_of_value (Modal.selectedDocType m))).
Proof. exact (dialog_mounted_valid (demo_page5 Z) (demo_page5_reachable Z)). Defined.

Lemma uploads_reach_terminal_witness :
  demo_id ∈ Shipment.id <$> AppState.shipments (Page.app (demo_page5 Z))
  ∧ status_at (AppState.shipments
      (handleFileUpload_settle demo_clock demo_file demo_id INVOICE (Some "")
         Rejected (Page.app (demo_page5 Z)))) demo_id INVOICE
    = Some ERROR.
Proof.
  apply (uploads_reach_terminal (demo_page5 Z) (pending_of demo_upload_call) demo_clock
           Rejected (demo_page5_reachable Z)).
  by apply list_elem_of_singleton.
Defined.
