(* ===== verification/Views.v ===== *)
(** * Views: what the table and the activity log show

    The components [DocumentStatusCell], [ShipmentRow], [Dashboard] and
    [UploadLogs] of [src/components] are functions from props to markup.
    The model keeps what the markup shows and drops how it looks:

    - a cell is the indicator [getStatusIndicator] returns: an icon, a
      label and, for an uploaded document with a summary, a tooltip; the
      document of a cell is the [CellDocument.t] of its props interface,
      which a [Document] is coerced to, as a structural subtype is;
    - a row is the texts of its three leading columns and one cell per
      entry of [DOCUMENT_TYPES]; a cell whose slot is missing from the
      [documents] object cannot be rendered (the component reads
      [document.status] of [undefined]) and is [None];
    - the table is its heading, its column titles, its rows and the React
      keys of the rows;
    - the log is its heading and the placeholder or the list; an item is
      its icon, the file name, the invoice number [getInvoiceNumber] finds,
      the document type, the time and the uploader.  The time is printed
      by [toLocaleString] in the locale of the browser: the item takes its
      text from the interface [DateFormat].

    Class names and the SVG paths are not modelled. *)

From stdpp Require Import base tactics option list strings gmap.
From S2P Require Import Prelude Types Constants Shipments Analytics App Machine.

(** ** [DocumentStatusCell] *)

Inductive Icon :=
  | CheckCircleIcon
  | ExclamationCircleIcon
  | Spinner
  | XCircleIcon
  | DocumentDuplicateIcon.

#[export] Instance Icon_eq_dec : EqDecision Icon.
Proof. solve_decision. Defined.

Module Indicator.

Record t := mk {
  icon : Icon;
  label : string;
  tooltip : option (option string * string);
}.

End Indicator.

(** [interface DocumentStatusCellProps]: the document of a cell.  The row
    passes a [Document] where this type is asked for; of the properties of
    the document the cell is given these three. *)
Module CellDocument.

Record t := mk {
  status : DocumentStatus;
  name : option string;
  analysisSummary : option string;
}.

End CellDocument.

Definition cell_document (d : Document.t) : CellDocument.t :=
  CellDocument.mk (Document.status d) (Document.name d) (Document.analysisSummary d).

Coercion cell_document : Document.t >-> CellDocument.t.

(** [getStatusIndicator]: one case per status.  The tooltip of an uploaded
    document is rendered when [document.analysisSummary] is truthy, and
    shows the name and the summary. *)
Definition getStatusIndicator (document : CellDocument.t) : option Indicator.t :=
  match CellDocument.status document with
  | UPLOADED =>
      Some (Indicator.mk CheckCircleIcon
              (DocumentStatus_value (CellDocument.status document))
              (if truthy (CellDocument.analysisSummary document)
               then pair (CellDocument.name document)
                      <$> CellDocument.analysisSummary document
               else None))
  | MISSING =>
      Some (Indicator.mk ExclamationCircleIcon
              (DocumentStatus_value (CellDocument.status document)) None)
  | PROCESSING => Some (Indicator.mk Spinner "Processing" None)
  | ERROR => Some (Indicator.mk XCircleIcon "Failed" None)
  | DUPLICATE =>
      Some (Indicator.mk DocumentDuplicateIcon
              (DocumentStatus_value (CellDocument.status document)) None)
  end.

(** ** [ShipmentRow] *)

Module Row.

Record t := mk {
  invoiceNumber : string;
  id : string;
  shippingDate : string;
  origin : string;
  destination : string;
  carrier : string;
  cells : list (option Indicator.t);
}.

End Row.

(** [<DocumentStatusCell document={shipment.documents[docType]} />] *)
Definition DocumentStatusCell (document : option Document.t) : option Indicator.t :=
  document ≫= λ d : Document.t, getStatusIndicator d.

Definition ShipmentRow (shipment : Shipment.t) : Row.t :=
  Row.mk
    (Shipment.invoiceNumber shipment)
    (Shipment.id shipment)
    (Shipment.shippingDate shipment)
    (Shipment.origin shipment)
    (Shipment.destination shipment)
    (Shipment.carrier shipment)
    ((λ docType, DocumentStatusCell (Shipment.documents shipment !! docType))
       <$> DOCUMENT_TYPES).

(** ** [Dashboard] *)

(** [s.split('(')[0]]: the text before the first parenthesis, the
    character of code 40. *)
Fixpoint before_paren (s : string) : string :=
  match s with
  | EmptyString => EmptyString
  | String c s' => if bool_decide (c = Ascii.ascii_of_nat 40) then EmptyString
                   else String c (before_paren s')
  end.

(** White space, among the characters of the document types. *)
Definition is_space (c : Ascii.ascii) : bool :=
  bool_decide (Ascii.nat_of_ascii c = 32)
  || bool_decide (9 ≤ Ascii.nat_of_ascii c ≤ 13).

Fixpoint trim_start (s : string) : string :=
  match s with
  | EmptyString => EmptyString
  | String c s' => if is_space c then trim_start s' else s
  end.

Fixpoint trim_end (s : string) : string :=
  match s with
  | EmptyString => EmptyString
  | String c s' =>
      match trim_end s' with
      | EmptyString => if is_space c then EmptyString else String c EmptyString
      | r => String c r
      end
  end.

(** [s.trim()] *)
Definition trim (s : string) : string := trim_end (trim_start s).

(** [docType.split('(')[0].trim()] *)
Definition column_title (docType : DocumentType) : string :=
  trim (before_paren (DocumentType_value docType)).

Module Table.

Record t := mk {
  title : string;
  subtitle : string;
  titles : list string;
  keys : list string;
  rows : list Row.t;
}.

End Table.

Definition Dashboard (shipments : list Shipment.t) : Table.t :=
  Table.mk
    "Shipment Document Status"
    "Overview of all ongoing shipments and their required documentation."
    (["Invoice #"; "Date"; "Route"] ++ (column_title <$> DOCUMENT_TYPES))
    (Shipment.id <$> shipments)
    (ShipmentRow <$> shipments).

(** ** [UploadLogs] *)

(** [shipments.find(s => s.id === shipmentId)?.invoiceNumber || shipmentId] *)
Definition getInvoiceNumber (shipments : list Shipment.t) (shipmentId : string) : string :=
  js_or (Shipment.invoiceNumber <$> find_shipment shipments shipmentId) shipmentId.

Module LogItem.

Record t := mk {
  key : string;
  icon : Icon;
  fileName : string;
  invoiceNumber : string;
  documentType : string;
  time : string;
  uploader : string;
}.

End LogItem.

Module Logs.

Record t := mk {
  title : string;
  subtitle : string;
  body : (string * string) + list LogItem.t;
}.

End Logs.

Section logs.
Context {num : Type} `{!DateFormat}.

Definition log_item (shipments : list Shipment.t) (log : UploadLogEntry.t num)
  : LogItem.t :=
  LogItem.mk
    (UploadLogEntry.id log)
    (if decide (UploadLogEntry.analysisStatus log = Success)
     then CheckCircleIcon else XCircleIcon)
    (UploadLogEntry.fileName log)
    (getInvoiceNumber shipments (UploadLogEntry.shipmentId log))
    (DocumentType_value (UploadLogEntry.documentType log))
    (toLocaleString (UploadLogEntry.uploadTimestamp log))
    (UploadLogEntry.uploader log).

(** The heading, and the list of the log or the placeholder when the log
    is empty. *)
Definition UploadLogs (logs : list (UploadLogEntry.t num)) (shipments : list Shipment.t)
  : Logs.t :=
  Logs.mk
    "Recent Activity"
    "Log of all document uploads and analyses."
    (if bool_decide (length logs = 0)
     then inl ("No recent activity", "Upload a document to get started.")
     else inr (log_item shipments <$> logs)).

End logs.

(** ** The cells *)

Section cells.
Implicit Types (d : Document.t) (s : Shipment.t) (dt : DocumentType)
  (ind : Indicator.t).

(** Every status has its case: the [default] of the [switch] is dead. *)
Lemma getStatusIndicator_is_Some d : is_Some (getStatusIndicator d).
Proof. unfold getStatusIndicator. simpl. by destruct (Document.status d). Qed.

Lemma icon_getStatusIndicator d :
  Indicator.icon <$> getStatusIndicator d
  = Some match Document.status d with
         | UPLOADED => CheckCircleIcon
         | MISSING => ExclamationCircleIcon
         | PROCESSING => Spinner
         | ERROR => XCircleIcon
         | DUPLICATE => DocumentDuplicateIcon
         end.
Proof. unfold getStatusIndicator. simpl. by destruct (Document.status d). Qed.

(** The cell is given the status, the name and the summary of a document:
    the date, the uploader and the link of an upload do not show in the
    table. *)
Lemma cell_of_three_properties d d' :
  Document.status d = Document.status d' → Document.name d = Document.name d' →
  Document.analysisSummary d = Document.analysisSummary d' →
  DocumentStatusCell (Some d) = DocumentStatusCell (Some d').
Proof. unfold DocumentStatusCell, cell_document. simpl. by intros -> -> ->. Qed.

(** A cell shows the check mark exactly when its slot is uploaded. *)
Lemma cell_check s dt :
  Indicator.icon <$> DocumentStatusCell (Shipment.documents s !! dt) = Some CheckCircleIcon
  ↔ Shipment.status_of s dt = Some UPLOADED.
Proof.
  unfold DocumentStatusCell, Shipment.status_of.
  destruct (Shipment.documents s !! dt) as [d|]; simpl; [|done].
  rewrite icon_getStatusIndicator. by destruct (Document.status d).
Qed.

Lemma length_cells s : length (Row.cells (ShipmentRow s)) = 6.
Proof. reflexivity. Qed.

(** The cell of a column is the cell of the slot of that column. *)
Lemma lookup_cells s i dt :
  DOCUMENT_TYPES !! i = Some dt →
  Row.cells (ShipmentRow s) !! i = Some (DocumentStatusCell (Shipment.documents s !! dt)).
Proof.
  intros Hi. unfold ShipmentRow. cbn [Row.cells]. by rewrite list_lookup_fmap, Hi.
Qed.

(** A row can be rendered exactly when the shipment has its six slots. *)
Lemma cells_render s : Forall is_Some (Row.cells (ShipmentRow s)) ↔ Shipment.wf s.
Proof.
  unfold ShipmentRow, Shipment.wf. cbn [Row.cells]. rewrite Forall_fmap, Forall_forall.
  split.
  - intros Hall dt. specialize (Hall dt (DOCUMENT_TYPES_complete dt)). simpl in Hall.
    destruct (Shipment.documents s !! dt); [by eauto|by destruct Hall].
  - intros Hwf dt _. simpl. destruct (Hwf dt) as [d ->]. apply getStatusIndicator_is_Some.
Qed.

End cells.

(** ** The check marks of the table *)

(** The cells of a row, and of the table, that show the check mark. *)
Definition row_checks (row : Row.t) : nat :=
  count (λ cell, Indicator.icon <$> cell = Some CheckCircleIcon) (Row.cells row).

Definition table_checks (table : Table.t) : nat :=
  sum_list_with row_checks (Table.rows table).

Section table.
Implicit Types (s : Shipment.t) (shipments : list Shipment.t).

Lemma row_checks_uploaded s : row_checks (ShipmentRow s) = uploaded_cells_of s.
Proof.
  unfold row_checks, uploaded_cells_of, ShipmentRow. cbn [Row.cells].
  apply count_fmap_iff. intros dt _. apply cell_check.
Qed.

Lemma table_checks_uploaded shipments :
  table_checks (Dashboard shipments) = uploaded_cells shipments.
Proof.
  unfold table_checks, Dashboard, uploaded_cells. cbn [Table.rows].
  induction shipments as [|s l IH]; [done|].
  rewrite fmap_cons. cbn [sum_list_with]. by rewrite IH, row_checks_uploaded.
Qed.

Lemma length_titles shipments : length (Table.titles (Dashboard shipments)) = 9.
Proof. reflexivity. Qed.

End table.

(** ** The invoice number of a log item *)

Section invoice.
Implicit Types (s : Shipment.t) (shipments : list Shipment.t) (sid : string).

Lemma getInvoiceNumber_unknown shipments sid :
  sid ∉ Shipment.id <$> shipments → getInvoiceNumber shipments sid = sid.
Proof.
  intros Hno. unfold getInvoiceNumber.
  by rewrite (proj2 (find_shipment_None shipments sid) Hno).
Qed.

Lemma getInvoiceNumber_found shipments sid s :
  find_shipment shipments sid = Some s →
  getInvoiceNumber shipments sid
  = if bool_decide (Shipment.invoiceNumber s = "") then sid else Shipment.invoiceNumber s.
Proof.
  intros Hs. unfold getInvoiceNumber. rewrite Hs. simpl. unfold js_or.
  by destruct (Shipment.invoiceNumber s).
Qed.

End invoice.

(** The check marks of the table, as the summary counts them. *)
Lemma table_checks_uploadedDocs_sum `{JsNum num} shipments
    (analyzedData : list (AnalyzedData.t num)) :
  Summary.uploadedDocs (analyticsSummary shipments analyzedData)
  = Z.of_nat (table_checks (Dashboard shipments)).
Proof. by rewrite table_checks_uploaded, uploadedDocs_sum, sum_uploaded_in_cells. Qed.

(** ** The properties of the views *)

#[local] Existing Instance any_outcome.

Section properties.
Context `{JsNum num} `{!Analyzer num} `{!DateFormat}.
Implicit Types (d : Document.t) (shipments : list Shipment.t) (sys : Sys.t num).

(** The check marks of the table are as many as the card
    "Documents Uploaded" says: the cells of [Dashboard] that show the icon
    of an uploaded document are counted by [uploadedDocs]. *)
Theorem table_checks_uploadedDocs shipments (analyzedData : list (AnalyzedData.t num)) :
  Z.of_nat (table_checks (Dashboard shipments))
  = Summary.uploadedDocs (analyticsSummary shipments analyzedData).
Proof. by rewrite (table_checks_uploadedDocs_sum _ analyzedData). Qed.

(** The indicator of a cell tells the status: each status has its
    own icon, the label is the string of the status except for [ERROR],
    which is shown as "Failed", and the tooltip is there exactly for an
    uploaded document whose summary is not empty. *)
Theorem indicator_shows_status d :
  ∃ ind, getStatusIndicator d = Some ind
    ∧ (Indicator.label ind = DocumentStatus_value (Document.status d)
       ↔ Document.status d ≠ ERROR)
    ∧ (∀ d', Indicator.icon <$> getStatusIndicator d' = Some (Indicator.icon ind)
             ↔ Document.status d' = Document.status d)
    ∧ (is_Some (Indicator.tooltip ind)
       ↔ Document.status d = UPLOADED ∧ truthy (Document.analysisSummary d) = true).
Proof.
  destruct (getStatusIndicator_is_Some d) as [ind Hind]. exists ind. split; [done|].
  assert (Indicator.icon <$> getStatusIndicator d = Some (Indicator.icon ind)) as Hicon
    by (by rewrite Hind).
  rewrite icon_getStatusIndicator in Hicon. unfold getStatusIndicator in Hind.
  cbn [cell_document CellDocument.status CellDocument.name CellDocument.analysisSummary]
    in Hind.
  split; [|split].
  - destruct (Document.status d); simplify_eq; simpl; split; (done || congruence).
  - intros d'. rewrite icon_getStatusIndicator, <- Hicon.
    destruct (Document.status d), (Document.status d'); split; (done || congruence).
  - destruct (Document.status d); simplify_eq; simpl;
      try (split; [by intros [? ?]|by intros [? _]]).
    destruct (Document.analysisSummary d) as [a|]; simpl;
      [|split; [by intros [? ?]|by intros [_ ?]]].
    change (truthy (Some a)) with (truthy a).
    destruct (truthy a); simpl; split; (by eauto || by intros [_ ?] || by intros [? ?]).
Qed.

(** The titles of the columns are the three fixed ones and, for
    each document type, its string up to the first parenthesis, trimmed:
    the Bill of Lading shows without its abbreviation.  No two columns have
    the same title. *)
Theorem column_titles_shown shipments :
  Table.titles (Dashboard shipments)
  = ["Invoice #"; "Date"; "Route"; "Commercial Invoice"; "Bill of Lading";
     "Packing List"; "Certificate of Origin"; "Customs Declaration";
     "Settlement Statement"]
  ∧ NoDup (Table.titles (Dashboard shipments))
  ∧ ∀ dt, ∃ rest, DocumentType_value dt = column_title dt +:+ rest.
Proof.
  split; [reflexivity|]. split; [by apply (bool_decide_unpack _)|].
  intros []; [by exists ""|by exists " (BL)"|by exists ""..].
Qed.

(** The log shows for an entry the invoice number its shipment has
    when the log is rendered: the number of the shipment with the entry's
    id, and the id itself when no shipment has it or the number is empty. *)
Theorem getInvoiceNumber_shows_current shipments sid :
  getInvoiceNumber shipments sid
  = match find_shipment shipments sid with
    | Some s => if bool_decide (Shipment.invoiceNumber s = "") then sid
                else Shipment.invoiceNumber s
    | None => sid
    end.
Proof.
  destruct (find_shipment shipments sid) as [s|] eqn:Hs;
    [by apply getInvoiceNumber_found|].
  by apply getInvoiceNumber_unknown, find_shipment_None.
Qed.

(** In every reachable state the table can be rendered: it has a
    row per initial shipment, the keys of the rows are distinct, and every
    row has its six cells, none of them for a missing slot. *)
Theorem dashboard_of_reachable sys :
  reachable sys →
  let table := Dashboard (AppState.shipments (Sys.app sys)) in
  length (Table.rows table) = 5
  ∧ NoDup (Table.keys table)
  ∧ Forall (λ row, length (Row.cells row) = 6 ∧ Forall is_Some (Row.cells row))
      (Table.rows table).
Proof.
  intros Hr table. destruct (reachable_shipments_kept _ Hr) as [Hwf Hids].
  split; [|split].
  - unfold table, Dashboard. cbn [Table.rows].
    by rewrite length_fmap, <- (length_fmap Shipment.id), Hids.
  - by apply reachable_ids_NoDup.
  - unfold table, Dashboard. cbn [Table.rows]. rewrite Forall_fmap.
    eapply Forall_impl; [done|]. intros s Hs. split; [done|by apply cells_render].
Qed.

(** In every reachable state every item of the log shows the check
    mark: the icon of a failed analysis is never shown, because a failed
    upload is not logged.  The placeholder is shown until an upload has
    succeeded. *)
Theorem log_of_reachable sys :
  reachable sys →
  match Logs.body (UploadLogs (AppState.uploadLogs (Sys.app sys))
                      (AppState.shipments (Sys.app sys))) with
  | inl text => AppState.analyzedData (Sys.app sys) = [] ∧ text.1 = "No recent activity"
  | inr items =>
      length items = length (AppState.analyzedData (Sys.app sys))
      ∧ Forall (λ item, LogItem.icon item = CheckCircleIcon) items
  end.
Proof.
  intros [Heq Hall]%reachable_logs_match. unfold UploadLogs. cbn [Logs.body].
  apply (f_equal length) in Heq. rewrite length_reverse, !length_fmap in Heq.
  case_bool_decide as Hlen.
  - split; [|done]. apply nil_length_inv. congruence.
  - split; [by rewrite length_fmap|]. rewrite Forall_fmap.
    eapply Forall_impl; [done|]. intros l Hl. simpl. by rewrite decide_True.
Qed.

End properties.

Lemma dashboard_of_reachable_witness :
  let table := Dashboard (AppState.shipments (Sys.app demo_settled)) in
  length (Table.rows table) = 5
  ∧ NoDup (Table.keys table)
  ∧ Forall (λ row, length (Row.cells row) = 6 ∧ Forall is_Some (Row.cells row))
      (Table.rows table).
Proof. exact (dashboard_of_reachable demo_settled demo_settled_reachable). Defined.

Lemma log_of_reachable_witness :
  match Logs.body (UploadLogs (AppState.uploadLogs (Sys.app demo_settled))
                      (AppState.shipments (Sys.app demo_settled))) with
  | inl text => AppState.analyzedData (Sys.app demo_settled) = []
                ∧ text.1 = "No recent activity"
  | inr items =>
      length items = length (AppState.analyzedData (Sys.app demo_settled))
      ∧ Forall (λ item, LogItem.icon item = CheckCircleIcon) items
  end.
Proof. exact (log_of_reachable demo_settled demo_settled_reachable). Defined.

Example demo_views :
  (log_item (num:=Z) (AppState.shipments (Sys.app demo_settled))
     <$> AppState.uploadLogs (Sys.app demo_settled))
  = [LogItem.mk "log-1760000401500" CheckCircleIcon "invoice.pdf" "INSCG00250830021"
       "Commercial Invoice" "2025-10-09T08:00:01.500Z" "Admin User"]
  ∧ table_checks (Dashboard (AppState.shipments (Sys.app demo_settled))) = 6.
Proof. by vm_compute. Qed.
