(* ===== verification/Overview.v ===== *)
(** * Overview: the summary cards, on the numbers of JavaScript

    [src/components/AnalyticsOverview.tsx] shows the four figures of the
    summary, three in a [StatCard], and a completion rate,
    [((uploadedDocs / totalDocs) * 100).toFixed(1)].  A number of JavaScript is a binary64 float; this file
    computes on the kernel's primitive floats, which are binary64 floats
    with the same rounding, so what is computed here is bit for bit what
    the browser computes.

    - [double_JsNum] is the instance of [JsNum] on floats: the summary of
      the file Analytics, instantiated with it, adds amounts as the
      program does.
    - [toFixed] follows the definition of [Number.prototype.toFixed]: the
      float is taken at its exact value [m * 2^e] and rounded to the nearest
      multiple of [10^-f], to the larger one when two are as near.
    - [exact_percentage] is the reference: the rate computed on rationals.

    Numbers of magnitude [10^21] and more, which [toFixed] prints in
    exponent form, have no string in the model ([None]).  The total value
    is printed by [Intl.NumberFormat] in the locale of the browser: the
    card takes its text from the interface [NumberFormat]. *)

From Stdlib Require Import Floats ZArith Uint63.
From stdpp Require Import base tactics option list strings pretty.
From S2P Require Import Prelude Types Constants Analytics.

(** ** Numbers *)

(** [ToBoolean] of a number: [0], [-0] and [NaN] are falsy. *)
#[export] Instance double_truthy : Truthy float :=
  λ x, negb (PrimFloat.eqb x 0 || PrimFloat.is_nan x).

#[export] Instance double_JsNum : JsNum float := {
  num_zero := 0%float;
  num_add := PrimFloat.add;
  num_truthy := double_truthy;
}.

(** An integer of magnitude below 2^53 as a number. *)
Definition of_Z (z : Z) : float :=
  if (z <? 0)%Z then PrimFloat.opp (PrimFloat.of_uint63 (Uint63.of_Z (- z)))
  else PrimFloat.of_uint63 (Uint63.of_Z z).

(** The decimal fraction [n / d], as the number a literal denotes. *)
Definition decimal (n d : Z) : float := PrimFloat.div (of_Z n) (of_Z d).

(** ** [toFixed] *)

(** The integer nearest to [num / den], the larger one of two. *)
Definition round_half_up (num den : Z) : Z := ((2 * num + den) / (2 * den))%Z.

(** The integer [n] for which [n / 10^f] is nearest to [m * 2^e]. *)
Definition fixed_digits (f : nat) (m : positive) (e : Z) : Z :=
  if (0 <=? e)%Z then (Z.pos m * 2 ^ e * 10 ^ Z.of_nat f)%Z
  else round_half_up (Z.pos m * 10 ^ Z.of_nat f) (2 ^ (- e)).

(** [m * 2^e < 10^21] *)
Definition below_1e21 (m : positive) (e : Z) : bool :=
  if (0 <=? e)%Z then (Z.pos m * 2 ^ e <? 10 ^ 21)%Z
  else (Z.pos m <? 10 ^ 21 * 2 ^ (- e))%Z.

Fixpoint zeros (n : nat) : string :=
  match n with O => EmptyString | S n => String (Ascii.ascii_of_nat 48) (zeros n) end.

(** The digits of [k], padded with zeros to [f] places. *)
Definition pad (f : nat) (k : Z) : string :=
  let digits := pretty (Z.to_N k) in
  zeros (f - String.length digits) +:+ digits.

(** The digits of [n] with the point [f] places from the right. *)
Definition fixed_string (f : nat) (negative : bool) (n : Z) : string :=
  (if negative then "-" else "")
  +:+ pretty (Z.to_N (n / 10 ^ Z.of_nat f))
  +:+ (match f with O => "" | _ => "." +:+ pad f (n mod 10 ^ Z.of_nat f) end).

(** [x.toFixed(f)] *)
Definition toFixed (f : nat) (x : float) : option string :=
  match Prim2SF x with
  | S754_nan => Some "NaN"
  | S754_infinity negative => Some (if negative then "-Infinity" else "Infinity")
  | S754_zero _ => Some (fixed_string f false 0)
  | S754_finite negative m e =>
      if below_1e21 m e then Some (fixed_string f negative (fixed_digits f m e))
      else None
  end.

(** ** [AnalyticsOverview] *)

(** [totalDocs > 0 ? ((uploadedDocs / totalDocs) * 100).toFixed(1) : 0];
    the number [0] of the second branch is shown as the text [0]. *)
Definition completionPercentage (totalDocs uploadedDocs : Z) : option string :=
  if (0 <? totalDocs)%Z then
    toFixed 1 (PrimFloat.mul (PrimFloat.div (of_Z uploadedDocs) (of_Z totalDocs)) (of_Z 100))
  else Some "0".

(** What a [StatCard] shows: its title and its value, which is a text or a
    number. *)
Module StatCard.

Record t := mk {
  title : string;
  value : string + Z;
}.

End StatCard.

(** [StatCard]: the component takes a [description] with its props and
    renders the title and the value only. *)
Definition StatCard (title : string) (value : string + Z) (description : string)
  : StatCard.t :=
  StatCard.mk title value.

Module Cards.

Record t := mk {
  heading : string;
  totalValue : StatCard.t;
  uploaded : StatCard.t;
  missing : StatCard.t;
  completionTitle : string;
  completion : option string;
  ofTotal : string;
  barWidth : option string;
}.

End Cards.

(** The three cards and the completion rate, from the summary.  The total
    value is printed by the locale, after a dollar sign. *)
Definition AnalyticsOverview `{NumberFormat num} (summary : Summary.t num) : Cards.t :=
  let totalDocs := Summary.totalDocs summary in
  let completion := completionPercentage totalDocs (Summary.uploadedDocs summary) in
  Cards.mk
    "Dashboard Overview"
    (StatCard "Total Shipment Value"
       (inl ("$" +:+ numberFormat (Summary.totalValue summary)))
       "From analyzed documents")
    (StatCard "Documents Uploaded" (inr (Summary.uploadedDocs summary)) "All time")
    (StatCard "Documents Missing" (inr (Summary.missingDocs summary)) "Needs attention")
    "Completion Rate"
    ((λ p, p +:+ "%") <$> completion)
    ("of " +:+ pretty totalDocs +:+ " total docs")
    ((λ p, p +:+ "%") <$> completion).

(** ** The reference *)

(** The rate [100 * uploadedDocs / totalDocs] of the rationals, rounded to
    one decimal. *)
Definition exact_percentage (totalDocs uploadedDocs : Z) : string :=
  fixed_string 1 false (round_half_up (uploadedDocs * 1000) totalDocs).

(** The pairs [(totalDocs, uploadedDocs)] of a dashboard of up to [n]
    shipments. *)
Definition dashboards (n : nat) : list (Z * Z) :=
  k ← seqZ 1 (Z.of_nat n); (λ u, (6 * k, u)%Z) <$> seqZ 0 (6 * k + 1).

(** ** Amounts whose sum depends on the order *)

Definition amount (n d : Z) : AnalyzedData.t float :=
  AnalyzedData.mk "" None (Some (decimal n d)) None None None.

Definition tenths_up : list (AnalyzedData.t float) := [amount 1 10; amount 2 10; amount 3 10].
Definition tenths_down : list (AnalyzedData.t float) := [amount 3 10; amount 2 10; amount 1 10].

(** ** The completion rate is the exact one *)

Section completion.

(** Every dashboard of up to ten shipments, by evaluation. *)
Lemma dashboards_exact :
  forallb (λ '(totalDocs, uploadedDocs),
    bool_decide (completionPercentage totalDocs uploadedDocs
                 = Some (exact_percentage totalDocs uploadedDocs)))
    (dashboards 10) = true.
Proof. vm_compute. reflexivity. Qed.

Lemma elem_of_dashboards n (k u : Z) :
  (1 ≤ k ≤ Z.of_nat n)%Z → (0 ≤ u ≤ 6 * k)%Z → ((6 * k)%Z, u) ∈ dashboards n.
Proof.
  intros Hk Hu. unfold dashboards. apply list_elem_of_bind. exists k.
  split; [|apply elem_of_seqZ; lia]. apply list_elem_of_fmap. exists u.
  split; [done|apply elem_of_seqZ; lia].
Qed.

Lemma completionPercentage_exact (k u : Z) :
  (1 ≤ k ≤ 10)%Z → (0 ≤ u ≤ 6 * k)%Z →
  completionPercentage (6 * k) u = Some (exact_percentage (6 * k) u).
Proof.
  intros Hk Hu. pose proof dashboards_exact as Hall.
  rewrite forallb_forall in Hall.
  assert (In ((6 * k)%Z, u) (dashboards 10)) as Hin
    by (apply list_elem_of_In, (elem_of_dashboards 10); lia).
  apply Hall in Hin. cbv beta iota in Hin. by apply bool_decide_eq_true in Hin.
Qed.

(** The digits of the exact rate: the tenths of a percent, rounded. *)
Lemma round_half_up_nearest (num den : Z) :
  (0 < den)%Z →
  let n := round_half_up num den in
  (2 * den * n ≤ 2 * num + den < 2 * den * (n + 1))%Z.
Proof.
  intros Hden n. unfold n, round_half_up.
  pose proof (Z.div_mod (2 * num + den) (2 * den) ltac:(lia)) as Hdm.
  pose proof (Z.mod_pos_bound (2 * num + den) (2 * den) ltac:(lia)) as Hlt.
  set (q := ((2 * num + den) / (2 * den))%Z) in *.
  set (r := ((2 * num + den) mod (2 * den))%Z) in *. lia.
Qed.

End completion.

(** The rate the card shows, for a summary of one to ten shipments. *)
Lemma completion_analyticsSummary `{JsNum num, NumberFormat num} shipments
    (analyzedData : list (AnalyzedData.t num)) :
  1 ≤ length shipments ≤ 10 →
  let summary := analyticsSummary shipments analyzedData in
  Cards.completion (AnalyticsOverview summary)
  = Some (fixed_string 1 false
            (round_half_up (Summary.uploadedDocs summary * 1000)
                           (Summary.totalDocs summary)) +:+ "%").
Proof.
  intros Hlen summary. unfold summary, AnalyticsOverview.
  cbn [Cards.completion]. rewrite totalDocs_length, uploadedDocs_sum.
  pose proof (sum_uploaded_in_le shipments) as Hle.
  replace (Z.of_nat (length shipments) * 6)%Z
    with (6 * Z.of_nat (length shipments))%Z by lia.
  by rewrite completionPercentage_exact by lia.
Qed.

(** ** The properties of the cards *)

Section properties.
Context `{JsNum num, NumberFormat num}.
Implicit Types (shipments : list Shipment.t) (analyzedData : list (AnalyzedData.t num)).

(** C34: for a dashboard of one to ten shipments the completion rate
    that is shown, computed on floats as [(uploadedDocs / totalDocs) * 100]
    and printed by [toFixed(1)], is the exact rate rounded to one decimal:
    its tenths are the integer nearest to [1000 * uploadedDocs / totalDocs],
    so the two roundings of the float computation never show. *)
Theorem completion_rate_exact shipments analyzedData :
  1 ≤ length shipments ≤ 10 →
  let summary := analyticsSummary shipments analyzedData in
  let tenths := round_half_up (Summary.uploadedDocs summary * 1000)
                              (Summary.totalDocs summary) in
  Cards.completion (AnalyticsOverview summary)
  = Some (fixed_string 1 false tenths +:+ "%")
  ∧ (2 * Summary.totalDocs summary * tenths
     ≤ 2000 * Summary.uploadedDocs summary + Summary.totalDocs summary
     < 2 * Summary.totalDocs summary * (tenths + 1))%Z.
Proof.
  intros Hlen summary tenths. split; [by apply completion_analyticsSummary|].
  unfold tenths, summary. rewrite totalDocs_length.
  set (u := Summary.uploadedDocs _).
  pose proof (round_half_up_nearest (u * 1000) (Z.of_nat (length shipments) * 6)
                ltac:(lia)) as Hn.
  cbv zeta in Hn. set (n := round_half_up _ _) in *. lia.
Qed.

End properties.

Lemma completion_rate_exact_witness :
  Cards.completion (AnalyticsOverview (analyticsSummary (num:=Z) INITIAL_SHIPMENTS []))
  = Some "16.7%"
  ∧ (2 * 30 * 167 ≤ 2000 * 5 + 30 < 2 * 30 * (167 + 1))%Z.
Proof.
  apply (completion_rate_exact (num:=Z) INITIAL_SHIPMENTS []). simpl. lia.
Defined.

(** On the numbers of JavaScript the total value depends on the
    order of the analysed data: the amounts 0.1, 0.2 and 0.3 add up to
    5404319552844596 * 2^-53 in one order and to 5404319552844595 * 2^-53
    in the other. *)
Theorem totalValue_order_matters :
  tenths_up ≡ₚ tenths_down
  ∧ Prim2SF (totalValue_of tenths_up) = S754_finite false 5404319552844596 (-53)
  ∧ Prim2SF (totalValue_of tenths_down) = S754_finite false 5404319552844595 (-53).
Proof.
  split; [|split; by vm_compute].
  exact (Permutation_rev tenths_up).
Qed.

(** [toFixed] on the values whose rounding surprises. *)
Example toFixed_examples :
  toFixed 2 (decimal 1005 1000) = Some "1.00" ∧ toFixed 1 (decimal 1 4) = Some "0.3"
  ∧ toFixed 0 (decimal 5 2) = Some "3" ∧ toFixed 2 (decimal (-1) 1000) = Some "-0.00"
  ∧ toFixed 20 (totalValue_of tenths_up) = Some "0.60000000000000008882".
Proof. by vm_compute. Qed.

(** Without shipments the rate is the number [0], shown without a
    decimal; with shipments and no upload it is [0.0]. *)
Example completion_rate_zero :
  Cards.completion (AnalyticsOverview (analyticsSummary (num:=Z) [] [])) = Some "0%"
  ∧ completionPercentage 30 0 = Some "0.0".
Proof. by vm_compute. Qed.
