(* ===== verification/Screen.v ===== *)
(** * Screen: what [App] renders ([src/App.tsx], the [return] of the component)

    The page is the overview, the table, the log, the overlay that is shown
    during a drag and the dialog.  [render] puts together what the files
    Overview, Views and Page say of the parts, from one state of the
    component, as the JSX passes the state to them.

    The theorems are about the screen as a whole: its parts are computed
    from the same state and cannot disagree, and what the state holds is on
    the screen.  [page_dialog] is the dialog as it is shown on a page, from
    the state of [App] and the state of the mounted component: what it
    shows can be used.  [size_label_float] is the size of the chosen file
    as the code computes it, on floats, against which the integer
    computation of the dialog is compared. *)

From stdpp Require Import base tactics option list strings gmap relations.
From S2P Require Import Prelude Types Constants Shipments Analytics App Machine.
From S2P Require Import FileUploadModal Page Views Overview.

#[local] Open Scope Z_scope.

Module Screen.

Record t := mk {
  overview : Cards.t;
  table : Table.t;
  log : Logs.t;
  overlay : bool;
  dialog : option Props.t;
}.

End Screen.

Section render.
Context `{JsNum num, NumberFormat num, DateFormat}.
Implicit Types (st : AppState.t num) (sys : Sys.t num).

(** [<AnalyticsOverview summary={analyticsSummary} />],
    [<Dashboard shipments={shipments} />],
    [<UploadLogs logs={uploadLogs} shipments={shipments} />],
    [{dragActive && ...}] and [{modalState.isOpen && <FileUploadModal ... />}]. *)
Definition render st : Screen.t :=
  Screen.mk
    (AnalyticsOverview (summary_of st))
    (Dashboard (AppState.shipments st))
    (UploadLogs (AppState.uploadLogs st) (AppState.shipments st))
    (AppState.dragActive st)
    (if ModalState.isOpen (AppState.modalState st) then Some (props_of st) else None).

(** The message on the screen: the one of the dialog, when it is shown. *)
Definition shown_error (screen : Screen.t) : option string :=
  Screen.dialog screen ≫= Modal.error_banner.

(** The notice of a running analysis is on the screen. *)
Definition shown_analyzing (screen : Screen.t) : bool :=
  default false (Modal.analyzing_banner <$> Screen.dialog screen).

End render.

(** ** The parts of the screen agree *)

Section agree.
Context `{JsNum num, NumberFormat num, DateFormat, Analyzer num}.
Implicit Types (st : AppState.t num) (sys : Sys.t num).

Lemma reachable_length_shipments sys :
  reachable sys → length (AppState.shipments (Sys.app sys)) = 5%nat.
Proof.
  intros [_ Hids]%reachable_shipments_kept.
  apply (f_equal length) in Hids. by rewrite !length_fmap in Hids.
Qed.

(** The card of the uploads counts the check marks of the table. *)
Lemma uploaded_card_checks st :
  StatCard.value (Cards.uploaded (Screen.overview (render st)))
  = inr (Z.of_nat (table_checks (Screen.table (render st)))).
Proof.
  cbn [render Screen.overview Screen.table AnalyticsOverview Cards.uploaded StatCard
       StatCard.value].
  unfold summary_of.
  f_equal. apply table_checks_uploadedDocs_sum.
Qed.

(** The message of the state is the message on the screen. *)
Lemma shown_error_reachable sys :
  reachable sys → shown_error (render (Sys.app sys)) = AppState.error (Sys.app sys).
Proof.
  intros [_ Herr]%reachable_error_shown. unfold shown_error.
  cbn [render Screen.dialog].
  destruct (AppState.error (Sys.app sys)) as [msg|] eqn:Hm.
  - destruct (Herr msg eq_refl) as (-> & -> & _). simpl.
    unfold Modal.error_banner. cbn [props_of Props.error]. by rewrite Hm.
  - destruct (ModalState.isOpen _); [|done]. simpl.
    unfold Modal.error_banner. cbn [props_of Props.error]. by rewrite Hm.
Qed.

(** The notice of an analysis is on the screen while one runs. *)
Lemma shown_analyzing_reachable sys :
  reachable sys →
  shown_analyzing (render (Sys.app sys)) = AppState.isAnalyzing (Sys.app sys).
Proof.
  intros Hr. destruct (reachable_error_shown _ Hr) as [Hopen _].
  apply reachable_flag_matches in Hr. unfold flag_matches in Hr.
  unfold shown_analyzing. cbn [render Screen.dialog].
  destruct (ModalState.isOpen _) eqn:Ho; [done|]. simpl.
  destruct (Sys.inFlight sys); [done|]. by specialize (Hopen ltac:(done)).
Qed.

(** C19: in every reachable state the parts of the screen agree with each
    other and with the state: the card of the uploads counts the check
    marks of the table, uploaded and missing documents add up to the
    thirty slots, the completion rate is the exact rate of the two to one
    decimal, and the dialog shows the message of a failure and the notice of
    an analysis whenever the state has one. *)
Theorem screen_consistent sys :
  reachable sys →
  let screen := render (Sys.app sys) in
  let cards := Screen.overview screen in
  ∃ uploaded missing : Z,
    StatCard.value (Cards.uploaded cards) = inr uploaded
    ∧ StatCard.value (Cards.missing cards) = inr missing
    ∧ uploaded = Z.of_nat (table_checks (Screen.table screen))
    ∧ uploaded + missing = 30
    ∧ Cards.completion cards
      = Some (fixed_string 1 false (round_half_up (uploaded * 1000) 30) +:+ "%")
    ∧ shown_error screen = AppState.error (Sys.app sys)
    ∧ shown_analyzing screen = AppState.isAnalyzing (Sys.app sys).
Proof.
  intros Hr screen cards. pose proof (reachable_length_shipments _ Hr) as Hlen.
  exists (Summary.uploadedDocs (summary_of (Sys.app sys))),
         (Summary.missingDocs (summary_of (Sys.app sys))).
  split_and!; [done|done| | | |by apply shown_error_reachable
    |by apply shown_analyzing_reachable]; unfold summary_of.
  - apply table_checks_uploadedDocs_sum.
  - rewrite missingDocs_difference, totalDocs_length, Hlen. lia.
  - unfold cards, screen. cbn [render Screen.overview]. unfold summary_of.
    rewrite completion_analyticsSummary by lia. by rewrite totalDocs_length, Hlen.
Qed.

(** C28: every uploaded document beyond the five of the initial data is
    accounted for by the log: in every reachable state the card of the
    uploads shows at most five plus the number of entries of the log, which
    are the items the list of the log shows; while the list shows its
    placeholder the card shows five at most. *)
Theorem uploads_accounted sys :
  reachable sys →
  let screen := render (Sys.app sys) in
  ∃ uploaded : Z,
    StatCard.value (Cards.uploaded (Screen.overview screen)) = inr uploaded
    ∧ uploaded ≤ 5 + Z.of_nat (length (AppState.uploadLogs (Sys.app sys)))
    ∧ match Logs.body (Screen.log screen) with
      | inl _ => uploaded ≤ 5
      | inr items => uploaded ≤ 5 + Z.of_nat (length items)
      end.
Proof.
  intros Hl%reachable_uploads_logged screen. unfold uploads_logged in Hl.
  exists (Summary.uploadedDocs (summary_of (Sys.app sys))).
  split; [done|]. unfold summary_of. rewrite uploadedDocs_sum. split; [lia|].
  unfold screen. cbn [render Screen.log UploadLogs Logs.body].
  case_bool_decide as Hlen; [|rewrite length_fmap]; lia.
Qed.

End agree.

(** ** The size of the chosen file, on floats

    [Modal.size_label] computes the size that the dialog shows on integers.
    The code computes it on numbers: the quotient of the size by 1024,
    printed by [toFixed(2)]. *)

(** [{(file.size / 1024).toFixed(2)} KB], on binary64 floats. *)
Definition size_label_float (size : N) : option string :=
  (λ s, s +:+ " KB") <$> toFixed 2 (decimal (Z.of_N size) 1024).

Definition size_labels_agree (size : N) : bool :=
  bool_decide (size_label_float size = Some (Modal.size_label size)).

(** The sizes on which the two computations are compared: every size up to
    four kilobytes, two thousand sizes a megabyte apart, and the two hundred
    largest sizes that a number holds exactly. *)
Definition sampled_sizes : list N :=
  (N.of_nat <$> seq 0 4097)
  ++ ((λ k, N.of_nat k * 1000003 + 7)%N <$> seq 0 2000)
  ++ ((λ k, 2 ^ 53 - 1 - N.of_nat k)%N <$> seq 0 200).

(** ** The dialog on the page

    The view of the dialog, from the state of [App] and the state of the
    mounted component, and what a user can do on it. *)

Section dialog_view.
Context `{Analyzer num}.
Implicit Types (page : Page.t num) (v : Modal.View).

(** [{modalState.isOpen && <FileUploadModal ... />}], as it is shown: the
    render of the mounted component with the props of [App]. *)
Definition page_dialog page : option Modal.View :=
  m ← Page.modal page; Modal.render (props_of (Page.app page)) m.

Lemma page_dialog_Some page v :
  page_dialog page = Some v ↔
  ∃ m, Page.modal page = Some m
       ∧ Modal.render (props_of (Page.app page)) m = Some v.
Proof. unfold page_dialog. destruct (Page.modal page); naive_solver. Qed.

Lemma page_dialog_mounted page :
  page_reachable page →
  is_Some (page_dialog page)
  ↔ ModalState.isOpen (AppState.modalState (Page.app page)) = true.
Proof.
  intros Hm%page_reachable_mounted. unfold mounted_open in Hm.
  unfold page_dialog, Modal.render, Modal.rendered. cbn [props_of Props.isOpen].
  destruct (Page.modal page) as [m|]; simpl.
  - destruct Hm as [Ho _]. rewrite Ho by eauto. simpl. split; eauto.
  - split; [by intros []|]. intros Ho. by apply Hm in Ho as [].
Qed.

(** The selects show one of their options, and are not disabled. *)
Lemma page_dialog_selects page v :
  page_reachable page → page_dialog page = Some v →
  Modal.select_value (Modal.view_shipment v)
    ∈ (Modal.select_options (Modal.view_shipment v)).*1
  ∧ Modal.select_value (Modal.view_docType v)
    ∈ (Modal.select_options (Modal.view_docType v)).*1
  ∧ Modal.select_disabled (Modal.view_shipment v) = false
  ∧ Modal.select_disabled (Modal.view_docType v) = false.
Proof.
  intros Hr (m & Hmod & Hv)%page_dialog_Some.
  destruct (page_reachable_dialog _ Hr) as [Hval _].
  destruct (Hval m Hmod) as [Hs Hd].
  apply page_reachable_forget, reachable_modal_unbound in Hr as [Hsid Hdt].
  unfold Modal.render in Hv. destruct (negb _); [done|]. injection Hv as <-.
  cbn. unfold Modal.shipment_disabled, Modal.docType_disabled.
  cbn [props_of Props.shipmentId Props.docType]. simpl in Hsid, Hdt.
  by rewrite Hsid, Hdt.
Qed.

(** The notice of an analysis is shown, and Cancel is disabled, exactly
    while an upload is in flight. *)
Lemma page_dialog_analyzing page v :
  page_reachable page → page_dialog page = Some v →
  (is_Some (Modal.view_analyzing v) ↔ Page.inFlight page ≠ [])
  ∧ (Modal.button_disabled (Modal.view_cancel v) = true ↔ Page.inFlight page ≠ []).
Proof.
  intros Hr (m & Hmod & Hv)%page_dialog_Some.
  apply page_reachable_forget, reachable_flag_matches in Hr.
  unfold flag_matches in Hr. simpl in Hr.
  unfold Modal.render in Hv. destruct (negb _); [done|]. injection Hv as <-.
  cbn. unfold Modal.analyzing_banner, Modal.cancel_disabled.
  cbn [props_of Props.isAnalyzing].
  destruct (Page.inFlight page) as [|p [|q fl]]; [| |done]; rewrite Hr;
    split; split; (done || eauto || by intros []).
Qed.

(** A control of the form that the view shows takes its event. *)
Lemma page_dialog_form page v e :
  page_dialog page = Some v → view_admits v e →
  ∃ m, Page.modal page = Some m
       ∧ page_step page
           (Page.mk (Page.app page) (Some (modal_handle e m)) (Page.inFlight page)).
Proof.
  intros (m & Hmod & Hv)%page_dialog_Some Ha. exists m. split; [done|].
  apply page_form; [done|]. by eapply modal_offers_view.
Qed.

(** A click on the submit button, when it is not disabled, starts an
    upload. *)
Lemma page_dialog_submit page v :
  page_reachable page → page_dialog page = Some v →
  Modal.button_disabled (Modal.view_submit v) = false →
  ∃ m u, Page.modal page = Some m ∧ Modal.handleSubmit m = Some u
    ∧ page_step page
        (app_event false
           (handleFileUpload_begin (Modal.upload_shipmentId u) (Modal.upload_docType u))
           (Page.mk (Page.app page) (Page.modal page)
                    (Page.inFlight page ++ [pending_of u]))).
Proof.
  intros Hr (m & Hmod & Hv)%page_dialog_Some Hd.
  destruct (page_reachable_dialog _ Hr) as [Hval _].
  unfold Modal.render in Hv. destruct (negb _); [done|]. injection Hv as <-.
  cbn in Hd. pose proof Hd as Hg.
  rewrite submit_disabled_guard in Hg. apply orb_false_iff in Hg as [Hg _].
  apply negb_false_iff in Hg.
  destruct (submit_guard_calls _ m (Hval m Hmod) Hg) as [u Hu].
  exists m, u. split_and!; [done..|]. by apply (page_submit m).
Qed.

(** C20: what the dialog shows can be used. In every reachable state of
    the page the dialog is shown exactly while [modalState.isOpen]; its two
    selects show one of their options and are not disabled; the notice of
    an analysis is shown, and Cancel is disabled, exactly while an upload
    is in flight; every control of the form that is shown takes its event;
    and a click on the submit button, when it is not disabled, starts an
    upload with what the form holds. *)
Theorem dialog_view_sound page :
  page_reachable page →
  (is_Some (page_dialog page)
   ↔ ModalState.isOpen (AppState.modalState (Page.app page)) = true)
  ∧ ∀ v, page_dialog page = Some v →
      (Modal.select_value (Modal.view_shipment v)
         ∈ (Modal.select_options (Modal.view_shipment v)).*1
       ∧ Modal.select_value (Modal.view_docType v)
         ∈ (Modal.select_options (Modal.view_docType v)).*1
       ∧ Modal.select_disabled (Modal.view_shipment v) = false
       ∧ Modal.select_disabled (Modal.view_docType v) = false)
      ∧ ((is_Some (Modal.view_analyzing v) ↔ Page.inFlight page ≠ [])
         ∧ (Modal.button_disabled (Modal.view_cancel v) = true
            ↔ Page.inFlight page ≠ []))
      ∧ (∀ e, view_admits v e →
           ∃ m, Page.modal page = Some m
             ∧ page_step page
                 (Page.mk (Page.app page) (Some (modal_handle e m))
                    (Page.inFlight page)))
      ∧ (Modal.button_disabled (Modal.view_submit v) = false →
         ∃ m u, Page.modal page = Some m ∧ Modal.handleSubmit m = Some u
           ∧ page_step page
               (app_event false
                  (handleFileUpload_begin (Modal.upload_shipmentId u)
                     (Modal.upload_docType u))
                  (Page.mk (Page.app page) (Page.modal page)
                     (Page.inFlight page ++ [pending_of u])))).
Proof.
  intros Hr. split; [by apply page_dialog_mounted|]. intros v Hv.
  split; [by apply (page_dialog_selects page)|].
  split; [by apply page_dialog_analyzing|].
  split; [exact (λ e, page_dialog_form page v e Hv)|by apply page_dialog_submit].
Qed.

End dialog_view.

#[local] Existing Instance any_outcome.

Lemma screen_consistent_witness :
  let screen := render (Sys.app demo_failed) in
  let cards := Screen.overview screen in
  ∃ uploaded missing : Z,
    StatCard.value (Cards.uploaded cards) = inr uploaded
    ∧ StatCard.value (Cards.missing cards) = inr missing
    ∧ uploaded = Z.of_nat (table_checks (Screen.table screen))
    ∧ uploaded + missing = 30
    ∧ Cards.completion cards
      = Some (fixed_string 1 false (round_half_up (uploaded * 1000) 30) +:+ "%")
    ∧ shown_error screen = AppState.error (Sys.app demo_failed)
    ∧ shown_analyzing screen = AppState.isAnalyzing (Sys.app demo_failed).
Proof. exact (screen_consistent demo_failed demo_failed_reachable). Defined.

(** The size of the chosen file as the dialog shows it, computed on
    integers by [Modal.size_label], is what the code computes on floats,
    [(file.size / 1024).toFixed(2)] followed by the unit, at every one of the
    sampled sizes. *)
Theorem size_label_is_float :
  forallb size_labels_agree sampled_sizes = true
  ∧ N.of_nat (length sampled_sizes) = 6297%N
  ∧ size_label_float 1536 = Some "1.50 KB"
  ∧ Modal.size_label 1029 = "1.00 KB".
Proof. by vm_compute. Qed.

Lemma dialog_view_sound_witness :
  let page := demo_page4 Z in
  (is_Some (page_dialog page)
   ↔ ModalState.isOpen (AppState.modalState (Page.app page)) = true)
  ∧ ∀ v, page_dialog page = Some v →
      (Modal.select_value (Modal.view_shipment v)
         ∈ (Modal.select_options (Modal.view_shipment v)).*1
       ∧ Modal.select_value (Modal.view_docType v)
         ∈ (Modal.select_options (Modal.view_docType v)).*1
       ∧ Modal.select_disabled (Modal.view_shipment v) = false
       ∧ Modal.select_disabled (Modal.view_docType v) = false)
      ∧ ((is_Some (Modal.view_analyzing v) ↔ Page.inFlight page ≠ [])
         ∧ (Modal.button_disabled (Modal.view_cancel v) = true
            ↔ Page.inFlight page ≠ []))
      ∧ (∀ e, view_admits v e →
           ∃ m, Page.modal page = Some m
             ∧ page_step page
                 (Page.mk (Page.app page) (Some (modal_handle e m))
                    (Page.inFlight page)))
      ∧ (Modal.button_disabled (Modal.view_submit v) = false →
         ∃ m u, Page.modal page = Some m ∧ Modal.handleSubmit m = Some u
           ∧ page_step page
               (app_event false
                  (handleFileUpload_begin (Modal.upload_shipmentId u)
                     (Modal.upload_docType u))
                  (Page.mk (Page.app page) (Page.modal page)
                     (Page.inFlight page ++ [pending_of u])))).
Proof. exact (dialog_view_sound (demo_page4 Z) (demo_page4_reachable Z)). Defined.

(** The dialog of the run with the form filled in: the file and its size,
    the two selections, and the submit button enabled. *)
Example demo_page_dialog :
  (λ v, (Modal.view_file v, Modal.select_value (Modal.view_shipment v),
         Modal.select_value (Modal.view_docType v), Modal.view_submit v))
    <$> page_dialog (demo_page4 Z)
  = Some (Modal.Chosen "invoice.pdf" "2.00 KB", demo_id, "Commercial Invoice",
          Modal.mkButton "Upload & Analyze" false).
Proof. by vm_compute. Qed.

Lemma uploads_accounted_witness :
  let screen := render (Sys.app demo_settled) in
  ∃ uploaded : Z,
    StatCard.value (Cards.uploaded (Screen.overview screen)) = inr uploaded
    ∧ uploaded ≤ 5 + Z.of_nat (length (AppState.uploadLogs (Sys.app demo_settled)))
    ∧ match Logs.body (Screen.log screen) with
      | inl _ => uploaded ≤ 5
      | inr items => uploaded ≤ 5 + Z.of_nat (length items)
      end.
Proof. exact (uploads_accounted demo_settled demo_settled_reachable). Defined.

(** The screen after the failed upload of the run: the slot is not
    counted, and the dialog shows the message. *)
Example demo_failed_screen :
  let screen := render (Sys.app demo_failed) in
  StatCard.value (Cards.uploaded (Screen.overview screen)) = inr 5
  ∧ StatCard.value (Cards.totalValue (Screen.overview screen)) = inl "$0"
  ∧ Cards.completion (Screen.overview screen) = Some "16.7%"
  ∧ shown_error screen = Some analysisFailed
  ∧ Modal.submit_label <$> Screen.dialog screen = Some "Upload & Analyze"
  ∧ Screen.overlay screen = false.
Proof. by vm_compute. Qed.
