(* ===== verification/Parsed.v ===== *)
(** * Parsed: the value of a response and the schema it is asked to have
    ([src/services/geminiService.ts], the request and the [try] block)

    [analyzeDocumentContent] asks the remote model for JSON of a given
    schema, parses the text of the response, and returns an object made of
    five properties of the parsed value.  Nothing checks the value against
    the schema; the return type of the function is the only place in which
    the types of the five properties are stated.

    - [Json] is a value of JSON, as [JSON.parse] returns it, and [get] the
      reading of a property.
    - [Raw.t] is the object that the function returns, [read_result] the
      five readings, and [typed] the cast of that object to the type the
      function declares: it has a value exactly when every property that is
      there is of its declared type.
    - [responseSchema] is the schema of the request, and [conforms] what it
      asks of a value.

    The theorems relate the two: a value that conforms to the schema is of
    the declared type and has all its properties; a value of the declared
    type need not conform. *)

From stdpp Require Import base tactics option list strings.
From S2P Require Import Prelude Types.

(** ** The schema of the request *)

(** The types of the response schema: the members of the enum [Type] of
    the client library that the request names. *)
Inductive SchemaType := STRING | NUMBER | INTEGER | ARRAY | OBJECT.

#[export] Instance SchemaType_eq_dec : EqDecision SchemaType.
Proof. solve_decision. Defined.

Module Property.

Record t := mk {
  name : string;
  type : SchemaType;
  items : option SchemaType;
  description : string;
}.

End Property.

Module Schema.

Record t := mk {
  type : SchemaType;
  properties : list Property.t;
  required : list string;
}.

End Schema.

(** [config.responseSchema] *)
Definition responseSchema : Schema.t :=
  Schema.mk OBJECT
    [Property.mk "invoiceNumber" STRING None
       "The invoice or shipment identification number.";
     Property.mk "totalAmount" NUMBER None "The total monetary value of the shipment.";
     Property.mk "quantity" INTEGER None "The total number of individual items.";
     Property.mk "skus" ARRAY (Some STRING)
       "A list of unique Stock Keeping Units (SKUs).";
     Property.mk "analysisSummary" STRING None
       "A brief one-sentence summary of the document's key content."]
    ["invoiceNumber"; "totalAmount"; "quantity"; "skus"; "analysisSummary"].

(** ** The values of JSON *)

(** A value of JSON.  The members of an object are in the order of the
    text.  The functions of this file look one level into a value, so the
    induction principle of the type, which says nothing of the elements of
    an array, is not generated. *)
#[local] Unset Elimination Schemes.
Inductive Json {num : Type} :=
  | JsonNull
  | JsonBool (b : bool)
  | JsonNumber (n : num)
  | JsonString (s : string)
  | JsonArray (elements : list Json)
  | JsonObject (members : list (string * Json)).
#[local] Set Elimination Schemes.
Global Arguments Json : clear implicits.

(** The object literal that the function returns: five properties, each a
    value or [undefined]. *)
Module Raw.

Record t {num : Type} := mk {
  invoiceNumber : option (Json num);
  totalAmount : option (Json num);
  quantity : option (Json num);
  skus : option (Json num);
  analysisSummary : option (Json num);
}.
Global Arguments t : clear implicits.
Global Arguments mk {num}.

End Raw.

Section json.
Context {num : Type}.
Implicit Types (v result : Json num) (raw : Raw.t num).

(** The member of an object with the given name: the last one, when the
    text gives the name more than once. *)
Definition member (name : string) (members : list (string * Json num))
  : option (Json num) :=
  snd <$> js_find (λ m, bool_decide (m.1 = name)) (reverse members).

(** [result.name], for a name that no prototype has, as the five names
    that the function reads.  To read a property of [null] throws; an
    object gives its member or [undefined]; any other value gives
    [undefined]. *)
Definition get result (name : string) : option (option (Json num)) :=
  match result with
  | JsonNull => None
  | JsonObject members => Some (member name members)
  | _ => Some None
  end.

(** [{ invoiceNumber: result.invoiceNumber, ..., analysisSummary:
    result.analysisSummary }]: the five readings, in the order of the
    literal; the first one throws when [result] is [null]. *)
Definition read_result result : option (Raw.t num) :=
  invoiceNumber ← get result "invoiceNumber";
  totalAmount ← get result "totalAmount";
  quantity ← get result "quantity";
  skus ← get result "skus";
  analysisSummary ← get result "analysisSummary";
  Some (Raw.mk invoiceNumber totalAmount quantity skus analysisSummary).

(** ** The declared type

    The function is declared to return [Omit<AnalyzedData, 'shipmentId'>]:
    two optional strings, two optional numbers and an optional array of
    strings.  A property is of its type when it is absent or a value of
    that type. *)

Definition as_string v : option string :=
  match v with JsonString s => Some s | _ => None end.

Definition as_number v : option num :=
  match v with JsonNumber n => Some n | _ => None end.

Definition as_strings v : option (list string) :=
  match v with JsonArray elements => mapM as_string elements | _ => None end.

(** An optional property: absent, or of the type. *)
Definition optional {A} (cast : Json num → option A) (v : option (Json num))
  : option (option A) :=
  match v with
  | None => Some None
  | Some v => Some <$> cast v
  end.

(** The returned object as a value of the declared type, when it is one. *)
Definition typed raw : option (AnalysisResult.t num) :=
  invoiceNumber ← optional as_string (Raw.invoiceNumber raw);
  totalAmount ← optional as_number (Raw.totalAmount raw);
  quantity ← optional as_number (Raw.quantity raw);
  skus ← optional as_strings (Raw.skus raw);
  analysisSummary ← optional as_string (Raw.analysisSummary raw);
  Some (AnalysisResult.mk invoiceNumber totalAmount quantity skus analysisSummary).

(** ** What the schema asks *)

(** What makes a number an [INTEGER]. *)
Context (integral : num → bool).

(** A value is of a type of the schema. *)
Definition of_type (t : SchemaType) v : bool :=
  match t, v with
  | STRING, JsonString _ | NUMBER, JsonNumber _
  | ARRAY, JsonArray _ | OBJECT, JsonObject _ => true
  | INTEGER, JsonNumber n => integral n
  | _, _ => false
  end.

(** A value is what a property of the schema describes: of its type, and
    with elements of the type of its [items] when it is an array. *)
Definition of_property (p : Property.t) v : bool :=
  of_type (Property.type p) v
  && match Property.items p, v with
     | Some t, JsonArray elements => forallb (of_type t) elements
     | _, _ => true
     end.

(** A value conforms to the schema: it is of the type of the schema, it
    has the required properties, and the properties it has are what the
    schema describes. *)
Definition conforms (schema : Schema.t) v : bool :=
  of_type (Schema.type schema) v
  && match v with
     | JsonObject members =>
         forallb (λ name, bool_decide (is_Some (member name members)))
           (Schema.required schema)
         && forallb (λ p, from_option (of_property p) true
                            (member (Property.name p) members))
              (Schema.properties schema)
     | _ => true
     end.

End json.

(** ** Reading and casting *)

Section reading.
Context {num : Type}.
Implicit Types (v result : Json num) (raw : Raw.t num)
  (members : list (string * Json num)) (elements : list (Json num)).

(** Only [null] makes the readings throw. *)
Lemma read_result_None result : read_result result = None ↔ result = JsonNull.
Proof. by destruct result. Qed.

(** Of a value that is not an object every reading is [undefined]. *)
Lemma read_result_object members :
  read_result (JsonObject members)
  = Some (Raw.mk (member "invoiceNumber" members) (member "totalAmount" members)
            (member "quantity" members) (member "skus" members)
            (member "analysisSummary" members)).
Proof. reflexivity. Qed.

Lemma read_result_scalar result :
  result ≠ JsonNull → (∀ members, result ≠ JsonObject members) →
  read_result result = Some (Raw.mk None None None None None).
Proof. destruct result; naive_solver. Qed.

(** The object with no property is of the declared type. *)
Lemma typed_empty :
  typed (num:=num) (Raw.mk None None None None None)
  = Some (AnalysisResult.mk None None None None None).
Proof. reflexivity. Qed.

(** An array of strings, as the schema describes one, casts. *)
Lemma as_strings_of_type integral elements :
  forallb (of_type integral STRING) elements = true →
  is_Some (as_strings (JsonArray elements)).
Proof.
  simpl. induction elements as [|v l IH]; simpl; [by eexists|].
  destruct v; try done. simpl. intros [ss Hss]%IH. rewrite Hss. by eexists.
Qed.

(** A value of a property of the schema casts to the type that the
    function declares for it. *)
Lemma of_property_string integral name description v :
  of_property integral (Property.mk name STRING None description) v = true →
  is_Some (as_string v).
Proof. destruct v; by eauto. Qed.

Lemma of_property_number integral name t description v :
  t = NUMBER ∨ t = INTEGER →
  of_property integral (Property.mk name t None description) v = true →
  is_Some (as_number v).
Proof. intros [-> | ->]; destruct v; by eauto. Qed.

Lemma of_property_strings integral name description v :
  of_property integral (Property.mk name ARRAY (Some STRING) description) v = true →
  is_Some (as_strings v).
Proof.
  destruct v; try done. unfold of_property. cbn [Property.type Property.items of_type].
  rewrite andb_true_l. apply as_strings_of_type.
Qed.

End reading.

(** ** A value that conforms is of the declared type *)

Section conformance.
Context {num : Type} (integral : num → bool).
Implicit Types (v result : Json num) (raw : Raw.t num)
  (members : list (string * Json num)).

(** A required property that the schema describes is there, and is what
    the schema describes. *)
Lemma required_member (p : Property.t) name members :
  bool_decide (is_Some (member name members)) = true →
  from_option (of_property integral p) true (member name members) = true →
  ∃ x, member name members = Some x ∧ of_property integral p x = true.
Proof. intros [x Hx]%bool_decide_eq_true. rewrite Hx. eauto. Qed.

(** The five members of a value that conforms to [responseSchema], each
    with its cast. *)
Lemma conforms_members v :
  conforms integral responseSchema v = true →
  ∃ members invoiceNumber totalAmount quantity skus analysisSummary,
    v = JsonObject members
    ∧ (member "invoiceNumber" members ≫= as_string) = Some invoiceNumber
    ∧ (member "totalAmount" members ≫= as_number) = Some totalAmount
    ∧ (member "quantity" members ≫= as_number) = Some quantity
    ∧ (member "skus" members ≫= as_strings) = Some skus
    ∧ (member "analysisSummary" members ≫= as_string) = Some analysisSummary.
Proof.
  destruct v as [| | | | |members]; try done. unfold conforms.
  cbn [responseSchema Schema.type Schema.required Schema.properties of_type forallb
       andb].
  rewrite !andb_true_r, !andb_true_iff.
  intros ((R1 & R2 & R3 & R4 & R5) & (P1 & P2 & P3 & P4 & P5)).
  cbn [Property.name] in *.
  destruct (required_member _ _ _ R1 P1) as (x1 & H1 & [s1 E1]%of_property_string).
  destruct (required_member _ _ _ R2 P2)
    as (x2 & H2 & [n2 E2]%of_property_number); [|by left].
  destruct (required_member _ _ _ R3 P3)
    as (x3 & H3 & [n3 E3]%of_property_number); [|by right].
  destruct (required_member _ _ _ R4 P4) as (x4 & H4 & [l4 E4]%of_property_strings).
  destruct (required_member _ _ _ R5 P5) as (x5 & H5 & [s5 E5]%of_property_string).
  exists members, s1, n2, n3, l4, s5. by rewrite H1, H2, H3, H4, H5.
Qed.

(** The cast of an optional property that is there. *)
Lemma optional_Some {A} (cast : Json num → option A) (o : option (Json num)) a :
  o ≫= cast = Some a → optional cast o = Some (Some a).
Proof. destruct o as [x|]; [simpl; by intros ->|done]. Qed.

(** A response that conforms to the schema of the request is of the
    type that the function declares, with every property present.  When
    the parsed value conforms to [responseSchema], the five readings do not
    throw, the object made of them casts to the declared type, none of its
    five properties is [undefined], and each is the member of that name. *)
Theorem conforming_value_typed v :
  conforms integral responseSchema v = true →
  ∃ raw r, read_result v = Some raw ∧ typed raw = Some r
    ∧ AnalysisResult.invoiceNumber r = Raw.invoiceNumber raw ≫= as_string
    ∧ AnalysisResult.totalAmount r = Raw.totalAmount raw ≫= as_number
    ∧ AnalysisResult.quantity r = Raw.quantity raw ≫= as_number
    ∧ AnalysisResult.skus r = Raw.skus raw ≫= as_strings
    ∧ AnalysisResult.analysisSummary r = Raw.analysisSummary raw ≫= as_string
    ∧ is_Some (AnalysisResult.invoiceNumber r)
    ∧ is_Some (AnalysisResult.totalAmount r)
    ∧ is_Some (AnalysisResult.quantity r)
    ∧ is_Some (AnalysisResult.skus r)
    ∧ is_Some (AnalysisResult.analysisSummary r).
Proof.
  intros (members & s1 & n2 & n3 & l4 & s5 & -> & H1 & H2 & H3 & H4 & H5)%conforms_members.
  eexists _, (AnalysisResult.mk (Some s1) (Some n2) (Some n3) (Some l4) (Some s5)).
  split; [apply read_result_object|]. unfold typed. cbn [Raw.invoiceNumber
    Raw.totalAmount Raw.quantity Raw.skus Raw.analysisSummary].
  rewrite (optional_Some _ _ _ H1), (optional_Some _ _ _ H2), (optional_Some _ _ _ H3),
    (optional_Some _ _ _ H4), (optional_Some _ _ _ H5).
  by split_and!.
Qed.

End conformance.

(** ** Values, for the witnesses *)

(** The value of a response as the schema describes it. *)
Definition demo_value : Json Z :=
  JsonObject
    [("invoiceNumber", JsonString "INV-1"); ("totalAmount", JsonNumber 1000%Z);
     ("quantity", JsonNumber 5%Z); ("skus", JsonArray [JsonString "A1"]);
     ("analysisSummary", JsonString "An invoice.")].

Lemma conforming_value_typed_witness :
  ∃ raw r, read_result demo_value = Some raw ∧ typed raw = Some r
    ∧ AnalysisResult.invoiceNumber r = Raw.invoiceNumber raw ≫= as_string
    ∧ AnalysisResult.totalAmount r = Raw.totalAmount raw ≫= as_number
    ∧ AnalysisResult.quantity r = Raw.quantity raw ≫= as_number
    ∧ AnalysisResult.skus r = Raw.skus raw ≫= as_strings
    ∧ AnalysisResult.analysisSummary r = Raw.analysisSummary raw ≫= as_string
    ∧ is_Some (AnalysisResult.invoiceNumber r)
    ∧ is_Some (AnalysisResult.totalAmount r)
    ∧ is_Some (AnalysisResult.quantity r)
    ∧ is_Some (AnalysisResult.skus r)
    ∧ is_Some (AnalysisResult.analysisSummary r).
Proof. exact (conforming_value_typed (λ _, true) demo_value eq_refl). Defined.

(** The schema and the declared type differ.  An object with no property
    is of the declared type, every property of which is optional, and does
    not conform; a number written as a string is of neither; the last of
    two members of a name is the one that is read. *)
Example typed_and_conforming :
  (read_result (JsonObject []) ≫= typed)
    = Some (AnalysisResult.mk (num:=Z) None None None None None)
  ∧ conforms (λ _, true) responseSchema (JsonObject (num:=Z) []) = false
  ∧ (read_result (JsonObject (num:=Z) [("totalAmount", JsonString "12")]) ≫= typed) = None
  ∧ (read_result (JsonArray (num:=Z) []) ≫= typed)
    = Some (AnalysisResult.mk None None None None None)
  ∧ (AnalysisResult.quantity <$>
       (read_result (JsonObject [("quantity", JsonNumber 1%Z);
                                 ("quantity", JsonNumber 2%Z)]) ≫= typed))
    = Some (Some 2%Z)
  ∧ (read_result demo_value ≫= typed)
    = Some (AnalysisResult.mk (Some "INV-1") (Some 1000%Z) (Some 5%Z) (Some ["A1"])
              (Some "An invoice.")).
Proof. by vm_compute. Qed.
