(* ===== verification/Service.v ===== *)
(** * Service: the analysis service ([src/services/geminiService.ts])

    [analyzeDocumentContent] answers from a mock when no API key is
    configured and asks the remote model otherwise.

    - The mock draws five random numbers and reads the clock; the model
      takes them as arguments, in the order in which the code draws them,
      and computes on floats what the code computes.  The delay of the
      mock's timer is not modelled: the call settles, later.
    - The remote model and [JSON.parse] are outside the program.  The model
      builds the request as the code does ([request]: the name of the
      model, the prompt, the MIME type and [responseSchema] of [Parsed]),
      takes the call [generateContent] and the parser as arguments and
      keeps the control flow of the function around them: the reading of
      the five properties of the parsed value ([Parsed.read_result]), the
      cast of what was read to the declared type of the result
      ([Parsed.typed]) and the [catch] that turns every failure into one
      error.

    [mock_analyzer] and [remote_analyzer] are the instances of the
    interface [Analyzer] through which the component sees the service. *)

From Stdlib Require Import Floats ZArith Uint63.
From stdpp Require Import base tactics relations option list strings pretty.
From S2P Require Import Prelude Types Constants Shipments Analytics App Machine.
From S2P Require Import FileUploadModal Page Overview Parsed.

(** ** Numbers and strings of the mock *)

(** [Math.floor(x)] of a number that is not negative. *)
Definition floor (x : float) : option Z :=
  match Prim2SF x with
  | S754_zero _ => Some 0%Z
  | S754_finite false m e =>
      Some (if (0 <=? e)%Z then Z.pos m * 2 ^ e else Z.pos m / 2 ^ (- e))%Z
  | _ => None
  end.

(** [s.slice(-n)]: the last [n] characters of [s], all of it when it is
    shorter. *)
Definition slice_last (n : nat) (s : string) : string :=
  String.substring (String.length s - n) n s.

(** The text of the number [h / 100] in a template: its decimal digits
    without trailing zeros. *)
Definition hundredths_string (h : Z) : string :=
  let whole := pretty (Z.to_N (h / 100)) in
  let frac := (h mod 100)%Z in
  if bool_decide (frac = 0%Z) then whole
  else if bool_decide (frac mod 10 = 0)%Z then whole +:+ "." +:+ pretty (Z.to_N (frac / 10))
  else whole +:+ "." +:+ pad 2 frac.

(** ** The mock *)

Module Draws.

(** The values of [Math.random()] in the order of the calls, and of
    [Date.now()]. *)
Record t := mk {
  amount : float;
  quantity : float;
  sku1 : float;
  sku2 : float;
  sku3 : float;
  now : N;
}.

End Draws.

(** [(Math.random() * 10000 + 500).toFixed(2)], in hundredths. *)
Definition mock_hundredths (r : float) : option Z :=
  match Prim2SF (PrimFloat.add (PrimFloat.mul r (of_Z 10000)) (of_Z 500)) with
  | S754_finite false m e => Some (fixed_digits 2 m e)
  | _ => None
  end.

(** [Math.floor(Math.random() * 200 + 10)] *)
Definition mock_quantity (r : float) : option Z :=
  floor (PrimFloat.add (PrimFloat.mul r (of_Z 200)) (of_Z 10)).

(** [`SKU${Math.floor(1000 + Math.random() * 9000)}`] *)
Definition randomSku (r : float) : option string :=
  (λ n, "SKU" +:+ pretty (Z.to_N n))
    <$> floor (PrimFloat.add (of_Z 1000) (PrimFloat.mul r (of_Z 9000))).

(** [`INV-${Date.now().toString().slice(-6)}`] *)
Definition mock_invoiceNumber (now : N) : string :=
  "INV-" +:+ slice_last 6 (pretty now).

Definition mock_summary (docType : DocumentType) (quantity hundredths : Z) : string :=
  "This document appears to be a " +:+ DocumentType_value docType
  +:+ " for a shipment of " +:+ pretty (Z.to_N quantity)
  +:+ " items, with a total value of $" +:+ hundredths_string hundredths +:+ ".".

(** The result [mockGeminiService] resolves with.  [parseFloat] of the
    text of [toFixed(2)] is the number nearest to the hundredths. *)
Definition mockGeminiService (draws : Draws.t) (docType : DocumentType)
  : option (AnalysisResult.t float) :=
  hundredths ← mock_hundredths (Draws.amount draws);
  quantity ← mock_quantity (Draws.quantity draws);
  sku1 ← randomSku (Draws.sku1 draws);
  sku2 ← randomSku (Draws.sku2 draws);
  sku3 ← randomSku (Draws.sku3 draws);
  Some (AnalysisResult.mk
          (Some (mock_invoiceNumber (Draws.now draws)))
          (Some (decimal hundredths 100))
          (Some (of_Z quantity))
          (Some [sku1; sku2; sku3])
          (Some (mock_summary docType quantity hundredths))).

(** ** The request to the remote model *)

Definition quote : string := String (Ascii.ascii_of_nat 34) EmptyString.

(** The prompt. *)
Definition prompt (fileContent : string) (docType : DocumentType) : string :=
  let nl := String (Ascii.ascii_of_nat 10) "" +:+ "    " in
  "Analyze the following document content, which is a " +:+ quote
    +:+ DocumentType_value docType +:+ quote
    +:+ ". Extract the following information:" +:+ nl +:+
  "1. The invoice number." +:+ nl +:+
  "2. The total monetary amount (as a number)." +:+ nl +:+
  "3. The total quantity of all items." +:+ nl +:+
  "4. A list of all unique SKU codes." +:+ nl +:+
  "5. A brief, one-sentence summary of the document's key content." +:+ nl +:+
  nl +:+
  "Document Content:" +:+ nl +:+
  quote +:+ fileContent +:+ quote +:+ nl +:+
  nl +:+
  "Return the data in the specified JSON format.".

Module Request.

Record t := mk {
  model : string;
  contents : string;
  responseMimeType : string;
  responseSchema : Schema.t;
}.

End Request.

(** The argument of [ai.models.generateContent]. *)
Definition request (fileContent : string) (docType : DocumentType) : Request.t :=
  Request.mk "gemini-2.5-flash" (prompt fileContent docType) "application/json"
    responseSchema.

(** What [ai.models.generateContent] does: it throws, or it returns a
    response, whose [text] is a string or [undefined]. *)
Inductive Response :=
  | ResponseText (text : option string)
  | ResponseError.

Section remote.
Context {num : Type} (parse : string → option (Json num)).

(** The body of the [try], after the request.  [JSON.parse(undefined)]
    throws: the argument is turned into the string of [undefined], which is
    not JSON.  Reading a property of [null] throws.  Every throw is caught
    and becomes the one error of the function.  The object that is returned
    is a result for the caller when it is of the declared type; nothing in
    the function checks that it is, and there is no outcome, [None], when
    it is not. *)
Definition project (response : Response) : option (Outcome num) :=
  match response with
  | ResponseText text =>
      match text ≫= parse with
      | Some result =>
          match read_result result with
          | Some raw => Fulfilled <$> typed raw
          | None => Some Rejected
          end
      | None => Some Rejected
      end
  | ResponseError => Some Rejected
  end.

End remote.

(** A number that is an integer, for [Type.INTEGER]. *)
Definition float_integral (x : float) : bool :=
  match Prim2SF x with
  | S754_zero _ => true
  | S754_finite _ m e => (0 <=? e)%Z || (Z.pos m mod 2 ^ (- e) =? 0)%Z
  | _ => false
  end.

(** ** The key *)

(** [const ai = API_KEY ? new GoogleGenAI({ apiKey: API_KEY }) : null], as
    whether there is a client: the key of the environment may be absent, and
    an empty key is no key. *)
Definition ai (API_KEY : option string) : bool := truthy API_KEY.

(** [if (!API_KEY) console.warn(...)]: the warning of the module, when it
    is loaded without a key. *)
Definition key_warning (API_KEY : option string) : option string :=
  if negb (truthy API_KEY)
  then Some "API_KEY environment variable not set. Using a mock service."
  else None.

(** ** [analyzeDocumentContent] *)

(** The function, by whether a key is configured: the mock with its draws,
    or the request to the remote model, [generateContent], with what is
    made of its response.  There is no outcome when a draw is not a number
    of [Math.random()], or when the value of the response is not of the
    declared type. *)
Definition analyzeDocumentContent (ai : bool) (parse : string → option (Json float))
    (generateContent : Request.t → Response) (draws : Draws.t)
    (fileContent : string) (docType : DocumentType)
  : option (Outcome float) :=
  if ai then project parse (generateContent (request fileContent docType))
  else Fulfilled <$> mockGeminiService draws docType.

(** ** The service as the component sees it *)

(** Without a key: an outcome is a result of the mock, for some draws. *)
Definition mock_analyzer : Analyzer float :=
  λ _ docType outcome,
    ∃ draws result, mockGeminiService draws docType = Some result
                    ∧ outcome = Fulfilled result.

(** With a key: an outcome is what the function makes of some response. *)
Definition remote_analyzer (parse : string → option (Json float)) : Analyzer float :=
  λ _ _ outcome, ∃ response, project parse response = Some outcome.

(** The outcomes of the two are those of [analyzeDocumentContent]: without
    a key for some draws, with a key for some behaviour of the remote
    model. *)
Lemma mock_analyzer_spec content docType (outcome : Outcome float) parse generateContent :
  analyzes (Analyzer:=mock_analyzer) content docType outcome
  ↔ ∃ draws, analyzeDocumentContent false parse generateContent draws content docType
             = Some outcome.
Proof.
  unfold analyzes, mock_analyzer, analyzeDocumentContent. split.
  - intros (draws & r & Hr & ->). exists draws. by rewrite Hr.
  - intros (draws & (r & Hr & ->)%fmap_Some). eauto.
Qed.

Lemma remote_analyzer_spec content docType (outcome : Outcome float) parse draws :
  analyzes (Analyzer:=remote_analyzer parse) content docType outcome
  ↔ ∃ generateContent,
      analyzeDocumentContent true parse generateContent draws content docType
      = Some outcome.
Proof.
  unfold analyzes, remote_analyzer, analyzeDocumentContent. split.
  - intros [response Hr]. by exists (λ _, response).
  - intros (gen & Hg). eauto.
Qed.

(** The module warns exactly when its calls are answered by the mock;
    an empty key is no key. *)
Lemma analyzeDocumentContent_key API_KEY parse generateContent draws content dt :
  analyzeDocumentContent (ai API_KEY) parse generateContent draws content dt
  = match key_warning API_KEY with
    | Some _ => Fulfilled <$> mockGeminiService draws dt
    | None => project parse (generateContent (request content dt))
    end.
Proof. unfold key_warning, ai, analyzeDocumentContent. by destruct (truthy API_KEY). Qed.

Lemma empty_key_mock : ai (Some "") = false ∧ ai None = false ∧ ai (Some "k") = true.
Proof. done. Qed.

(** The schema asks for the five properties that the function reads, each
    once, and requires them all. *)
Lemma responseSchema_required :
  Schema.required responseSchema = Property.name <$> Schema.properties responseSchema
  ∧ NoDup (Schema.required responseSchema).
Proof. split; [done|by apply (bool_decide_unpack _)]. Qed.

(** Draws for the witnesses: the least and the largest value of
    [Math.random()], 0 and 1 - 2^-53. *)
Definition least_draw : float := of_Z 0.
Definition largest_draw : float := PrimFloat.div (of_Z (2 ^ 53 - 1)) (of_Z (2 ^ 53)).
Definition demo_draws : Draws.t :=
  Draws.mk largest_draw least_draw least_draw largest_draw least_draw 1760000401500.

(** ** The mock *)

Section mock.
Implicit Types (draws : Draws.t) (docType : DocumentType) (r : AnalysisResult.t float).

(** What a result of the mock holds. *)
Lemma mockGeminiService_Some draws docType r :
  mockGeminiService draws docType = Some r →
  AnalysisResult.invoiceNumber r = Some (mock_invoiceNumber (Draws.now draws))
  ∧ is_Some (AnalysisResult.totalAmount r)
  ∧ is_Some (AnalysisResult.quantity r)
  ∧ (∃ skus, AnalysisResult.skus r = Some skus ∧ length skus = 3)
  ∧ ∃ text, AnalysisResult.analysisSummary r = Some text ∧ truthy text = true.
Proof.
  unfold mockGeminiService. intros Hr.
  repeat (apply bind_Some in Hr as (? & ? & Hr)). injection Hr as <-. simpl.
  repeat split; eauto.
Qed.

Lemma mock_invoiceNumber_truthy now : truthy (mock_invoiceNumber now) = true.
Proof. reflexivity. Qed.

(** The mock answers, and never with a failure. *)
Lemma mock_fulfils content docType (outcome : Outcome float) :
  analyzes (Analyzer:=mock_analyzer) content docType outcome →
  ∃ r, outcome = Fulfilled r.
Proof. intros (draws & r & _ & ->). eauto. Qed.

#[export] Instance mock_settles : @Settles float mock_analyzer.
Proof.
  intros content docType.
  destruct (mockGeminiService demo_draws docType) as [r|] eqn:Hr; [|by destruct docType].
  exists (Fulfilled r), demo_draws, r. done.
Qed.

End mock.

(** ** The request *)

Section request.
Context {num : Type} (parse : string → option (Json num)).
Implicit Types (response : Response) (result : Json num) (raw : Raw.t num)
  (r : AnalysisResult.t num).

(** The cases in which [analyzeDocumentContent] throws its error. *)
Lemma project_Rejected response :
  project parse response = Some Rejected
  ↔ response = ResponseError
    ∨ ∃ text, response = ResponseText text
              ∧ (text ≫= parse = None ∨ text ≫= parse = Some JsonNull).
Proof.
  destruct response as [text|]; cbn [project]; [|by split; eauto].
  destruct (text ≫= parse) as [result|] eqn:Hp; [|by split; eauto].
  destruct (read_result result) as [raw|] eqn:Hr.
  - split; [by intros (? & _ & [=])%fmap_Some|].
    intros [?|(? & [= <-] & [?|?])]; by simplify_eq.
  - apply read_result_None in Hr as ->. split; eauto.
Qed.

(** A value that was parsed is passed on property by property, whatever
    properties it has, when each is of its type. *)
Lemma project_Fulfilled text result raw r :
  parse text = Some result → read_result result = Some raw → typed raw = Some r →
  project parse (ResponseText (Some text)) = Some (Fulfilled r).
Proof. simpl. by intros -> -> ->. Qed.

(** The function has no outcome exactly when the parsed value has a
    property that is not of its declared type. *)
Lemma project_None response :
  project parse response = None
  ↔ ∃ text result raw, response = ResponseText text ∧ text ≫= parse = Some result
      ∧ read_result result = Some raw ∧ typed raw = None.
Proof.
  destruct response as [text|]; cbn [project]; [|by split; [|intros (?&?&?&?&?)]].
  destruct (text ≫= parse) as [result|] eqn:Hp;
    [|by split; [|intros (?&?&?&[= <-]&?&?); congruence]].
  destruct (read_result result) as [raw|] eqn:Hr;
    [|by split; [|intros (?&?&?&[= <-]&?&?&?); congruence]].
  rewrite fmap_None. split; [by eauto 8|].
  intros (?&?&?&[= <-]&?&?&?). congruence.
Qed.

End request.

(** The remote service can answer: a request that fails is an answer. *)
#[export] Instance remote_settles parse : @Settles float (remote_analyzer parse).
Proof. intros content docType. by exists Rejected, ResponseError. Qed.

(** ** A run with the mock, for the witnesses *)

Definition demo_mock_result : AnalysisResult.t float :=
  default (AnalysisResult.mk None None None None None)
          (mockGeminiService demo_draws INVOICE).

Lemma demo_mock_result_Some : mockGeminiService demo_draws INVOICE = Some demo_mock_result.
Proof. reflexivity. Defined.

Definition demo_mock_submitted : Sys.t float :=
  Sys.mk (handleFileUpload_begin demo_id INVOICE
            (handleOpenModal None None None AppState.initial))
         [Pending.mk demo_file demo_id INVOICE (Some "")].

Definition demo_mock_settled : Sys.t float :=
  Sys.mk (handleFileUpload_settle demo_clock demo_file demo_id INVOICE (Some "")
            (Fulfilled demo_mock_result) (Sys.app demo_mock_submitted)) [].

Lemma demo_mock_settled_reachable : reachable (H:=mock_analyzer) demo_mock_settled.
Proof.
  eapply rtc_r; [eapply rtc_r; [eapply rtc_r; [apply rtc_refl|]|]|].
  - apply (step_open (H:=mock_analyzer)).
  - by apply (step_submit (H:=mock_analyzer) demo_file demo_id INVOICE "" _ []).
  - apply (step_settle (H:=mock_analyzer) demo_clock (Fulfilled demo_mock_result)
             (Pending.mk demo_file demo_id INVOICE (Some "")) _ [] []).
    by exists demo_draws, demo_mock_result.
Defined.

(** ** The properties of the service *)

Section properties.
Implicit Types (draws : Draws.t) (r : AnalysisResult.t float) (st : AppState.t float)
  (sys : Sys.t float).

(** With the mock, a successful upload renames the shipment: the
    result of the mock always carries an invoice number, [INV-] and the
    last six digits of the clock, and the upload writes it over the invoice
    number of the shipment. *)
Theorem mock_renames_shipment clock file sid dt comments draws r st s :
  find_shipment (AppState.shipments st) sid = Some s →
  mockGeminiService draws dt = Some r →
  Shipment.invoiceNumber <$> find_shipment (AppState.shipments
    (handleFileUpload clock (Fulfilled r) file sid dt comments st)) sid
  = Some (mock_invoiceNumber (Draws.now draws)).
Proof.
  intros Hs (Hinv & _)%mockGeminiService_Some.
  rewrite shipments_handleFileUpload. unfold settled_shipment.
  rewrite (invoiceNumber_uploaded _ _ _ _ _ _ (processing_shipment dt s))
    by (by apply (find_shipment_update_target dt _)).
  by rewrite Hinv, js_or_truthy.
Qed.

(** With the mock no analysis fails: in every reachable state the
    error message is absent. *)
Theorem mock_never_shows_error sys :
  reachable (H:=mock_analyzer) sys → AppState.error (Sys.app sys) = None.
Proof.
  apply (reachable_ind (H:=mock_analyzer) (λ sys, AppState.error (Sys.app sys) = None));
    [done|].
  intros sys1 sys2 _ IH Hs.
  destruct Hs as [st fl|st fl _ _|type st fl _|files st fl _
    |file sid dt comments st fl _ _ _|?? [clock outcome p st fl1 fl2 Ha]];
    cbn [Sys.app] in *; try done.
  - unfold handleDrag. by repeat case_bool_decide.
  - by destruct files.
  - apply mock_fulfils in Ha as [r ->]. by rewrite error_settle.
Qed.

(** C36: with a key, [analyzeDocumentContent] throws its error exactly
    when the request fails, the response has no text, its text cannot be
    parsed, or it parses to [null]; a value that lacks properties is not an
    error. *)
Theorem analyzeDocumentContent_rejects parse generateContent draws content dt :
  analyzeDocumentContent true parse generateContent draws content dt = Some Rejected
  ↔ generateContent (request content dt) = ResponseError
    ∨ ∃ text, generateContent (request content dt) = ResponseText text
              ∧ (text ≫= parse = None ∨ text ≫= parse = Some JsonNull).
Proof. unfold analyzeDocumentContent. by rewrite <- project_Rejected. Qed.

(** A response that conforms to the schema of the request fulfils the
    call, with a complete result.  When the text of the response parses to
    a value that conforms to the schema that the request carries,
    [analyzeDocumentContent] returns a result, the five properties of
    which are those of the value, and none of them is [undefined]. *)
Theorem conforming_response_fulfils parse generateContent draws content dt text
    (result : Json float) :
  generateContent (request content dt) = ResponseText (Some text) →
  parse text = Some result →
  conforms float_integral (Request.responseSchema (request content dt)) result = true →
  ∃ r, analyzeDocumentContent true parse generateContent draws content dt
       = Some (Fulfilled r)
    ∧ read_result result ≫= typed = Some r
    ∧ is_Some (AnalysisResult.invoiceNumber r)
    ∧ is_Some (AnalysisResult.totalAmount r)
    ∧ is_Some (AnalysisResult.quantity r)
    ∧ is_Some (AnalysisResult.skus r)
    ∧ is_Some (AnalysisResult.analysisSummary r).
Proof.
  intros Hg Hp (raw & r & Hraw & Hr & _ & _ & _ & _ & _ & Hfields)%conforming_value_typed.
  exists r. unfold analyzeDocumentContent. rewrite Hg, Hraw.
  by rewrite (project_Fulfilled parse text result raw r).
Qed.

(** A response need not conform: the call is fulfilled with a result
    that lacks properties when the value lacks them, whatever the schema
    requires, and also when the value is no object at all. *)
Theorem incomplete_response_fulfils parse generateContent draws content dt text
    (result : Json float) :
  generateContent (request content dt) = ResponseText (Some text) →
  parse text = Some result →
  result = JsonObject [] ∨ result = JsonArray [] ∨ result = JsonBool true →
  analyzeDocumentContent true parse generateContent draws content dt
  = Some (Fulfilled (AnalysisResult.mk None None None None None))
  ∧ conforms float_integral (Request.responseSchema (request content dt)) result = false.
Proof.
  intros Hg Hp Hv. unfold analyzeDocumentContent. rewrite Hg. simpl. rewrite Hp.
  by destruct Hv as [->|[->| ->]].
Qed.

(** With the mock, every upload submitted through the dialog
    succeeds: whenever the mock answers an upload that the page has in
    flight, the slot becomes [UPLOADED], the upload is logged, no message
    is set and the dialog closes. *)
Theorem mock_upload_succeeds (page : Page.t float) p clock outcome :
  page_reachable (H:=mock_analyzer) page → p ∈ Page.inFlight page →
  analyzes (Analyzer:=mock_analyzer)
    (fileContent (Pending.file p) (Pending.shipmentId p) (Pending.docType p))
    (Pending.docType p) outcome →
  let st' := handleFileUpload_settle clock (Pending.file p) (Pending.shipmentId p)
               (Pending.docType p) (Pending.comments p) outcome (Page.app page) in
  status_at (AppState.shipments st') (Pending.shipmentId p) (Pending.docType p)
  = Some UPLOADED
  ∧ length (AppState.uploadLogs st') = S (length (AppState.uploadLogs (Page.app page)))
  ∧ AppState.error st' = None
  ∧ ModalState.isOpen (AppState.modalState st') = false.
Proof.
  intros [_ Hl]%(page_reachable_dialog (H:=mock_analyzer)) Hp [r ->]%mock_fulfils st'.
  unfold st'. rewrite status_at_settle by by apply Hl.
  by rewrite uploadLogs_settle, error_settle, modalState_settle.
Qed.

End properties.

Lemma mock_renames_shipment_witness :
  Shipment.invoiceNumber <$> find_shipment (AppState.shipments
    (handleFileUpload demo_clock (Fulfilled demo_mock_result) demo_file demo_id INVOICE
       (Some "") AppState.initial)) demo_id
  = Some "INV-401500".
Proof.
  exact (mock_renames_shipment demo_clock demo_file demo_id INVOICE (Some "") demo_draws
           demo_mock_result AppState.initial demo_shipment eq_refl demo_mock_result_Some).
Defined.

Lemma mock_never_shows_error_witness : AppState.error (Sys.app demo_mock_settled) = None.
Proof. exact (mock_never_shows_error demo_mock_settled demo_mock_settled_reachable). Defined.

Lemma mock_upload_succeeds_witness :
  let st' := handleFileUpload_settle demo_clock demo_file demo_id INVOICE (Some "")
               (Fulfilled demo_mock_result) (Page.app (demo_page5 float)) in
  status_at (AppState.shipments st') demo_id INVOICE = Some UPLOADED
  ∧ length (AppState.uploadLogs st')
    = S (length (AppState.uploadLogs (Page.app (demo_page5 float))))
  ∧ AppState.error st' = None
  ∧ ModalState.isOpen (AppState.modalState st') = false.
Proof.
  apply (mock_upload_succeeds (demo_page5 float) (pending_of demo_upload_call) demo_clock
           (Fulfilled demo_mock_result) (demo_page5_reachable float (Analyzer0:=mock_analyzer))).
  - by apply list_elem_of_singleton.
  - by exists demo_draws, demo_mock_result.
Defined.

(** The draws at their bounds: quantities from 10 to 209, SKU numbers from
    1000 to 9999, amounts from 500 to 10500. *)
Example mock_extremes :
  mock_quantity least_draw = Some 10%Z ∧ mock_quantity largest_draw = Some 209%Z
  ∧ randomSku least_draw = Some "SKU1000" ∧ randomSku largest_draw = Some "SKU9999"
  ∧ mock_hundredths least_draw = Some 50000%Z
  ∧ mock_hundredths largest_draw = Some 1050000%Z.
Proof. by vm_compute. Qed.

(** ** A response of the remote model, for the witnesses *)

(** The value of a response as the schema describes it, the parser that
    returns it, and the call that answers with its text. *)
Definition demo_response : Json float :=
  JsonObject
    [("invoiceNumber", JsonString "INV-1"); ("totalAmount", JsonNumber (of_Z 1000));
     ("quantity", JsonNumber (of_Z 5)); ("skus", JsonArray [JsonString "A1"]);
     ("analysisSummary", JsonString "An invoice.")].

Definition demo_parse (result : Json float) : string → option (Json float) :=
  λ text, if bool_decide (text = "response") then Some result else None.

Definition demo_generateContent : Request.t → Response :=
  λ _, ResponseText (Some "response").

Lemma analyzeDocumentContent_rejects_witness :
  analyzeDocumentContent true (demo_parse JsonNull) demo_generateContent demo_draws
    "content" INVOICE = Some Rejected.
Proof.
  apply (analyzeDocumentContent_rejects (demo_parse JsonNull) demo_generateContent
           demo_draws "content" INVOICE).
  right. exists (Some "response"). split; [reflexivity|right; reflexivity].
Defined.

Lemma conforming_response_fulfils_witness :
  ∃ r, analyzeDocumentContent true (demo_parse demo_response) demo_generateContent
         demo_draws "content" INVOICE = Some (Fulfilled r)
    ∧ read_result demo_response ≫= typed = Some r
    ∧ is_Some (AnalysisResult.invoiceNumber r)
    ∧ is_Some (AnalysisResult.totalAmount r)
    ∧ is_Some (AnalysisResult.quantity r)
    ∧ is_Some (AnalysisResult.skus r)
    ∧ is_Some (AnalysisResult.analysisSummary r).
Proof.
  apply (conforming_response_fulfils (demo_parse demo_response) demo_generateContent
           demo_draws "content" INVOICE "response" demo_response);
    [reflexivity|reflexivity|by vm_compute].
Defined.

Lemma incomplete_response_fulfils_witness :
  analyzeDocumentContent true (demo_parse (JsonObject [])) demo_generateContent demo_draws
    "content" INVOICE
  = Some (Fulfilled (AnalysisResult.mk None None None None None))
  ∧ conforms float_integral (Request.responseSchema (request "content" INVOICE))
      (JsonObject []) = false.
Proof.
  apply (incomplete_response_fulfils (demo_parse (JsonObject [])) demo_generateContent
           demo_draws "content" INVOICE "response" (JsonObject []));
    [reflexivity|reflexivity|by left].
Defined.

(** A quantity that is not an integer does not conform; the function
    returns it all the same. *)
Example fractional_quantity :
  let result : Json float :=
    JsonObject
      [("invoiceNumber", JsonString "INV-1"); ("totalAmount", JsonNumber (of_Z 1000));
       ("quantity", JsonNumber (PrimFloat.div (of_Z 5) (of_Z 2)));
       ("skus", JsonArray []); ("analysisSummary", JsonString "")] in
  conforms float_integral responseSchema result = false
  ∧ (AnalysisResult.quantity <$> (read_result result ≫= typed))
    = Some (Some (PrimFloat.div (of_Z 5) (of_Z 2)))
  ∧ float_integral (of_Z 5) = true ∧ float_integral (of_Z 0) = true
  ∧ float_integral (PrimFloat.div (of_Z 1) (of_Z 0)) = false.
Proof. by vm_compute. Qed.
