(* ===== verification/System.v ===== *)
(** * System: the parts together

    The files before this one model the parts of the program and prove
    what each of them promises.  This file puts the promises together, for
    the page as a user meets it:

    - the page with its dialog refines the contract of the workflow: the
      refinement of the component by the page (file Page) and of the
      contract by the component (file Lifecycle) compose, along a whole
      run, and what the contract keeps the page keeps;
    - what a run has recorded is never rewritten;
    - without an answer of the service an upload blocks the dialog for
      good: the code sets no timeout on the call;
    - with the mock, every upload that a user asks for is carried out;
    - [handleFileUpload_served] is [handleFileUpload] with the call of
      [analyzeDocumentContent] that it awaits: with a key, a response that
      conforms to the schema is what the page records, an empty response
      is recorded as a success, and a failed request is shown;
    - after a failed analysis the dialog still holds the form, and the
      same upload can be submitted again. *)

From Stdlib Require Import Floats.
From stdpp Require Import base tactics option list strings gmap relations.
From S2P Require Import Prelude Types Constants Shipments Analytics App Machine.
From S2P Require Import Lifecycle FileUploadModal Page Overview Parsed Service.

(** ** The page refines the contract *)

Section refinement.
Context `{Analyzer num}.
Implicit Types (page : Page.t num).

(** The page as a state of the contract: the state of the dialog and what
    the contract does not speak of are forgotten. *)
Definition page_abs page : Spec.t := abs (forget page).

(** A run of the page from a reachable page ends in a reachable page, and
    is a run of the component. *)
Lemma page_run_reachable page page' :
  page_reachable page → rtc page_step page page' → page_reachable page'.
Proof. apply rtc_trans. Qed.

Lemma page_run_forget page page' :
  page_reachable page → rtc page_step page page' →
  rtc step (forget page) (forget page').
Proof.
  intros Hr Hrun. induction Hrun as [|page1 page2 page3 Hs _ IH]; [done|].
  pose proof (page_reachable_step _ _ Hr Hs) as Hr2.
  destruct (page_step_forget _ _ (page_reachable_mounted _ Hr) Hs) as [<-|Hstep];
    [by apply IH|]. by eapply rtc_l; [|apply IH].
Qed.

(** One step of the page is one transition of the contract, or none. *)
Lemma page_step_simulation page page' :
  page_reachable page → page_step page page' →
  page_abs page' = page_abs page ∨ Spec.next (page_abs page) (page_abs page').
Proof.
  intros Hr Hs. unfold page_abs.
  destruct (page_step_forget _ _ (page_reachable_mounted _ Hr) Hs) as [->|Hstep];
    [by left|]. by apply step_simulation; [apply page_reachable_forget|].
Qed.

(** A run of the page is a run of the contract. *)
Lemma page_run_refines page page' :
  page_reachable page → rtc page_step page page' →
  rtc Spec.next (page_abs page) (page_abs page').
Proof.
  intros Hr Hrun. induction Hrun as [|page1 page2 page3 Hs _ IH]; [done|].
  pose proof (page_reachable_step _ _ Hr Hs) as Hr2.
  destruct (page_step_simulation _ _ Hr Hs) as [<-|Hn]; [by apply IH|].
  by eapply rtc_l; [|apply IH].
Qed.

(** What the transitions of the contract keep, the runs of the page keep. *)
Lemma page_run_invariant (P : Spec.t → Prop) page page' :
  (∀ σ1 σ2, P σ1 → Spec.next σ1 σ2 → P σ2) →
  page_reachable page → rtc page_step page page' →
  P (page_abs page) → P (page_abs page').
Proof. intros Hstep Hr Hrun HP. eapply rtc_next_ind; eauto using page_run_refines. Qed.

End refinement.

(** ** What the page inherits from the contract *)

Section inherited.
Context `{Analyzer num}.
Implicit Types (page : Page.t num).

(** The board of a page holds the statuses of its slots. *)
Lemma lookup_page_abs page sid dt :
  Spec.board (page_abs page) !! (sid, dt)
  = status_at (AppState.shipments (Page.app page)) sid dt.
Proof. apply lookup_board. Qed.

(** C14: the page with its dialog refines the contract of the workflow,
    along a whole run.  Read through [page_abs], a reachable page is a state
    that the contract reaches from the initial board; a run of the page from
    it, whatever the user does in the form in between, is a run of the
    contract; and the page it ends in has what the contract keeps: a slot
    is [PROCESSING] exactly when it is the one the contract holds busy, and
    no slot is [DUPLICATE]. *)
Theorem page_refines_lifecycle page page' :
  page_reachable page → rtc page_step page page' →
  rtc Spec.next (Spec.initial (board INITIAL_SHIPMENTS)) (page_abs page)
  ∧ rtc Spec.next (page_abs page) (page_abs page')
  ∧ Spec.coherent (page_abs page')
  ∧ Spec.no_duplicate (page_abs page').
Proof.
  intros Hr Hrun.
  pose proof (page_reachable_forget _ (page_run_reachable _ _ Hr Hrun)) as Hr'.
  split_and!.
  - by apply reachable_refines, page_reachable_forget.
  - by apply page_run_refines.
  - by apply reachable_coherent.
  - by apply (refinement_invariant Spec.no_duplicate);
      [apply initial_no_duplicate|apply no_duplicate_next|].
Qed.

(** C23: no slot goes back to [MISSING].  Along every run of the page a
    slot that has left the status [MISSING], by an upload or from the
    start, never has it again: a failed upload leaves [ERROR], and nothing
    the user can do removes a document or resets a slot. *)
Theorem slot_never_reset page page' sid dt st st' :
  page_reachable page → rtc page_step page page' →
  status_at (AppState.shipments (Page.app page)) sid dt = Some st → st ≠ MISSING →
  status_at (AppState.shipments (Page.app page')) sid dt = Some st' →
  st' ≠ MISSING ∧ Spec.left_missing (sid, dt) (page_abs page').
Proof.
  intros Hr Hrun Hst Hne Hst'.
  assert (Spec.left_missing (sid, dt) (page_abs page')) as Hleft.
  { apply (page_run_invariant (Spec.left_missing (sid, dt)) page page');
      [intros σ1 σ2; apply left_missing_next|done|done|].
    intros st0. rewrite lookup_page_abs. congruence. }
  split; [|done]. apply Hleft. by rewrite lookup_page_abs.
Qed.

(** C29: what a run has recorded is never rewritten.  Along every run of
    the page the log keeps its entries, as its older ones, and the analysed
    data its records, as its first ones: an entry of the log and an amount
    of the total stay for good. *)
Theorem history_only_grows page page' :
  page_reachable page → rtc page_step page page' →
  AppState.uploadLogs (Page.app page) `suffix_of` AppState.uploadLogs (Page.app page')
  ∧ AppState.analyzedData (Page.app page)
    `prefix_of` AppState.analyzedData (Page.app page')
  ∧ Spec.successes (page_abs page) ≤ Spec.successes (page_abs page').
Proof.
  intros Hr Hrun.
  destruct (history_kept_steps _ _ (page_run_forget _ _ Hr Hrun)) as [Hl Hd].
  split_and!; [done..|]. by apply suffix_length.
Qed.

End inherited.

(** ** A service that does not answer

    [handleFileUpload] awaits the analysis without a timeout, and the
    dialog cannot be closed while [isAnalyzing] is set.  When the service
    never settles the call, nothing the user can do ends the upload. *)

Section unanswered.
Context {num : Type}.
Implicit Types (sys : Sys.t num) (p : Pending.t).

(** A service that never answers. *)
Definition silent : Analyzer num := λ _ _ _, False.

#[local] Existing Instance silent.

Lemma silent_step sys sys' p :
  reachable sys → Sys.inFlight sys = [p] → step sys sys' → Sys.inFlight sys' = [p].
Proof.
  intros Hf%reachable_flag_matches Hp Hs. unfold flag_matches in Hf. rewrite Hp in Hf.
  destruct Hs as [| | | |file sid dt c st fl _ Hidle _|?? [clock outcome q st fl1 fl2 []]];
    simpl in *; (done || congruence).
Qed.

Lemma silent_run sys sys' p :
  reachable sys → Sys.inFlight sys = [p] → rtc step sys sys' →
  reachable sys' ∧ Sys.inFlight sys' = [p].
Proof.
  intros Hr Hp Hrun. induction Hrun as [|sys1 sys2 sys3 Hs _ IH]; [done|].
  apply IH; [by eapply reachable_step|by eapply silent_step].
Qed.

(** C17: an upload that the service never answers blocks the page for
    good.  From a reachable state with an upload in flight, whatever the
    user does, the upload stays in flight, the in-progress flag stays set,
    the dialog stays open with its buttons disabled, and the slot of a
    listed shipment stays [PROCESSING]: no state with the dialog closed or
    the slot settled is reached. *)
Theorem unanswered_upload_blocks sys sys' p :
  reachable (H:=silent) sys → Sys.inFlight sys = [p] →
  rtc (step (H:=silent)) sys sys' →
  Sys.inFlight sys' = [p]
  ∧ AppState.isAnalyzing (Sys.app sys') = true
  ∧ ModalState.isOpen (AppState.modalState (Sys.app sys')) = true
  ∧ (Pending.shipmentId p ∈ Shipment.id <$> AppState.shipments (Sys.app sys') →
     status_at (AppState.shipments (Sys.app sys'))
       (Pending.shipmentId p) (Pending.docType p) = Some PROCESSING).
Proof.
  intros Hr Hp Hrun. destruct (silent_run _ _ _ Hr Hp Hrun) as [Hr' Hp'].
  pose proof (reachable_flag_matches _ Hr') as Hf. unfold flag_matches in Hf.
  destruct (reachable_error_shown _ Hr') as [Hopen _]. rewrite Hp' in Hf, Hopen.
  split_and!; [done|done|by apply Hopen|].
  intros Hin. apply (processing_iff_in_flight _ _ _ Hr' Hin). by rewrite Hp'.
Qed.

End unanswered.

Lemma silent_submitted_reachable : reachable (H:=silent) demo_submitted.
Proof.
  eapply reachable_step; [eapply reachable_step; [apply reachable_initial|]|].
  - apply step_open.
  - by apply (step_submit demo_file demo_id INVOICE "" _ []).
Defined.

(** ** With the mock, an upload is carried out *)

Section with_mock.
Implicit Types (page : Page.t float) (file : File.t) (sid : string) (dt : DocumentType).

#[local] Existing Instance mock_analyzer.

(** An upload to a slot has been carried out between two pages: nothing
    is in flight, the slot is [UPLOADED], the flag and the message are
    cleared, the dialog is closed and the log has one more entry. *)
Definition carried_out sid dt page page' : Prop :=
  Page.inFlight page' = []
  ∧ status_at (AppState.shipments (Page.app page')) sid dt = Some UPLOADED
  ∧ AppState.isAnalyzing (Page.app page') = false
  ∧ AppState.error (Page.app page') = None
  ∧ ModalState.isOpen (AppState.modalState (Page.app page')) = false
  ∧ length (AppState.uploadLogs (Page.app page'))
    = S (length (AppState.uploadLogs (Page.app page))).

(** C15: with the mock, every upload that a user asks for is carried out.
    From every reachable page on which no analysis runs, for every file,
    every shipment of the list and every document type, there is a run of
    the page (the dialog is opened, the form is filled and submitted, the
    mock answers) after which nothing is in flight, the slot is [UPLOADED],
    the flag and the message are cleared, the dialog is closed and the log
    has one more entry. *)
Theorem mock_upload_completes page file sid dt :
  page_reachable page → AppState.isAnalyzing (Page.app page) = false →
  sid ∈ Shipment.id <$> AppState.shipments (Page.app page) →
  ∃ page', rtc page_step page page' ∧ carried_out sid dt page page'.
Proof.
  intros Hr Hidle Hin.
  destruct (upload_can_start page file sid dt Hr Hidle Hin)
    as (page1 & comments & Hrun & Hfl & _ & Hst & Hlogs).
  set (p := Pending.mk file sid dt (Some comments)) in *.
  destruct (settles (H:=mock_analyzer) (fileContent file sid dt) dt) as [outcome Ho].
  destruct (mock_fulfils _ _ _ Ho) as [r ->].
  pose proof (page_settle (Clock.mk "" 0 "") (Fulfilled r) p [] [] page1 Hfl Ho) as Hs.
  eexists. split; [by eapply rtc_r|]. unfold carried_out.
  cbn [app_event Page.app Page.inFlight p Pending.file Pending.shipmentId
       Pending.docType Pending.comments app].
  rewrite isAnalyzing_settle, error_settle, modalState_settle, uploadLogs_settle, Hlogs.
  split_and!; try done. apply (status_at_settle _ _ _ _ _ (Fulfilled r)).
  rewrite (page_ids page1), <- (page_ids page) by eauto using page_run_reachable.
  done.
Qed.

End with_mock.

(** ** The handler with the service that it calls *)

Section served.
Implicit Types (st : AppState.t float) (file : File.t) (sid : string)
  (dt : DocumentType) (comments : option string) (clock : Clock.t)
  (parse : string → option (Json float)) (generateContent : Request.t → Response)
  (draws : Draws.t).

(** [handleFileUpload] with its call of [analyzeDocumentContent], when no
    other handler runs during the analysis: the part before the [await],
    the call with the content that is made of the file, and the part after
    the [await] with the outcome of the call. *)
Definition handleFileUpload_served (ai : bool) parse generateContent draws clock file sid
    dt comments st : option (AppState.t float) :=
  outcome ← analyzeDocumentContent ai parse generateContent draws
              (fileContent file sid dt) dt;
  Some (handleFileUpload clock outcome file sid dt comments st).

Lemma handleFileUpload_served_Some ai parse generateContent draws clock file sid dt
    comments st outcome :
  analyzeDocumentContent ai parse generateContent draws (fileContent file sid dt) dt
  = Some outcome →
  handleFileUpload_served ai parse generateContent draws clock file sid dt comments st
  = Some (handleFileUpload_settle clock file sid dt comments outcome
            (handleFileUpload_begin sid dt st)).
Proof. unfold handleFileUpload_served. by intros ->. Qed.

(** C16: with a key, a response that conforms to the schema is what the page
    records.  When the text of the response parses to a value that conforms
    to the schema of the request, the upload leaves in the slot the
    document of the file with the summary of the value, appends the
    properties of the value to the analysed data, so that the total value
    grows by the amount of the value, added as doubles are, puts a log
    entry with them at the head of the log, shows no message and closes the
    dialog. *)
Theorem conforming_response_uploads parse generateContent draws clock file sid dt
    comments st s text result :
  find_shipment (AppState.shipments st) sid = Some s →
  generateContent (request (fileContent file sid dt) dt) = ResponseText (Some text) →
  parse text = Some result →
  conforms float_integral responseSchema result = true →
  ∃ r st',
    read_result result ≫= typed = Some r
    ∧ handleFileUpload_served true parse generateContent draws clock file sid dt
        comments st = Some st'
    ∧ slot_at (AppState.shipments st') sid dt
      = Some (uploaded_document file (Clock.uploadDate clock) (Shipment.invoiceNumber s) r)
    ∧ is_Some (AnalysisResult.analysisSummary r)
    ∧ AppState.analyzedData st' = AppState.analyzedData st ++ [AnalyzedData.of_result sid r]
    ∧ is_Some (AnalysisResult.totalAmount r)
    ∧ Summary.totalValue (summary_of st')
      = PrimFloat.add (Summary.totalValue (summary_of st))
          (js_or (AnalysisResult.totalAmount r) 0%float)
    ∧ AppState.uploadLogs st' = newLog clock file sid dt comments r :: AppState.uploadLogs st
    ∧ AppState.error st' = None
    ∧ AppState.isAnalyzing st' = false
    ∧ ModalState.isOpen (AppState.modalState st') = false.
Proof.
  intros Hs Hg Hp Hc.
  destruct (conforming_value_typed float_integral result Hc)
    as (raw & r & Hraw & Hr & _ & _ & _ & _ & _ & _ & Ha & _ & _ & Hsum).
  exists r, (handleFileUpload clock (Fulfilled r) file sid dt comments st).
  split; [by rewrite Hraw|]. split.
  - apply handleFileUpload_served_Some. unfold analyzeDocumentContent. rewrite Hg.
    by apply project_Fulfilled with result raw.
  - rewrite (slot_at_fulfilled _ _ _ _ _ _ _ s) by done. split_and!; try done.
    unfold summary_of, handleFileUpload, andThen.
    rewrite analyzedData_settle. cbn [analyticsSummary Summary.totalValue].
    by rewrite totalValue_of_snoc.
Qed.

(** With a key, every failure of the request reaches the user as the
    one message of the page.  When the request fails, the response has no
    text, its text cannot be parsed or it parses to [null], the upload
    leaves the slot [ERROR], shows the message, records nothing and leaves
    the dialog as it is. *)
Theorem failed_request_shown parse generateContent draws clock file sid dt comments st :
  sid ∈ Shipment.id <$> AppState.shipments st →
  generateContent (request (fileContent file sid dt) dt) = ResponseError
  ∨ (∃ text, generateContent (request (fileContent file sid dt) dt) = ResponseText text
             ∧ (text ≫= parse = None ∨ text ≫= parse = Some JsonNull)) →
  ∃ st',
    handleFileUpload_served true parse generateContent draws clock file sid dt
      comments st = Some st'
    ∧ status_at (AppState.shipments st') sid dt = Some ERROR
    ∧ AppState.error st' = Some analysisFailed
    ∧ AppState.uploadLogs st' = AppState.uploadLogs st
    ∧ AppState.analyzedData st' = AppState.analyzedData st
    ∧ AppState.isAnalyzing st' = false
    ∧ AppState.modalState st' = AppState.modalState st.
Proof.
  intros Hin Hrej%project_Rejected.
  exists (handleFileUpload clock Rejected file sid dt comments st). split.
  - by apply handleFileUpload_served_Some.
  - split; [by apply (status_at_handleFileUpload clock Rejected)|done].
Qed.

(** C24: nothing checks the response against the schema: a response that is
    an empty object is recorded as a success.  The slot becomes [UPLOADED]
    with no summary, the log gets a [Success] entry whose extracted data
    has no property, and the analysed data a record with no amount. *)
Theorem empty_response_recorded parse generateContent draws clock file sid dt comments st
    text :
  sid ∈ Shipment.id <$> AppState.shipments st →
  generateContent (request (fileContent file sid dt) dt) = ResponseText (Some text) →
  parse text = Some (JsonObject []) →
  let r := AnalysisResult.mk None None None None None in
  ∃ st',
    handleFileUpload_served true parse generateContent draws clock file sid dt
      comments st = Some st'
    ∧ conforms float_integral responseSchema (JsonObject (num:=float) []) = false
    ∧ status_at (AppState.shipments st') sid dt = Some UPLOADED
    ∧ AppState.uploadLogs st' = newLog clock file sid dt comments r :: AppState.uploadLogs st
    ∧ UploadLogEntry.analysisStatus (newLog clock file sid dt comments r) = Success
    ∧ AppState.analyzedData st' = AppState.analyzedData st ++ [AnalyzedData.of_result sid r].
Proof.
  intros Hin Hg Hp r.
  exists (handleFileUpload clock (Fulfilled r) file sid dt comments st). split.
  - apply handleFileUpload_served_Some. unfold analyzeDocumentContent. rewrite Hg.
    by apply project_Fulfilled with (JsonObject []) (Raw.mk None None None None None).
  - split; [done|]. split; [by apply (status_at_handleFileUpload clock (Fulfilled r))|done].
Qed.

End served.

(** ** After a failure *)

Section retry.
Context `{Analyzer num}.
Implicit Types (page : Page.t num) (m : Modal.t) (u : Modal.Upload).

(** The page after the submit button was pressed, and after the analysis
    that it started failed. *)
Definition submitted page u : Page.t num :=
  app_event false
    (handleFileUpload_begin (Modal.upload_shipmentId u) (Modal.upload_docType u))
    (Page.mk (Page.app page) (Page.modal page) (Page.inFlight page ++ [pending_of u])).

Definition failed clock page u : Page.t num :=
  app_event false
    (handleFileUpload_settle clock (Modal.upload_file u) (Modal.upload_shipmentId u)
       (Modal.upload_docType u) (Some (Modal.upload_comments u)) Rejected)
    (Page.mk (Page.app (submitted page u)) (Page.modal (submitted page u)) []).

(** A page that offers its submit button has nothing in flight and its
    dialog open. *)
Lemma submit_offered_idle page m :
  page_reachable page → Page.modal page = Some m →
  Modal.submit_disabled (props_of (Page.app page)) m = false →
  Page.inFlight page = []
  ∧ AppState.isAnalyzing (Page.app page) = false
  ∧ ModalState.isOpen (AppState.modalState (Page.app page)) = true.
Proof.
  intros Hr Hm Hd.
  assert (AppState.isAnalyzing (Page.app page) = false) as Hidle.
  { rewrite submit_disabled_guard in Hd. cbn [props_of Props.isAnalyzing] in Hd.
    by destruct (AppState.isAnalyzing _); [rewrite orb_true_r in Hd|]. }
  split_and!; [|done|by apply (page_reachable_mounted _ Hr); rewrite Hm].
  apply page_reachable_forget, reachable_flag_matches in Hr.
  unfold flag_matches in Hr. cbn [forget Sys.inFlight Sys.app] in Hr.
  destruct (Page.inFlight page) as [|? [|]]; [done|congruence|done].
Qed.

(** The form survives the submission and the failure. *)
Lemma failed_keeps_form clock page m u :
  Page.modal page = Some m →
  ModalState.isOpen (AppState.modalState (Page.app page)) = true →
  Page.modal (submitted page u) = Some m ∧ Page.modal (failed clock page u) = Some m.
Proof.
  intros Hm Ho.
  assert (Page.modal (submitted page u) = Some m) as Hm1
    by (by apply app_event_keeps_form).
  split; [done|]. apply app_event_keeps_form; [done| |done].
  cbn [Page.app]. by rewrite modalState_settle.
Qed.

(** The submission and the failure are steps of the page. *)
Lemma failed_run clock page m u :
  page_reachable page → Page.modal page = Some m →
  Modal.submit_disabled (props_of (Page.app page)) m = false →
  Modal.handleSubmit m = Some u →
  analyzes (fileContent (Modal.upload_file u) (Modal.upload_shipmentId u)
              (Modal.upload_docType u)) (Modal.upload_docType u)
    (Rejected : Outcome num) →
  page_step page (submitted page u)
  ∧ page_step (submitted page u) (failed clock page u).
Proof.
  intros Hr Hm Hd Hu Ha. destruct (submit_offered_idle page m Hr Hm Hd) as (Hfl & _).
  split; [by apply (page_submit m u page)|].
  apply (page_settle clock Rejected (pending_of u) [] [] (submitted page u)); [|done].
  unfold submitted. cbn [app_event Page.inFlight]. by rewrite Hfl.
Qed.

(** C21: after a failed analysis the same upload can be submitted again at
    once.  When the analysis of a submitted upload fails, the page shows
    the message and the slot is [ERROR]; the dialog is still open with the
    form as it was submitted, its submit button is enabled, and pressing it
    submits the same upload: the message is cleared and the slot is
    [PROCESSING] again. *)
Theorem failed_upload_retried clock page m u :
  page_reachable page → Page.modal page = Some m →
  Modal.submit_disabled (props_of (Page.app page)) m = false →
  Modal.handleSubmit m = Some u →
  analyzes (fileContent (Modal.upload_file u) (Modal.upload_shipmentId u)
              (Modal.upload_docType u)) (Modal.upload_docType u)
    (Rejected : Outcome num) →
  let page' := failed clock page u in
  let slot pg := status_at (AppState.shipments (Page.app pg))
                   (Modal.upload_shipmentId u) (Modal.upload_docType u) in
  rtc page_step page page'
  ∧ AppState.error (Page.app page') = Some analysisFailed
  ∧ slot page' = Some ERROR
  ∧ Page.modal page' = Some m
  ∧ Modal.submit_disabled (props_of (Page.app page')) m = false
  ∧ page_step page' (submitted page' u)
  ∧ Page.inFlight (submitted page' u) = [pending_of u]
  ∧ AppState.error (Page.app (submitted page' u)) = None
  ∧ slot (submitted page' u) = Some PROCESSING.
Proof.
  intros Hr Hm Hd Hu Ha page' slot.
  destruct (submit_offered_idle page m Hr Hm Hd) as (Hfl & Hidle & Ho).
  destruct (failed_run clock page m u Hr Hm Hd Hu Ha) as [Hs1 Hs2].
  destruct (failed_keeps_form clock page m u Hm Ho) as [_ Hm'].
  assert (rtc page_step page page') as Hrun by (by eapply rtc_l; [|apply rtc_once]).
  pose proof (page_run_reachable _ _ Hr Hrun) as Hr'.
  assert (Modal.upload_shipmentId u ∈ Shipment.id <$> AppState.shipments (Page.app page))
    as Hin by (by apply (handleSubmit_listed (props_of (Page.app page)) m);
                 [apply page_reachable_dialog|]).
  assert (Modal.submit_disabled (props_of (Page.app page')) m = false) as Hd'.
  { rewrite submit_disabled_guard in Hd |- *. cbn [props_of Props.isAnalyzing] in *.
    unfold page', failed. cbn [app_event Page.app]. rewrite isAnalyzing_settle.
    by rewrite Hidle in Hd. }
  split_and!; [done|done| |done|done|by apply (page_submit m u page')|done|done|].
  - apply (status_at_settle _ _ _ _ _ Rejected).
    cbn [submitted app_event Page.app]. rewrite shipments_begin.
    by rewrite (update_shipment_ids (Modal.upload_docType u)) by apply _.
  - unfold slot. cbn [submitted app_event Page.app]. rewrite shipments_begin.
    apply status_at_processing. by rewrite (page_ids page'), <- (page_ids page).
Qed.

End retry.

(** ** The run of the file Page, for the witnesses *)

#[local] Existing Instance any_outcome.

Lemma demo_settle_page_step : page_step (demo_page5 Z) demo_page6.
Proof.
  by apply (page_settle demo_clock (Fulfilled demo_result)
              (pending_of demo_upload_call) [] [] (demo_page5 Z)).
Defined.

(** The form is submitted and the analysis succeeds. *)
Lemma demo_run : rtc page_step (demo_page4 Z) demo_page6.
Proof.
  exact (rtc_l _ _ _ _ (demo_submit_step Z) (rtc_once _ _ demo_settle_page_step)).
Defined.

Lemma page_refines_lifecycle_witness :
  rtc Spec.next (Spec.initial (board INITIAL_SHIPMENTS)) (page_abs (demo_page4 Z))
  ∧ rtc Spec.next (page_abs (demo_page4 Z)) (page_abs demo_page6)
  ∧ Spec.coherent (page_abs demo_page6)
  ∧ Spec.no_duplicate (page_abs demo_page6).
Proof.
  exact (page_refines_lifecycle (demo_page4 Z) demo_page6 (demo_page4_reachable Z)
           demo_run).
Defined.

(** The slot of the run is [PROCESSING] once the form is submitted, and
    [UPLOADED], not [MISSING], when the analysis has succeeded. *)
Lemma slot_never_reset_witness :
  status_at (AppState.shipments (Page.app (demo_page5 Z))) demo_id INVOICE
  = Some PROCESSING
  ∧ status_at (AppState.shipments (Page.app demo_page6)) demo_id INVOICE = Some UPLOADED
  ∧ UPLOADED ≠ MISSING
  ∧ Spec.left_missing (demo_id, INVOICE) (page_abs demo_page6).
Proof.
  split; [reflexivity|split; [reflexivity|]].
  exact (slot_never_reset (demo_page5 Z) demo_page6 demo_id INVOICE PROCESSING UPLOADED
           (demo_page5_reachable Z) (rtc_once _ _ demo_settle_page_step)
           eq_refl ltac:(discriminate) eq_refl).
Defined.

Lemma history_only_grows_witness :
  AppState.uploadLogs (Page.app (demo_page4 Z))
    `suffix_of` AppState.uploadLogs (Page.app demo_page6)
  ∧ AppState.analyzedData (Page.app (demo_page4 Z))
    `prefix_of` AppState.analyzedData (Page.app demo_page6)
  ∧ Spec.successes (page_abs (demo_page4 Z)) ≤ Spec.successes (page_abs demo_page6).
Proof.
  exact (history_only_grows (demo_page4 Z) demo_page6 (demo_page4_reachable Z) demo_run).
Defined.

(** The header's button is clicked while the upload of the run waits for
    an answer that does not come. *)
Lemma unanswered_upload_blocks_witness :
  let sys' := Sys.mk (handleOpenModal None None None (Sys.app demo_submitted))
                     [demo_pending] in
  Sys.inFlight sys' = [demo_pending]
  ∧ AppState.isAnalyzing (Sys.app sys') = true
  ∧ ModalState.isOpen (AppState.modalState (Sys.app sys')) = true
  ∧ (demo_id ∈ Shipment.id <$> AppState.shipments (Sys.app sys') →
     status_at (AppState.shipments (Sys.app sys')) demo_id INVOICE = Some PROCESSING).
Proof.
  exact (unanswered_upload_blocks (num:=Z) demo_submitted _ demo_pending
           silent_submitted_reachable eq_refl
           (rtc_once (R:=step (H:=silent)) _ _ (step_open _ [demo_pending]))).
Defined.

Lemma demo_id_listed_float :
  demo_id ∈ Shipment.id <$> AppState.shipments (AppState.initial (num:=float)).
Proof. by apply (bool_decide_unpack _). Defined.

Lemma mock_upload_completes_witness :
  ∃ page' : Page.t float, rtc (page_step (H:=mock_analyzer)) Page.initial page'
    ∧ carried_out demo_id INVOICE Page.initial page'.
Proof.
  exact (mock_upload_completes Page.initial demo_file demo_id INVOICE
           (rtc_refl _ _) eq_refl demo_id_listed_float).
Defined.

(** ** The service with a key, for the witnesses *)

Definition demo_served (result : Json float) : option (AppState.t float) :=
  handleFileUpload_served true (demo_parse result) demo_generateContent demo_draws
    demo_clock demo_file demo_id INVOICE (Some "") AppState.initial.

Lemma conforming_response_uploads_witness :
  ∃ r st',
    read_result demo_response ≫= typed = Some r
    ∧ demo_served demo_response = Some st'
    ∧ slot_at (AppState.shipments st') demo_id INVOICE
      = Some (uploaded_document demo_file (Clock.uploadDate demo_clock)
                (Shipment.invoiceNumber demo_shipment) r)
    ∧ is_Some (AnalysisResult.analysisSummary r)
    ∧ AppState.analyzedData st'
      = AppState.analyzedData (AppState.initial (num:=float))
        ++ [AnalyzedData.of_result demo_id r]
    ∧ is_Some (AnalysisResult.totalAmount r)
    ∧ Summary.totalValue (summary_of st')
      = PrimFloat.add (Summary.totalValue (summary_of (AppState.initial (num:=float))))
          (js_or (AnalysisResult.totalAmount r) 0%float)
    ∧ AppState.uploadLogs st'
      = newLog demo_clock demo_file demo_id INVOICE (Some "") r
        :: AppState.uploadLogs (AppState.initial (num:=float))
    ∧ AppState.error st' = None
    ∧ AppState.isAnalyzing st' = false
    ∧ ModalState.isOpen (AppState.modalState st') = false.
Proof.
  apply (conforming_response_uploads (demo_parse demo_response) demo_generateContent
           demo_draws demo_clock demo_file demo_id INVOICE (Some "") AppState.initial
           demo_shipment "response" demo_response);
    [reflexivity|reflexivity|reflexivity|by vm_compute].
Defined.

Lemma failed_request_shown_witness :
  ∃ st',
    demo_served JsonNull = Some st'
    ∧ status_at (AppState.shipments st') demo_id INVOICE = Some ERROR
    ∧ AppState.error st' = Some analysisFailed
    ∧ AppState.uploadLogs st' = AppState.uploadLogs (AppState.initial (num:=float))
    ∧ AppState.analyzedData st' = AppState.analyzedData (AppState.initial (num:=float))
    ∧ AppState.isAnalyzing st' = false
    ∧ AppState.modalState st' = AppState.modalState (AppState.initial (num:=float)).
Proof.
  apply (failed_request_shown (demo_parse JsonNull) demo_generateContent demo_draws
           demo_clock demo_file demo_id INVOICE (Some "") AppState.initial
           demo_id_listed_float).
  right. exists (Some "response"). split; [reflexivity|right; reflexivity].
Defined.

Lemma empty_response_recorded_witness :
  let r := AnalysisResult.mk (num:=float) None None None None None in
  ∃ st',
    demo_served (JsonObject []) = Some st'
    ∧ conforms float_integral responseSchema (JsonObject (num:=float) []) = false
    ∧ status_at (AppState.shipments st') demo_id INVOICE = Some UPLOADED
    ∧ AppState.uploadLogs st'
      = newLog demo_clock demo_file demo_id INVOICE (Some "") r
        :: AppState.uploadLogs (AppState.initial (num:=float))
    ∧ UploadLogEntry.analysisStatus (newLog demo_clock demo_file demo_id INVOICE (Some "") r)
      = Success
    ∧ AppState.analyzedData st'
      = AppState.analyzedData (AppState.initial (num:=float))
        ++ [AnalyzedData.of_result demo_id r].
Proof.
  exact (empty_response_recorded (demo_parse (JsonObject [])) demo_generateContent
           demo_draws demo_clock demo_file demo_id INVOICE (Some "") AppState.initial
           "response" demo_id_listed_float eq_refl eq_refl).
Defined.

Lemma failed_upload_retried_witness :
  let page' := failed demo_clock (demo_page4 Z) demo_upload_call in
  let slot pg := status_at (AppState.shipments (Page.app pg)) demo_id INVOICE in
  rtc page_step (demo_page4 Z) page'
  ∧ AppState.error (Page.app page') = Some analysisFailed
  ∧ slot page' = Some ERROR
  ∧ Page.modal page' = Some (demo_modal4 Z)
  ∧ Modal.submit_disabled (props_of (Page.app page')) (demo_modal4 Z) = false
  ∧ page_step page' (submitted page' demo_upload_call)
  ∧ Page.inFlight (submitted page' demo_upload_call) = [pending_of demo_upload_call]
  ∧ AppState.error (Page.app (submitted page' demo_upload_call)) = None
  ∧ slot (submitted page' demo_upload_call) = Some PROCESSING.
Proof.
  exact (failed_upload_retried demo_clock (demo_page4 Z) (demo_modal4 Z) demo_upload_call
           (demo_page4_reachable Z) eq_refl eq_refl eq_refl I).
Defined.
